(** * Field-engineer ticketing: ticket store, lifecycle and provider fallback

    A shallow embedding of the data-access layer of the ticketing front end:
    - [src/types/ticket.ts]            the [Ticket] / [Activity] records,
    - [src/lib/mock-data.ts]           [mockDbHelpers] (the in-memory provider),
                                       [withFallback] and [dbHelpers] (the live one),
    - the [useTickets] hook            [loadTickets], [createTicket],
                                       [updateTicket], [assignTicket], ...

    Asynchronous functions are run to completion one after the other (the host
    is single threaded and every function awaits each call it makes), so an
    [async] function is a state transformer that may throw.  The simulated
    network delays of the mock provider ([setTimeout]) and console logging
    have no effect on the state and are left out. *)

From Stdlib Require Import String List ZArith Bool Lia DecimalString Permutation.
From Stdlib Require Import DecimalNat.
Import ListNotations.
Open Scope string_scope.

(* ================================================================== *)
(** * Data model (src/types/ticket.ts)                                *)
(* ================================================================== *)

(** [Ticket['status']] *)
Inductive Status : Type :=
| open | assigned | in_progress | resolved | verified | closed.

Definition Status_eqb (a b : Status) : bool :=
  match a, b with
  | open, open | assigned, assigned | in_progress, in_progress
  | resolved, resolved | verified, verified | closed, closed => true
  | _, _ => false
  end.

(** [Activity['type']] *)
Inductive ActivityType : Type :=
| created | act_assigned | status_change | comment | media_upload | verification.

(** A [Date], as milliseconds since the epoch. *)
Definition Date := Z.

Record UserProfile : Type := {
  profile_id : string;
  email : string;
  full_name : string;
  role : string;          (* 'admin' | 'supervisor' | 'field_engineer' *)
  is_active : bool
}.

(** The fields of [Ticket] that the data layer reads or writes.  An optional
    field holds [None] when the JavaScript property is missing, [undefined]
    or [null]: every reader in the source only tests such a field for
    truthiness.  Coordinates, hours, costs, the equipment reference and the
    other hydrated relations are carried along untouched by the code below
    and are not represented. *)
Record Ticket : Type := {
  id : string;
  title : string;
  description : string;
  type : string;
  status : Status;
  priority : string;
  location : string;
  created_by : string;
  assigned_to : option string;
  verified_by : option string;
  created_at : Date;
  updated_at : Date;
  assigned_at : option Date;
  resolved_at : option Date;
  verified_at : option Date;
  due_date : option Date;
  assigned_to_profile : option UserProfile
}.

Record Activity : Type := {
  act_id : string;
  ticket_id : string;
  user_id : string;
  act_type : ActivityType;
  act_description : string;
  act_created_at : Date
}.

(** ** JavaScript object patches

    A property of an object literal used as a patch is either not there, or
    there with value [undefined], [null] or a proper value.  The difference
    matters: object spread copies an own property whose value is
    [undefined], JSON serialisation drops it. *)
Inductive Patch (A : Type) : Type :=
| Absent
| Undefined
| Null
| Val (a : A).
Arguments Absent {A}.
Arguments Undefined {A}.
Arguments Null {A}.
Arguments Val {A} a.

(** [{...{k: old}, ...{k: p}}.k] for an optional property *)
Definition spread {A} (old : option A) (p : Patch A) : option A :=
  match p with
  | Absent => old
  | Undefined | Null => None
  | Val a => Some a
  end.

(** the same for a property that the type makes mandatory: the patch either
    carries it or not *)
Definition spread_req {A} (old : A) (p : option A) : A :=
  match p with Some a => a | None => old end.

(** truthiness of a string, of an optional string and of a patched property *)
Definition truthy (s : string) : bool := negb (s =? "").

Definition truthy_opt (o : option string) : bool :=
  match o with Some s => truthy s | None => false end.

Definition truthy_str (p : Patch string) : bool :=
  match p with Val s => truthy s | _ => false end.

(** a [Date] object is always truthy *)
Definition truthy_date (p : Patch Date) : bool :=
  match p with Val _ => true | _ => false end.

(** [Partial<Ticket>], the [updates] argument of the update operations *)
Record TicketPatch : Type := {
  upd_id : option string;
  upd_title : option string;
  upd_description : option string;
  upd_type : option string;
  upd_status : option Status;
  upd_priority : option string;
  upd_location : option string;
  upd_created_by : option string;
  upd_assigned_to : Patch string;
  upd_verified_by : Patch string;
  upd_created_at : option Date;
  upd_updated_at : option Date;
  upd_assigned_at : Patch Date;
  upd_resolved_at : Patch Date;
  upd_verified_at : Patch Date;
  upd_due_date : Patch Date
}.

(** [ticketData], the argument of the create operations *)
Record TicketData : Type := {
  td_title : string;
  td_description : string;
  td_type : option string;
  td_priority : option string;
  td_location : string;
  td_due_date : option Date
}.

(** [x || dflt] on an optional string *)
Definition or_default (x : option string) (dflt : string) : string :=
  match x with
  | Some s => if truthy s then s else dflt
  | None => dflt
  end.

(* ================================================================== *)
(** * The environment and the state of one browser session            *)
(* ================================================================== *)

(** Requests that reach the live backend. *)
Inductive Request : Type :=
| SelectTickets (or_filter : option string)
    (* from('tickets').select(..).order('created_at', desc)
       [.or(created_by.eq.u,assigned_to.eq.u)] *)
| InsertTicket (ticketData : TicketData) (createdBy : string)
| UpdateTicket (ticketId : string) (dbUpdates : TicketPatch)
| SelectActivities (ticketId : string).

(** What the live backend holds, as far as this client can see it. *)
Record Db : Type := {
  db_tickets : list Ticket;
  db_activities : list Activity
}.

Inductive Rows : Type :=
| TicketRows (l : list Ticket)
| ActivityRows (l : list Activity).

(** Calls into the notification system ([useNotificationSystem]). *)
Inductive NotifyCall : Type :=
| notifyTicketCreated (t : Ticket)
| notifyTicketResolved (t : Ticket) (userId : string)
| notifyTicketAssigned (t : Ticket) (assignee userId : string).

Inductive Error : Type :=
| UserNotAuthenticated          (* Error('User not authenticated') *)
| UserNotFound                  (* Error('User not found') *)
| TicketNotFound                (* Error('Ticket not found') *)
| SupabaseError                 (* an error object returned or thrown by the client *)
| ClientIsNull                  (* TypeError: [supabase] is null when not configured *)
| FallbackDisabled (operationName : string)
| NotificationError.

Inductive Toast : Type :=
| ToastTicketCreated
| ToastCreateFailed (e : Error)
| ToastTicketUpdated
| ToastUpdateFailed (e : Error)
| ToastLoadFailed (e : Error)
| ToastActivitiesFailed (e : Error).

(** Everything the code reads but does not own.  The write behaviour of the
    live backend (column defaults, triggers, row level security) is not part
    of this repository and is a parameter, as are the moments at which the
    backend is unreachable, the clock, the feature flag and the notification
    system. *)
Record Env : Type := {
  isConfigured : bool;                 (* config.supabase.isConfigured *)
  enableMockFallback : bool;           (* isFeatureEnabled('enableMockFallback') *)
  clock : nat -> Date;                 (* the n-th reading of the clock *)
  liveFails : nat -> bool;             (* does the n-th live call fail? *)
  liveWrite : Request -> Db -> Rows * Db;
  notifyFails : NotifyCall -> bool;    (* does this notification call throw? *)
  mockUsers : list UserProfile;
  user : option string;                (* useAuth().user, by its id *)
  profile : option UserProfile         (* useAuth().profile *)
}.
Existing Class Env.

Record State : Type := {
  ticks : nat;                         (* clock readings taken so far *)
  supabaseAvailable : bool;            (* the module level flag *)
  liveCalls : nat;                     (* live calls made so far *)
  liveDb : Db;
  requests : list Request;             (* live calls made so far, oldest first *)
  currentMockTickets : list Ticket;
  nextTicketId : nat;
  tickets : list Ticket;               (* the hook's [tickets] state *)
  toasts : list Toast;                 (* newest first *)
  notified : list NotifyCall           (* notification calls that completed *)
}.

Definition set_ticks (n : nat) (s : State) : State :=
  {| ticks := n; supabaseAvailable := supabaseAvailable s;
     liveCalls := liveCalls s; liveDb := liveDb s; requests := requests s;
     currentMockTickets := currentMockTickets s;
     nextTicketId := nextTicketId s; tickets := tickets s;
     toasts := toasts s; notified := notified s |}.

Definition set_supabaseAvailable (b : bool) (s : State) : State :=
  {| ticks := ticks s; supabaseAvailable := b;
     liveCalls := liveCalls s; liveDb := liveDb s; requests := requests s;
     currentMockTickets := currentMockTickets s;
     nextTicketId := nextTicketId s; tickets := tickets s;
     toasts := toasts s; notified := notified s |}.

Definition set_live (n : nat) (db : Db) (rs : list Request) (s : State) : State :=
  {| ticks := ticks s; supabaseAvailable := supabaseAvailable s;
     liveCalls := n; liveDb := db; requests := rs;
     currentMockTickets := currentMockTickets s;
     nextTicketId := nextTicketId s; tickets := tickets s;
     toasts := toasts s; notified := notified s |}.

Definition set_currentMockTickets (l : list Ticket) (s : State) : State :=
  {| ticks := ticks s; supabaseAvailable := supabaseAvailable s;
     liveCalls := liveCalls s; liveDb := liveDb s; requests := requests s;
     currentMockTickets := l;
     nextTicketId := nextTicketId s; tickets := tickets s;
     toasts := toasts s; notified := notified s |}.

Definition set_nextTicketId (n : nat) (s : State) : State :=
  {| ticks := ticks s; supabaseAvailable := supabaseAvailable s;
     liveCalls := liveCalls s; liveDb := liveDb s; requests := requests s;
     currentMockTickets := currentMockTickets s;
     nextTicketId := n; tickets := tickets s;
     toasts := toasts s; notified := notified s |}.

Definition set_tickets (l : list Ticket) (s : State) : State :=
  {| ticks := ticks s; supabaseAvailable := supabaseAvailable s;
     liveCalls := liveCalls s; liveDb := liveDb s; requests := requests s;
     currentMockTickets := currentMockTickets s;
     nextTicketId := nextTicketId s; tickets := l;
     toasts := toasts s; notified := notified s |}.

Definition set_toasts (l : list Toast) (s : State) : State :=
  {| ticks := ticks s; supabaseAvailable := supabaseAvailable s;
     liveCalls := liveCalls s; liveDb := liveDb s; requests := requests s;
     currentMockTickets := currentMockTickets s;
     nextTicketId := nextTicketId s; tickets := tickets s;
     toasts := l; notified := notified s |}.

Definition set_notified (l : list NotifyCall) (s : State) : State :=
  {| ticks := ticks s; supabaseAvailable := supabaseAvailable s;
     liveCalls := liveCalls s; liveDb := liveDb s; requests := requests s;
     currentMockTickets := currentMockTickets s;
     nextTicketId := nextTicketId s; tickets := tickets s;
     toasts := toasts s; notified := l |}.

(* ================================================================== *)
(** * Computations that read and write the session and may throw      *)
(* ================================================================== *)

Inductive Result (A : Type) : Type :=
| Ok (a : A)
| Throw (e : Error).
Arguments Ok {A} a.
Arguments Throw {A} e.

(** A throw keeps the state as it was when the exception left the function. *)
Definition M (A : Type) : Type := State -> Result A * State.

Definition ret {A} (a : A) : M A := fun s => (Ok a, s).

Definition throw {A} (e : Error) : M A := fun s => (Throw e, s).

Definition bind {A B} (m : M A) (k : A -> M B) : M B :=
  fun s => match m s with
           | (Ok a, s') => k a s'
           | (Throw e, s') => (Throw e, s')
           end.

(** [try { m } catch (e) { h e }] *)
Definition try_catch {A} (m : M A) (h : Error -> M A) : M A :=
  fun s => match m s with
           | (Ok a, s') => (Ok a, s')
           | (Throw e, s') => h e s'
           end.

Definition modify (f : State -> State) : M unit := fun s => (Ok tt, f s).

Definition get {A} (f : State -> A) : M A := fun s => (Ok (f s), s).

Declare Scope m_scope.
Delimit Scope m_scope with m.
Notation "x <- m ;; k" := (bind m (fun x => k))
  (at level 61, m at next level, right associativity) : m_scope.
Notation "m ;;; k" := (bind m (fun _ => k))
  (at level 61, right associativity) : m_scope.
Open Scope m_scope.

Definition when (b : bool) (m : M unit) : M unit := if b then m else ret tt.

(* ================================================================== *)
(** * Small library: arrays and strings of the JavaScript side        *)
(* ================================================================== *)

(** [String(n)] *)
Definition string_of_nat (n : nat) : string :=
  NilEmpty.string_of_uint (Nat.to_uint n).

(** [o === u] for a property [o] that may be null and a string [u] *)
Definition is_user (u : string) (o : option string) : bool :=
  match o with Some a => a =? u | None => false end.

(** [l.findIndex(p)], [None] standing for -1 *)
Fixpoint findIndex {A} (p : A -> bool) (l : list A) : option nat :=
  match l with
  | [] => None
  | x :: r => if p x then Some 0
              else match findIndex p r with
                   | Some i => Some (S i)
                   | None => None
                   end
  end.

(** [l[i] = x] for an index inside the array *)
Fixpoint array_set {A} (i : nat) (x : A) (l : list A) : list A :=
  match l, i with
  | [], _ => []
  | _ :: r, 0 => x :: r
  | y :: r, S j => y :: array_set j x r
  end.

(** rows ordered by a date column, newest first *)
Fixpoint insert_desc {A} (key : A -> Date) (x : A) (l : list A) : list A :=
  match l with
  | [] => [x]
  | y :: r => if (key y <=? key x)%Z then x :: l
              else y :: insert_desc key x r
  end.

Definition order_desc {A} (key : A -> Date) (l : list A) : list A :=
  fold_right (insert_desc key) [] l.

(** the visibility test that both providers apply for a field engineer:
    [t.created_by === userId || t.assigned_to === userId] in the mock,
    [or(created_by.eq.userId,assigned_to.eq.userId)] in the live query *)
Definition created_or_assigned (userId : string) (t : Ticket) : bool :=
  (created_by t =? userId) || is_user userId (assigned_to t).

(** [role === 'field_engineer' && userId] *)
Definition filter_applies (userId role : option string) : bool :=
  match role with
  | Some r => (r =? "field_engineer") && truthy_opt userId
  | None => false
  end.

(** [{...current, ...updates, updated_at: now}] *)
Definition apply_updates (current : Ticket) (updates : TicketPatch) (now : Date)
  : Ticket :=
  {| id := spread_req (id current) (upd_id updates);
     title := spread_req (title current) (upd_title updates);
     description := spread_req (description current) (upd_description updates);
     type := spread_req (type current) (upd_type updates);
     status := spread_req (status current) (upd_status updates);
     priority := spread_req (priority current) (upd_priority updates);
     location := spread_req (location current) (upd_location updates);
     created_by := spread_req (created_by current) (upd_created_by updates);
     assigned_to := spread (assigned_to current) (upd_assigned_to updates);
     verified_by := spread (verified_by current) (upd_verified_by updates);
     created_at := spread_req (created_at current) (upd_created_at updates);
     updated_at := now;
     assigned_at := spread (assigned_at current) (upd_assigned_at updates);
     resolved_at := spread (resolved_at current) (upd_resolved_at updates);
     verified_at := spread (verified_at current) (upd_verified_at updates);
     due_date := spread (due_date current) (upd_due_date updates);
     assigned_to_profile := assigned_to_profile current |}.

Definition with_assigned_to_profile (p : UserProfile) (t : Ticket) : Ticket :=
  {| id := id t; title := title t; description := description t;
     type := type t; status := status t; priority := priority t;
     location := location t; created_by := created_by t;
     assigned_to := assigned_to t; verified_by := verified_by t;
     created_at := created_at t; updated_at := updated_at t;
     assigned_at := assigned_at t; resolved_at := resolved_at t;
     verified_at := verified_at t; due_date := due_date t;
     assigned_to_profile := Some p |}.

(** the "database format to frontend format" step of the hook: dates are
    rebuilt from their serialised form, a falsy optional date becomes
    [undefined] *)
Definition transformTicket (data : Ticket) : Ticket :=
  {| id := id data; title := title data; description := description data;
     type := type data; status := status data; priority := priority data;
     location := location data; created_by := created_by data;
     assigned_to := assigned_to data; verified_by := verified_by data;
     created_at := created_at data; updated_at := updated_at data;
     assigned_at := match assigned_at data with Some d => Some d | None => None end;
     resolved_at := match resolved_at data with Some d => Some d | None => None end;
     verified_at := match verified_at data with Some d => Some d | None => None end;
     due_date := match due_date data with Some d => Some d | None => None end;
     assigned_to_profile := assigned_to_profile data |}.

Definition hours (n : Z) : Z := (n * 60 * 60 * 1000)%Z.

Section Live.

Context {env : Env}.

(** [new Date()] / [Date.now()] *)
Definition now : M Date :=
  fun s => (Ok (clock env (ticks s)), set_ticks (S (ticks s)) s).

(* ================================================================== *)
(** * The live backend, seen from the client                          *)
(* ================================================================== *)

(** Reads are answered from the rows the client may see; writes are the
    backend's business. *)
Definition serve (r : Request) (db : Db) : Rows * Db :=
  match r with
  | SelectTickets None =>
      (TicketRows (order_desc created_at (db_tickets db)), db)
  | SelectTickets (Some u) =>
      (TicketRows (order_desc created_at
                     (filter (created_or_assigned u) (db_tickets db))), db)
  | SelectActivities tid =>
      (ActivityRows (order_desc act_created_at
                       (filter (fun a => ticket_id a =? tid) (db_activities db))), db)
  | _ => liveWrite env r db
  end.

(** One awaited call on the [supabase] client.  When Supabase is not
    configured the client is [null] and touching it throws before anything
    is sent. *)
Definition live_call (r : Request) : M Rows :=
  fun s =>
    if negb (isConfigured env) then (Throw ClientIsNull, s)
    else
      let n := liveCalls s in
      if liveFails env n
      then (Throw SupabaseError, set_live (S n) (liveDb s) (requests s ++ [r]) s)
      else let '(rows, db) := serve r (liveDb s) in
           (Ok rows, set_live (S n) db (requests s ++ [r]) s).

(** [.select(..)] on the tickets table *)
Definition ticket_rows (rows : Rows) : M (list Ticket) :=
  match rows with
  | TicketRows l => ret l
  | _ => throw SupabaseError
  end.

(** [.single()]: exactly one row, or an error *)
Definition single (rows : Rows) : M Ticket :=
  match rows with
  | TicketRows [t] => ret t
  | _ => throw SupabaseError
  end.

Definition activity_rows (rows : Rows) : M (list Activity) :=
  match rows with
  | ActivityRows l => ret l
  | _ => throw SupabaseError
  end.

End Live.

(* ================================================================== *)
(** * mockDbHelpers (src/lib/mock-data.ts)                            *)
(* ================================================================== *)

Module mockDbHelpers.
Section Mock.

Context {env : Env}.

Definition getTicketsWithRelations (userId role : option string)
  : M (list Ticket) :=
  l <- get currentMockTickets ;;
  if filter_applies userId role
  then match userId with
       | Some u => ret (filter (created_or_assigned u) l)
       | None => ret l
       end
  else ret l.

(** the object literal [newTicket] of [createTicket], for a draft without an
    equipment reference; [n] is [nextTicketId] before the increment, [c] and
    [u] are the two [new Date()] of [created_at] and [updated_at] *)
Definition newTicket (ticketData : TicketData) (userId : string) (n : nat)
    (c u : Date) : Ticket :=
  {| id := string_of_nat n;
     title := td_title ticketData;
     description := td_description ticketData;
     type := or_default (td_type ticketData) "maintenance";
     status := open;
     priority := or_default (td_priority ticketData) "medium";
     location := td_location ticketData;
     created_by := userId;
     assigned_to := None;
     verified_by := None;
     created_at := c;
     updated_at := u;
     assigned_at := None;
     resolved_at := None;
     verified_at := None;
     due_date := td_due_date ticketData;
     assigned_to_profile := None |}.

Definition createTicket (ticketData : TicketData) (userId : string) : M Ticket :=
  match find (fun u => profile_id u =? userId) (mockUsers env) with
  | None => throw UserNotFound
  | Some currentUser =>
      n <- get nextTicketId ;;
      modify (set_nextTicketId (S n)) ;;;
      c <- now ;;
      u <- now ;;
      let newTicket := newTicket ticketData userId n c u in
      modify (fun s => set_currentMockTickets (newTicket :: currentMockTickets s) s) ;;;
      ret newTicket
  end.

(** three fabricated entries, whatever the ticket *)
Definition getTicketActivities (ticketId : string) : M (list Activity) :=
  t1 <- now ;;
  t2 <- now ;;
  t3 <- now ;;
  ret [ {| act_id := "act-" ++ ticketId ++ "-1"; ticket_id := ticketId;
           user_id := "1"; act_type := created;
           act_description := "Ticket created";
           act_created_at := (t1 - hours 24)%Z |};
        {| act_id := "act-" ++ ticketId ++ "-2"; ticket_id := ticketId;
           user_id := "2"; act_type := act_assigned;
           act_description := "Ticket assigned to Field Engineer";
           act_created_at := (t2 - hours 23)%Z |};
        {| act_id := "act-" ++ ticketId ++ "-3"; ticket_id := ticketId;
           user_id := "3"; act_type := comment;
           act_description := "Started investigating the issue";
           act_created_at := (t3 - hours 2)%Z |} ].

(** [if (updates.assigned_to) { ... updatedTicket.assigned_to_profile = ... }] *)
Definition attach_assigned_profile (updates : TicketPatch) (updatedTicket : Ticket)
  : Ticket :=
  match upd_assigned_to updates with
  | Val a =>
      if truthy a
      then match find (fun u => profile_id u =? a) (mockUsers env) with
           | Some assignedProfile =>
               with_assigned_to_profile assignedProfile updatedTicket
           | None => updatedTicket
           end
      else updatedTicket
  | _ => updatedTicket
  end.

Definition updateTicket (ticketId : string) (updates : TicketPatch) : M Ticket :=
  l <- get currentMockTickets ;;
  match findIndex (fun t => id t =? ticketId) l with
  | None => throw TicketNotFound
  | Some ticketIndex =>
      match nth_error l ticketIndex with
      | None => throw TicketNotFound   (* not reached: the index was found *)
      | Some current =>
          d <- now ;;
          let updatedTicket :=
            attach_assigned_profile updates (apply_updates current updates d) in
          modify (set_currentMockTickets (array_set ticketIndex updatedTicket l)) ;;;
          ret updatedTicket
      end
  end.

Definition assignTicket (ticketId : string) (assignedTo : option string)
  : M Ticket :=
  at_ <- (if truthy_opt assignedTo then d <- now ;; ret (Val d) else ret Null) ;;
  updateTicket ticketId
    {| upd_id := None; upd_title := None; upd_description := None;
       upd_type := None;
       upd_status := Some (if truthy_opt assignedTo then assigned else open);
       upd_priority := None; upd_location := None; upd_created_by := None;
       upd_assigned_to := match assignedTo with Some a => Val a | None => Null end;
       upd_verified_by := Absent;
       upd_created_at := None; upd_updated_at := None;
       upd_assigned_at := at_;
       upd_resolved_at := Absent; upd_verified_at := Absent;
       upd_due_date := Absent |}.

(** [{ success: true }] is returned as [tt] *)
Definition deleteTicket (ticketId : string) : M unit :=
  l <- get currentMockTickets ;;
  let initialLength := length l in
  let l' := filter (fun t => negb (id t =? ticketId)) l in
  modify (set_currentMockTickets l') ;;;
  if Nat.eqb (length l') initialLength then throw TicketNotFound else ret tt.

(** the argument is [role] in the source *)
Definition getUsers (roleArg : option string) : M (list UserProfile) :=
  if truthy_opt roleArg
  then match roleArg with
       | Some r => ret (filter (fun u => role u =? r) (mockUsers env))
       | None => ret (mockUsers env)
       end
  else ret (mockUsers env).

(** [mockUsers.find(u => u.id === userId) || null] *)
Definition getUserProfile (userId : string) : M (option UserProfile) :=
  ret (find (fun u => profile_id u =? userId) (mockUsers env)).

(** [['resolved', 'verified', 'closed'].includes(st)] *)
Definition is_completed (st : Status) : bool :=
  match st with
  | resolved | verified | closed => true
  | _ => false
  end.

(** The counts and the date that [getUserStats] returns.  Its fourth field,
    [avgResolutionTime], is the mean of one [Math.random()] draw for each
    completed ticket and is not represented. *)
Record UserStats : Type := {
  totalTickets : nat;
  completedTickets : nat;
  lastActivity : Date
}.

Definition getUserStats (userId : string) : M UserStats :=
  l <- get currentMockTickets ;;
  let userTickets := filter (created_or_assigned userId) l in
  let totalTickets := length userTickets in
  let completedTickets :=
    length (filter (fun t => is_completed (status t)) userTickets) in
  lastActivity <- now ;;
  ret {| totalTickets := totalTickets;
         completedTickets := completedTickets;
         lastActivity := lastActivity |}.

End Mock.
End mockDbHelpers.

(* ================================================================== *)
(** * withFallback and dbHelpers (the Supabase module)                *)
(* ================================================================== *)

Section Fallback.

Context {env : Env}.

Definition withFallback {A} (supabaseOperation mockOperation : M A)
    (operationName : string) : M A :=
  available <- get supabaseAvailable ;;
  if negb available || negb (isConfigured env)
  then
    if enableMockFallback env
    then mockOperation
    else throw (FallbackDisabled operationName)
  else
    try_catch supabaseOperation
      (fun error =>
         if enableMockFallback env
         then modify (set_supabaseAvailable false) ;;; mockOperation
         else throw error).

End Fallback.

Module dbHelpers.
Section Helpers.

Context {env : Env}.

Definition getTicketsWithRelations (userId role : option string)
  : M (list Ticket) :=
  withFallback
    (rows <- live_call
               (SelectTickets (if filter_applies userId role then userId else None)) ;;
     ticket_rows rows)
    (mockDbHelpers.getTicketsWithRelations userId role)
    "getTicketsWithRelations".

(** no fallback wrapper here *)
Definition getTicketActivities (ticketId : string) : M (list Activity) :=
  rows <- live_call (SelectActivities ticketId) ;;
  activity_rows rows.

End Helpers.
End dbHelpers.

(* ================================================================== *)
(** * The useTickets hook                                             *)
(* ================================================================== *)

Module useTickets.
Section Hook.

Context {env : Env}.

Definition toast (t : Toast) : M unit :=
  modify (fun s => set_toasts (t :: toasts s) s).

(** one awaited call into the notification system *)
Definition notify (c : NotifyCall) : M unit :=
  if notifyFails env c
  then throw NotificationError
  else modify (fun s => set_notified (notified s ++ [c]) s).

Definition loadTickets : M unit :=
  match user env, profile env with
  | Some uid, Some prof =>
      try_catch
        (data <- try_catch
                   (dbHelpers.getTicketsWithRelations (Some uid) (Some (role prof)))
                   (fun _ => mockDbHelpers.getTicketsWithRelations
                               (Some uid) (Some (role prof))) ;;
         modify (set_tickets (map transformTicket data)))
        (fun err => toast (ToastLoadFailed err))
  | _, _ => ret tt
  end.

(** the inner [try]/[catch] of [createTicket]: the live insert, or the mock
    provider when that throws *)
Definition persist_create (uid : string) (ticketData : TicketData) : M Ticket :=
  try_catch
    (rows <- live_call (InsertTicket ticketData uid) ;;
     data <- single rows ;;
     ret (transformTicket data))
    (fun _ => mockDbHelpers.createTicket ticketData uid).

(** "Don't fail the ticket creation if notifications fail" *)
Definition notify_create (transformedTicket : Ticket) : M unit :=
  try_catch (notify (notifyTicketCreated transformedTicket))
            (fun _ => ret tt).

Definition createTicket (ticketData : TicketData) : M Ticket :=
  match user env with
  | None => throw UserNotAuthenticated
  | Some uid =>
      try_catch
        (transformedTicket <- persist_create uid ticketData ;;
         modify (fun s => set_tickets (transformedTicket :: tickets s) s) ;;;
         notify_create transformedTicket ;;;
         toast ToastTicketCreated ;;;
         ret transformedTicket)
        (fun error => toast (ToastCreateFailed error) ;;; throw error)
  end.

(** [updates.status === st] *)
Definition status_is (updates : TicketPatch) (st : Status) : bool :=
  match upd_status updates with
  | Some x => Status_eqb x st
  | None => false
  end.

(** [if (updates.status === st && !given) dbUpdates.k = new Date()...] *)
Definition stamp (updates : TicketPatch) (st : Status) (given : Patch Date)
  : M (Patch Date) :=
  if status_is updates st && negb (truthy_date given)
  then d <- now ;; ret (Val d)
  else ret given.

(** [dbUpdates]: a copy of [updates] (its dates serialised), then the
    "Set timestamps for status changes" block *)
Definition build_dbUpdates (uid : string) (updates : TicketPatch) : M TicketPatch :=
  assigned_at' <- stamp updates assigned (upd_assigned_at updates) ;;
  resolved_at' <- stamp updates resolved (upd_resolved_at updates) ;;
  verified_at' <- stamp updates verified (upd_verified_at updates) ;;
  ret {| upd_id := upd_id updates; upd_title := upd_title updates;
         upd_description := upd_description updates;
         upd_type := upd_type updates; upd_status := upd_status updates;
         upd_priority := upd_priority updates;
         upd_location := upd_location updates;
         upd_created_by := upd_created_by updates;
         upd_assigned_to := upd_assigned_to updates;
         upd_verified_by :=
           if status_is updates verified
              && negb (truthy_date (upd_verified_at updates))
           then Val uid else upd_verified_by updates;
         upd_created_at := upd_created_at updates;
         upd_updated_at := upd_updated_at updates;
         upd_assigned_at := assigned_at';
         upd_resolved_at := resolved_at';
         upd_verified_at := verified_at';
         upd_due_date := upd_due_date updates |}.

(** the inner [try]/[catch] of [updateTicket]: the live update is sent
    [dbUpdates], the mock provider is given [updates] *)
Definition persist_update (ticketId : string) (updates dbUpdates : TicketPatch)
  : M Ticket :=
  try_catch
    (rows <- live_call (UpdateTicket ticketId dbUpdates) ;;
     single rows)
    (fun _ => mockDbHelpers.updateTicket ticketId updates).

(** "Don't fail the ticket update if notifications fail" *)
Definition notify_update (uid : string) (updates : TicketPatch)
    (transformedTicket : Ticket) : M unit :=
  try_catch
    (when (status_is updates resolved)
          (notify (notifyTicketResolved transformedTicket uid)) ;;;
     match upd_assigned_to updates with
     | Val a =>
         when (truthy a && negb (a =? created_by transformedTicket))
              (notify (notifyTicketAssigned transformedTicket a uid))
     | _ => ret tt
     end)
    (fun _ => ret tt).

Definition updateTicket (ticketId : string) (updates : TicketPatch) : M Ticket :=
  match user env with
  | None => throw UserNotAuthenticated
  | Some uid =>
      try_catch
        (dbUpdates <- build_dbUpdates uid updates ;;
         data <- persist_update ticketId updates dbUpdates ;;
         let transformedTicket := transformTicket data in
         modify (fun s =>
                   set_tickets
                     (map (fun t => if id t =? ticketId then transformedTicket else t)
                          (tickets s)) s) ;;;
         notify_update uid updates transformedTicket ;;;
         toast ToastTicketUpdated ;;;
         ret transformedTicket)
        (fun error => toast (ToastUpdateFailed error) ;;; throw error)
  end.

Definition assignTicket (ticketId : string) (assignedTo : option string)
  : M Ticket :=
  at_ <- (if truthy_opt assignedTo then d <- now ;; ret (Val d)
          else ret Undefined) ;;
  updateTicket ticketId
    {| upd_id := None; upd_title := None; upd_description := None;
       upd_type := None;
       upd_status := Some (if truthy_opt assignedTo then assigned else open);
       upd_priority := None; upd_location := None; upd_created_by := None;
       upd_assigned_to := match assignedTo with Some a => Val a | None => Null end;
       upd_verified_by := Absent;
       upd_created_at := None; upd_updated_at := None;
       upd_assigned_at := at_;
       upd_resolved_at := Absent; upd_verified_at := Absent;
       upd_due_date := Absent |}.

Definition getTicketActivities (ticketId : string) : M (list Activity) :=
  try_catch
    (try_catch (dbHelpers.getTicketActivities ticketId)
               (fun _ => mockDbHelpers.getTicketActivities ticketId))
    (fun error => toast (ToastActivitiesFailed error) ;;; ret []).

(** ** The helper functions for role-based filtering *)

Definition getMyTickets (s : State) : list Ticket :=
  match user env with
  | None => []
  | Some uid => filter (fun ticket => created_by ticket =? uid) (tickets s)
  end.

Definition getAssignedTickets (s : State) : list Ticket :=
  match user env with
  | None => []
  | Some uid => filter (fun ticket => is_user uid (assigned_to ticket)) (tickets s)
  end.

Definition getUnassignedTickets (s : State) : list Ticket :=
  filter (fun ticket => negb (truthy_opt (assigned_to ticket))
                        && Status_eqb (status ticket) open)
         (tickets s).

(** the string that a status is in the source *)
Definition status_name (st : Status) : string :=
  match st with
  | open => "open"
  | assigned => "assigned"
  | in_progress => "in_progress"
  | resolved => "resolved"
  | verified => "verified"
  | closed => "closed"
  end.

Definition getTicketsByStatus (st : string) (s : State) : list Ticket :=
  filter (fun ticket => status_name (status ticket) =? st) (tickets s).

Definition getTicketsByPriority (p : string) (s : State) : list Ticket :=
  filter (fun ticket => priority ticket =? p) (tickets s).

(** [ticket.due_date && ticket.due_date < now &&
     !['resolved', 'verified', 'closed'].includes(ticket.status)] *)
Definition is_overdue (now : Date) (ticket : Ticket) : bool :=
  match due_date ticket with
  | Some d => (d <? now)%Z && negb (mockDbHelpers.is_completed (status ticket))
  | None => false
  end.

Definition getOverdueTickets : M (list Ticket) :=
  n <- now ;;
  l <- get tickets ;;
  ret (filter (is_overdue n) l).

End Hook.
End useTickets.

(* ================================================================== *)
(** * The fixtures of src/lib/mock-data.ts and two sessions           *)
(* ================================================================== *)

Module Fixtures.

Definition adminUser : UserProfile :=
  {| profile_id := "1"; email := "admin@test.com"; full_name := "Admin User";
     role := "admin"; is_active := true |}.

Definition supervisorUser : UserProfile :=
  {| profile_id := "2"; email := "supervisor@test.com";
     full_name := "Supervisor User"; role := "supervisor"; is_active := true |}.

Definition engineerUser : UserProfile :=
  {| profile_id := "3"; email := "engineer@test.com";
     full_name := "Field Engineer"; role := "field_engineer"; is_active := true |}.

Definition initialMockUsers : list UserProfile :=
  [adminUser; supervisorUser; engineerUser].

Definition ticket1 : Ticket :=
  {| id := "1"; title := "Air Conditioning Unit Repair";
     description := "HVAC unit in Building A is not cooling properly. Temperature readings show 28°C when should be 22°C.";
     type := "maintenance"; status := open; priority := "high";
     location := "Building A - Floor 2";
     created_by := "1"; assigned_to := Some "3"; verified_by := None;
     created_at := 1705309200000%Z; updated_at := 1705309200000%Z;
     assigned_at := None; resolved_at := None; verified_at := None;
     due_date := Some 1705510800000%Z;
     assigned_to_profile := Some engineerUser |}.

Definition ticket2 : Ticket :=
  {| id := "2"; title := "Elevator Inspection";
     description := "Monthly safety inspection for elevator in Building B";
     type := "inspection"; status := in_progress; priority := "medium";
     location := "Building B - Lobby";
     created_by := "2"; assigned_to := Some "3"; verified_by := None;
     created_at := 1705228200000%Z; updated_at := 1705307400000%Z;
     assigned_at := Some 1705230000000%Z; resolved_at := None;
     verified_at := None;
     due_date := Some 1705417200000%Z;
     assigned_to_profile := Some engineerUser |}.

Definition ticket3 : Ticket :=
  {| id := "3"; title := "Fire Safety System Check";
     description := "Quarterly fire safety system inspection and testing";
     type := "inspection"; status := resolved; priority := "high";
     location := "Building C - All Floors";
     created_by := "1"; assigned_to := Some "3"; verified_by := Some "2";
     created_at := 1704895200000%Z; updated_at := 1705077000000%Z;
     assigned_at := Some 1704897000000%Z;
     resolved_at := Some 1705071600000%Z;
     verified_at := Some 1705077000000%Z;
     due_date := Some 1705338000000%Z;
     assigned_to_profile := Some engineerUser |}.

Definition mockTickets : list Ticket := [ticket1; ticket2; ticket3].

Definition emptyDb : Db := {| db_tickets := []; db_activities := [] |}.

(** a clock that advances by one millisecond between two readings *)
Definition tickingClock (n : nat) : Date := (1705400000000%Z + Z.of_nat n)%Z.

(** The state of the modules once the page has loaded (and, when Supabase is
    configured, the connection check made at load has succeeded):
    [supabaseAvailable = config.supabase.isConfigured],
    [currentMockTickets = [...mockTickets]], [nextTicketId = 4].  Live calls
    are counted from here. *)
Definition initial (configured : bool) (db : Db) : State :=
  {| ticks := 0; supabaseAvailable := configured;
     liveCalls := 0; liveDb := db; requests := [];
     currentMockTickets := mockTickets; nextTicketId := 4;
     tickets := []; toasts := []; notified := [] |}.

(** Demo mode: Supabase is not configured, the signed-in user is [who]. *)
Definition demo (who : UserProfile) : Env :=
  {| isConfigured := false; enableMockFallback := true;
     clock := tickingClock;
     liveFails := fun _ => true;
     liveWrite := fun _ db => (TicketRows [], db);
     notifyFails := fun _ => false;
     mockUsers := initialMockUsers;
     user := Some (profile_id who); profile := Some who |}.

(** Nobody is signed in. *)
Definition signedOut : Env :=
  {| isConfigured := false; enableMockFallback := true;
     clock := tickingClock;
     liveFails := fun _ => true;
     liveWrite := fun _ db => (TicketRows [], db);
     notifyFails := fun _ => false;
     mockUsers := initialMockUsers;
     user := None; profile := None |}.

(** Supabase is configured; the first call of the session fails, every later
    one succeeds (a transient failure).  The backend stores what it is sent: an insert
    adds a row with the columns of the request, an update is answered with
    the rows it matched. *)
Definition transient (who : UserProfile) : Env :=
  {| isConfigured := true; enableMockFallback := true;
     clock := tickingClock;
     liveFails := fun n => Nat.eqb n 0;
     liveWrite := fun r db =>
       match r with
       | UpdateTicket tid _ =>
           (TicketRows (filter (fun t => id t =? tid) (db_tickets db)), db)
       | _ => (TicketRows [], db)
       end;
     notifyFails := fun _ => false;
     mockUsers := initialMockUsers;
     user := Some (profile_id who); profile := Some who |}.

(** the sessions used below *)
Definition engineerDemo : Env := demo engineerUser.
Definition adminDemo : Env := demo adminUser.
Definition engineerTransient : Env := transient engineerUser.

(** demo mode with a notification system that throws on every call *)
Definition notificationsDown : Env :=
  {| isConfigured := false; enableMockFallback := true;
     clock := tickingClock;
     liveFails := fun _ => true;
     liveWrite := fun _ db => (TicketRows [], db);
     notifyFails := fun _ => true;
     mockUsers := initialMockUsers;
     user := Some "1"; profile := Some adminUser |}.

(** a draft without a title *)
Definition untitled : TicketData :=
  {| td_title := ""; td_description := "Unit does not cool";
     td_type := None; td_priority := None;
     td_location := "Building A"; td_due_date := None |}.

(** a draft with every required field filled in *)
Definition acRepair : TicketData :=
  {| td_title := "AC repair"; td_description := "Unit does not cool";
     td_type := None; td_priority := None;
     td_location := "Building A"; td_due_date := None |}.

(** a signed in user whom the mock provider does not know *)
Definition strangerUser : UserProfile :=
  {| profile_id := "9"; email := "stranger@example.com";
     full_name := "Stranger"; role := "field_engineer"; is_active := true |}.

Definition strangerDemo : Env := demo strangerUser.

(** Supabase is configured and never answers; the mock fallback is disabled *)
Definition fallbackOff : Env :=
  {| isConfigured := true; enableMockFallback := false;
     clock := tickingClock;
     liveFails := fun _ => true;
     liveWrite := fun _ db => (TicketRows [], db);
     notifyFails := fun _ => false;
     mockUsers := initialMockUsers;
     user := Some "3"; profile := Some engineerUser |}.



End Fixtures.

(* ================================================================== *)
(** * Vocabulary of the properties                                    *)
(* ================================================================== *)

Section Vocabulary.

Context {env : Env}.

(** Will a call wrapped in [withFallback] be answered by the live backend? *)
Definition live_answers (s : State) : bool :=
  supabaseAvailable s && isConfigured env && negb (liveFails env (liveCalls s)).

(** The ticket set of the provider that answers the next listing. *)
Definition answering_store (s : State) : list Ticket :=
  if live_answers s then db_tickets (liveDb s) else currentMockTickets s.

(** The state once request [r] has gone out and the backend holds [db]. *)
Definition sent (r : Request) (db : Db) (s : State) : State :=
  set_live (S (liveCalls s)) db (requests s ++ [r]) s.

(** The part of a ticket set that a listing with these arguments shows. *)
Definition scoped (userId role : option string) (l : list Ticket) : list Ticket :=
  match userId with
  | Some u => if filter_applies userId role
              then filter (created_or_assigned u) l else l
  | None => l
  end.

End Vocabulary.

(* ================================================================== *)
(** * Sequences of operations wrapped in withFallback                 *)
(* ================================================================== *)

(** One call of [withFallback]: the two thunks and the name it is given. *)
Record FallbackOp : Type := {
  fo_result : Type;
  fo_supabase : M fo_result;
  fo_mock : M fo_result;
  fo_name : string
}.

Definition Outcome : Type := { T : Type & Result T }.

Section Sequences.

Context {env : Env}.

(** the operations one after the other, each through [withFallback] *)
Fixpoint run_ops (ops : list FallbackOp) (s : State) : list Outcome * State :=
  match ops with
  | [] => ([], s)
  | o :: rest =>
      let (r, s1) := withFallback (fo_supabase o) (fo_mock o) (fo_name o) s in
      let (rs, s2) := run_ops rest s1 in
      (existT _ (fo_result o) r :: rs, s2)
  end.

(** the same operations, each by its mock implementation alone *)
Fixpoint run_mocks (ops : list FallbackOp) (s : State) : list Outcome * State :=
  match ops with
  | [] => ([], s)
  | o :: rest =>
      let (r, s1) := fo_mock o s in
      let (rs, s2) := run_mocks rest s1 in
      (existT _ (fo_result o) r :: rs, s2)
  end.

(** the listing of [dbHelpers] as such an operation *)
Definition listingOp (userId role : option string) : FallbackOp :=
  {| fo_result := list Ticket;
     fo_supabase :=
       (rows <- live_call
                  (SelectTickets (if filter_applies userId role then userId else None)) ;;
        ticket_rows rows);
     fo_mock := mockDbHelpers.getTicketsWithRelations userId role;
     fo_name := "getTicketsWithRelations" |}.

End Sequences.

(** The availability flag is private to the Supabase module: a mock
    implementation cannot raise it again. *)
Definition keeps_flag_down {A} (m : M A) : Prop :=
  forall s, supabaseAvailable s = false -> supabaseAvailable (snd (m s)) = false.

(** An operation that neither reads nor writes the availability flag: run
    from a state that differs in the flag alone, it gives the same result
    and the same state, the flag being as it was given. *)
Definition flag_blind {A} (m : M A) : Prop :=
  forall b s,
    m (set_supabaseAvailable b s)
    = (fst (m s), set_supabaseAvailable b (snd (m s))).

(** The circuit breaker as the specification words it, for an operation
    [op1] followed by an operation [op2] whose mock implementation is
    [mock2]: if the live attempt of [op1] failed, the flag is down afterwards
    and [op2] answers from the mock without a further live call. *)
Definition circuit_breaker_as_stated {env : Env} {A B}
    (op1 : M A) (op2 mock2 : M B) (s : State) : Prop :=
  enableMockFallback env = true ->
  liveFails env (liveCalls s) = true ->
  liveCalls (snd (op1 s)) = S (liveCalls s) ->
  let s1 := snd (op1 s) in
  supabaseAvailable s1 = false
  /\ liveCalls (snd (op2 s1)) = liveCalls s1
  /\ fst (op2 s1) = fst (mock2 s1).

Section Providers.

Context {env : Env}.

(** The live call made from state [s] throws: the client is null, or the
    backend fails this call. *)
Definition live_down (s : State) : Prop :=
  isConfigured env = false \/ liveFails env (liveCalls s) = true.

(** [s'] is [s] but for the clock readings taken *)
Definition later (s s' : State) : Prop :=
  s' = set_ticks (ticks s') s /\ ticks s <= ticks s'.

End Providers.

(* ================================================================== *)
(** * The properties as the specification states them                 *)
(* ================================================================== *)

(** The edges of the transition table of the specification (its section
    4.2), as the property on status changes lists them. *)
Definition transition_allowed (from to : Status) : bool :=
  match from, to with
  | open, assigned
  | assigned, in_progress
  | assigned, open | in_progress, open
  | in_progress, resolved | assigned, resolved
  | resolved, verified
  | verified, closed => true
  | _, _ => false
  end.

(** the stored ticket with this id, in the mock provider *)
Definition stored (ticketId : string) (s : State) : option Ticket :=
  find (fun t => id t =? ticketId) (currentMockTickets s).

(** a patch that only asks for a status *)
Definition statusUpdate (to : Status) : TicketPatch :=
  {| upd_id := None; upd_title := None; upd_description := None;
     upd_type := None; upd_status := Some to; upd_priority := None;
     upd_location := None; upd_created_by := None;
     upd_assigned_to := Absent; upd_verified_by := Absent;
     upd_created_at := None; upd_updated_at := None;
     upd_assigned_at := Absent; upd_resolved_at := Absent;
     upd_verified_at := Absent; upd_due_date := Absent |}.

(** "An update requesting any other status edge fails and leaves every
    stored field of the ticket unchanged." *)
Definition transitions_guarded_as_stated {env : Env}
    (ticketId : string) (updates : TicketPatch) (s : State) : Prop :=
  forall before to,
    stored ticketId s = Some before ->
    upd_status updates = Some to ->
    transition_allowed (status before) to = false ->
    (exists e, fst (useTickets.updateTicket ticketId updates s) = Throw e)
    /\ stored ticketId (snd (useTickets.updateTicket ticketId updates s))
       = Some before.

(** "Once set, a lifecycle timestamp is neither changed nor cleared." *)
Definition timestamps_kept (before after : Ticket) : Prop :=
  (forall d, assigned_at before = Some d -> assigned_at after = Some d)
  /\ (forall d, resolved_at before = Some d -> resolved_at after = Some d)
  /\ (forall d, verified_at before = Some d -> verified_at after = Some d).

Definition set_once_as_stated {A} (op : M A) (ticketId : string) (s : State)
  : Prop :=
  forall before after,
    stored ticketId s = Some before ->
    stored ticketId (snd (op s)) = Some after ->
    timestamps_kept before after.

(** "A transition from resolved to verified succeeds only for a supervisor
    or an admin, and on success sets verified_at to the current time and
    verified_by to the acting user."  The current time is one of the clock
    readings taken during the operation. *)
Definition verification_as_stated {env : Env} (ticketId : string) (s : State)
  : Prop :=
  forall before t' s',
    stored ticketId s = Some before ->
    status before = resolved ->
    useTickets.updateTicket ticketId (statusUpdate verified) s = (Ok t', s') ->
    (exists p, profile env = Some p
               /\ (role p = "supervisor" \/ role p = "admin"))
    /\ (exists k, ticks s <= k < ticks s'
                  /\ verified_at t' = Some (clock env k))
    /\ verified_by t' = user env.

(** "create fails when title, description or location is missing or empty
    (and no ticket is created), and when the actor is not authenticated." *)
Definition create_validates_as_stated {env : Env} (ticketData : TicketData)
    (s : State) : Prop :=
  ((td_title ticketData = "" \/ td_description ticketData = ""
    \/ td_location ticketData = "") ->
   (exists e, fst (useTickets.createTicket ticketData s) = Throw e)
   /\ currentMockTickets (snd (useTickets.createTicket ticketData s))
      = currentMockTickets s)
  /\ (user env = None ->
      exists e, fst (useTickets.createTicket ticketData s) = Throw e).

(** the entries of type [created] that a log holds for a ticket *)
Definition count_created (ticketId : string) (log : list Activity) : nat :=
  length (filter (fun a => match act_type a with
                           | created => ticket_id a =? ticketId
                           | _ => false
                           end) log).

(** "A successful create appends exactly one Activity of type created for
    the new ticket": the activity log of the ticket, read before and after,
    grows by one such entry. *)
Definition create_logs_activity_as_stated {env : Env} (ticketData : TicketData)
    (s : State) : Prop :=
  forall t s1 before after,
    useTickets.createTicket ticketData s = (Ok t, s1) ->
    fst (useTickets.getTicketActivities (id t) s) = Ok before ->
    fst (useTickets.getTicketActivities (id t) s1) = Ok after ->
    count_created (id t) after = S (count_created (id t) before).

(** "A create immediately followed by list for the same actor includes the
    new ticket, with status open, created_by the actor and created_at equal
    to updated_at." *)
Definition round_trip_as_stated {env : Env} (ticketData : TicketData)
    (s : State) : Prop :=
  forall uid t s1,
    user env = Some uid ->
    useTickets.createTicket ticketData s = (Ok t, s1) ->
    In t (tickets (snd (useTickets.loadTickets s1)))
    /\ status t = open
    /\ created_by t = uid
    /\ created_at t = updated_at t.

(* ================================================================== *)
(** * Invariants of the mock store                                    *)
(* ================================================================== *)

(** every ticket of [l] carries as its id one of the numbers below [n] *)
Definition ids_below (n : nat) (l : list Ticket) : Prop :=
  Forall (fun t => exists k, k < n /\ id t = string_of_nat k) l.

(** The ids of the mock store are pairwise distinct and were all handed out
    by the counter [nextTicketId]. *)
Definition well_numbered (s : State) : Prop :=
  NoDup (map id (currentMockTickets s))
  /\ ids_below (nextTicketId s) (currentMockTickets s).

(* ================================================================== *)
(** * Vocabulary of the notification step                             *)
(* ================================================================== *)

Section Notifications.

Context {env : Env}.

(** The calls that the notification block of [updateTicket] makes when none
    of them throws, in the order of the source. *)
Definition update_notifications (uid : string) (updates : TicketPatch)
    (t : Ticket) : list NotifyCall :=
  ((if useTickets.status_is updates resolved
    then [notifyTicketResolved t uid] else [])
   ++ match upd_assigned_to updates with
      | Val a => if truthy a && negb (a =? created_by t)
                 then [notifyTicketAssigned t a uid] else []
      | _ => []
      end)%list.

(** The calls of [l] that complete: those before the first one that throws. *)
Fixpoint delivered (l : list NotifyCall) : list NotifyCall :=
  match l with
  | [] => []
  | c :: r => if notifyFails env c then [] else c :: delivered r
  end.

End Notifications.

(* ================================================================== *)
(** * mockAuth: the mock authentication system, and its use in useAuth *)
(* ================================================================== *)

Module mockAuth.

(** [MockUser] *)
Record MockUser : Type := {
  mu_id : string;
  mu_email : string;
  mu_created_at : string
}.

(** An entry of the [mockUsers] map of the authentication module.  A
    [MockProfile] has the fields of a [UserProfile]. *)
Record Account : Type := {
  acc_user : MockUser;
  acc_profile : UserProfile;
  acc_password : string
}.

Record Session : Type := {
  ses_user : MockUser;
  access_token : string
}.

(** What the module reads but does not own: the two methods of
    [String.prototype] it calls, and the entries of its [mockUsers] map in
    insertion order (a map: the keys are distinct). *)
Record AuthEnv : Type := {
  toLowerCase : string -> string;
  trim : string -> string;
  accounts : list (string * Account)
}.
Existing Class AuthEnv.

(** The module variable [currentSession] and the item ['mock_session'] of
    [localStorage], which holds a session serialised as JSON. *)
Record AuthState : Type := {
  currentSession : option Session;
  mock_session : option Session
}.

Inductive AuthError : Type :=
| InvalidEmail            (* Error('Invalid email. Available test accounts: ...') *)
| InvalidPassword         (* Error('Invalid password') *)
| AccountDeactivated.     (* Error('Account is deactivated') *)

Inductive AuthResult (A : Type) : Type :=
| Done (a : A)
| Failed (e : AuthError).
Arguments Done {A} a.
Arguments Failed {A} e.

(** The functions run on the page state (for the clock) and on the state of
    the authentication module. *)
Definition AuthM (A : Type) : Type :=
  State * AuthState -> AuthResult A * (State * AuthState).

(** [String(n)] for a number of milliseconds *)
Definition string_of_Z (z : Z) : string :=
  NilZero.string_of_int (Z.to_int z).

Section Auth.

Context {env : Env} {auth : AuthEnv}.

(** the [for ... of mockUsers.entries()] loop: the first entry whose
    lowercased key is [email] *)
Definition lookup_lowercase (email : string) : option Account :=
  match find (fun entry => toLowerCase auth (fst entry) =? email) (accounts auth) with
  | Some entry => Some (snd entry)
  | None => None
  end.

(** [mockUsers.get(key)] *)
Definition lookup (key : string) : option Account :=
  match find (fun entry => fst entry =? key) (accounts auth) with
  | Some entry => Some (snd entry)
  | None => None
  end.

Definition signInWithPassword (email password : string)
  : AuthM (MockUser * Session) :=
  fun st =>
    let email' := trim auth (toLowerCase auth email) in
    match lookup_lowercase email' with
    | None => (Failed InvalidEmail, st)
    | Some mockUser =>
        if negb (acc_password mockUser =? password)
        then (Failed InvalidPassword, st)
        else if negb (is_active (acc_profile mockUser))
        then (Failed AccountDeactivated, st)
        else
          let s := fst st in
          let session :=
            {| ses_user := acc_user mockUser;
               access_token := "mock_token_" ++ string_of_Z (clock env (ticks s)) |} in
          (Done (acc_user mockUser, session),
           (set_ticks (S (ticks s)) s,
            {| currentSession := Some session; mock_session := Some session |}))
    end.

Definition signOut : AuthM unit :=
  fun st =>
    (Done tt, (fst st, {| currentSession := None; mock_session := None |})).

Definition getSession : AuthM (option Session) :=
  fun st =>
    match currentSession (snd st) with
    | Some session => (Done (Some session), st)
    | None =>
        match mock_session (snd st) with
        | Some stored =>
            (Done (Some stored),
             (fst st, {| currentSession := Some stored;
                         mock_session := Some stored |}))
        | None => (Done None, st)
        end
    end.

Definition getUser : AuthM (option MockUser) :=
  fun st =>
    match getSession st with
    | (Done session, st') => (Done (option_map ses_user session), st')
    | (Failed e, st') => (Failed e, st')
    end.

(** [existingUser || currentSession?.user], then [mockUsers.get(user.email)] *)
Definition getCurrentUserProfileMock (existingUser : option MockUser)
  : AuthM (option UserProfile) :=
  fun st =>
    let user := match existingUser with
                | Some u => Some u
                | None => option_map ses_user (currentSession (snd st))
                end in
    match user with
    | None => (Done None, st)
    | Some u => (Done (option_map acc_profile (lookup (mu_email u))), st)
    end.

(** [getInitialSession] of the [useAuth] hook, for a mounted component: the
    [user] and the [profile] that it puts into the state of the hook. *)
Definition getInitialSession : AuthM (option MockUser * option UserProfile) :=
  fun st =>
    match getSession st with
    | (Done (Some session), st') =>
        match getCurrentUserProfileMock (Some (ses_user session)) st' with
        | (Done profile, st'') => (Done (Some (ses_user session), profile), st'')
        | (Failed e, st'') => (Done (None, None), st'')
        end
    | (Done None, st') => (Done (None, None), st')
    | (Failed e, st') => (Done (None, None), st')
    end.

End Auth.

(** the three test accounts; every [created_at] is the time of the page load *)
Definition testAccounts (loaded : string) : list (string * Account) :=
  [ ("admin@test.com",
     {| acc_user := {| mu_id := "1"; mu_email := "admin@test.com";
                       mu_created_at := loaded |};
        acc_profile := Fixtures.adminUser; acc_password := "admin123" |});
    ("supervisor@test.com",
     {| acc_user := {| mu_id := "2"; mu_email := "supervisor@test.com";
                       mu_created_at := loaded |};
        acc_profile := Fixtures.supervisorUser; acc_password := "supervisor123" |});
    ("engineer@test.com",
     {| acc_user := {| mu_id := "3"; mu_email := "engineer@test.com";
                       mu_created_at := loaded |};
        acc_profile := Fixtures.engineerUser; acc_password := "engineer123" |}) ].

(** The two string methods, as they act on ASCII strings: letters A to Z
    become a to z; blanks, tabs and line breaks are dropped at both ends. *)
Definition lower_ascii (c : Ascii.ascii) : Ascii.ascii :=
  let n := Ascii.nat_of_ascii c in
  if (Nat.leb 65 n && Nat.leb n 90)%bool then Ascii.ascii_of_nat (n + 32) else c.

Fixpoint asciiToLowerCase (s : string) : string :=
  match s with
  | EmptyString => EmptyString
  | String c r => String (lower_ascii c) (asciiToLowerCase r)
  end.

Definition is_blank (c : Ascii.ascii) : bool :=
  let n := Ascii.nat_of_ascii c in
  (Nat.eqb n 32 || (Nat.leb 9 n && Nat.leb n 13))%bool.

Fixpoint trimStart (s : string) : string :=
  match s with
  | EmptyString => EmptyString
  | String c r => if is_blank c then trimStart r else s
  end.

Fixpoint trimEnd (s : string) : string :=
  match s with
  | EmptyString => EmptyString
  | String c r =>
      match trimEnd r with
      | EmptyString => if is_blank c then EmptyString else String c EmptyString
      | r' => String c r'
      end
  end.

Definition asciiStrings : AuthEnv :=
  {| toLowerCase := asciiToLowerCase;
     trim := fun s => trimEnd (trimStart s);
     accounts := testAccounts "2024-01-15T09:00:00.000Z" |}.

(** nobody signed in, nothing stored *)
Definition signedOutState : AuthState :=
  {| currentSession := None; mock_session := None |}.

(** a session of the admin, and the state of the module after a page
    reload during that session *)
Definition adminSession : Session :=
  {| ses_user := {| mu_id := "1"; mu_email := "admin@test.com";
                    mu_created_at := "2024-01-15T09:00:00.000Z" |};
     access_token := "mock_token_1705400000000" |}.

Definition reloadedState : AuthState :=
  {| currentSession := None; mock_session := Some adminSession |}.

(** Each entry is filed under the email of its user, and no key occurs
    twice. *)
Definition well_keyed (l : list (string * Account)) : Prop :=
  NoDup (map fst l)
  /\ Forall (fun entry => mu_email (acc_user (snd entry)) = fst entry) l.

End mockAuth.

(** [s'] has the mock store and the id counter of [s] *)
Definition same_mock (s s' : State) : Prop :=
  currentMockTickets s' = currentMockTickets s
  /\ nextTicketId s' = nextTicketId s.

(* ================================================================== *)
(** * Lemmas on the small library                                     *)
(* ================================================================== *)

Lemma insert_desc_perm {A} (key : A -> Date) (x : A) (l : list A) :
  Permutation (insert_desc key x l) (x :: l).
Proof.
  induction l as [|y r IH]; simpl.
  - apply Permutation_refl.
  - destruct (key y <=? key x)%Z.
    + apply Permutation_refl.
    + eapply perm_trans; [apply perm_skip, IH | apply perm_swap].
Qed.

Lemma order_desc_perm {A} (key : A -> Date) (l : list A) :
  Permutation (order_desc key l) l.
Proof.
  induction l as [|x r IH]; simpl.
  - apply perm_nil.
  - eapply perm_trans; [apply insert_desc_perm | apply perm_skip, IH].
Qed.

Lemma order_desc_In {A} (key : A -> Date) (l : list A) (x : A) :
  In x (order_desc key l) <-> In x l.
Proof.
  split; apply Permutation_in;
    [ apply order_desc_perm | apply Permutation_sym, order_desc_perm ].
Qed.

Lemma is_user_true (u : string) (o : option string) :
  is_user u o = true <-> o = Some u.
Proof.
  destruct o as [a|]; simpl.
  - rewrite String.eqb_eq. split; congruence.
  - split; discriminate.
Qed.

Lemma created_or_assigned_true (u : string) (t : Ticket) :
  created_or_assigned u t = true <->
  created_by t = u \/ assigned_to t = Some u.
Proof.
  unfold created_or_assigned.
  rewrite orb_true_iff, String.eqb_eq, is_user_true. reflexivity.
Qed.

Lemma truthy_true (s : string) : truthy s = true <-> s <> "".
Proof.
  unfold truthy. rewrite negb_true_iff. apply String.eqb_neq.
Qed.

Lemma filter_applies_true (userId role : option string) :
  filter_applies userId role = true <->
  role = Some "field_engineer" /\ exists u, userId = Some u /\ u <> "".
Proof.
  unfold filter_applies, truthy_opt.
  destruct role as [r|]; [|split; [discriminate | intros [H _]; discriminate]].
  rewrite andb_true_iff, String.eqb_eq.
  destruct userId as [u|].
  - rewrite truthy_true. split.
    + intros [-> Hu]. split; [reflexivity | eauto].
    + intros [Hr (u' & Hu' & Hne)]. inversion Hr; inversion Hu'; subst. auto.
  - split; [intros [_ H]; discriminate | intros [_ (u & Hu & _)]; discriminate].
Qed.

Lemma findIndex_nth_error {A} (p : A -> bool) (l : list A) (i : nat) :
  findIndex p l = Some i ->
  exists x, nth_error l i = Some x /\ p x = true.
Proof.
  revert i. induction l as [|y r IH]; simpl; intros i H; [discriminate|].
  destruct (p y) eqn:Hp.
  - inversion H; subst. exists y. auto.
  - destruct (findIndex p r) as [j|]; [|discriminate].
    inversion H; subst. simpl. apply IH. reflexivity.
Qed.

Lemma findIndex_None {A} (p : A -> bool) (l : list A) :
  findIndex p l = None <-> forall x, In x l -> p x = false.
Proof.
  induction l as [|y r IH]; simpl.
  - split; [intros _ x [] | reflexivity].
  - destruct (p y) eqn:Hp.
    + split; [discriminate|]. intros H. rewrite (H y) in Hp by auto. discriminate.
    + destruct (findIndex p r) as [j|].
      * split; [discriminate|]. intros H.
        assert (Hn : @None nat = None) by reflexivity.
        destruct IH as [_ IH]. discriminate IH. intros x Hx. apply H. auto.
      * split; [|reflexivity]. intros _ x [->|Hx]; [assumption|].
        apply IH; auto.
Qed.

Lemma findIndex_find {A} (p : A -> bool) (l : list A) :
  match findIndex p l with
  | Some i => find p l = nth_error l i /\ find p l <> None
  | None => find p l = None
  end.
Proof.
  induction l as [|y r IH]; simpl; [reflexivity|].
  destruct (p y) eqn:Hp.
  - split; [reflexivity | discriminate].
  - destruct (findIndex p r) as [j|]; simpl; assumption.
Qed.

Lemma array_set_nth_error {A} (l : list A) (i : nat) (x y : A) :
  nth_error l i = Some y -> nth_error (array_set i x l) i = Some x.
Proof.
  revert i. induction l as [|z r IH]; intros [|i]; simpl; try discriminate; auto.
Qed.

Lemma array_set_In {A} (l : list A) (i : nat) (x y : A) :
  nth_error l i = Some y -> In x (array_set i x l).
Proof.
  intros H. eapply nth_error_In, array_set_nth_error, H.
Qed.

Lemma transformTicket_id (t : Ticket) : transformTicket t = t.
Proof.
  destruct t as [? ? ? ? ? ? ? ? ? ? ? ? a r v d ?].
  destruct a, r, v, d; reflexivity.
Qed.

(* ================================================================== *)
(** * Equations of the live call and of withFallback                  *)
(* ================================================================== *)

Section Equations.

Context {env : Env}.

Lemma live_call_null (r : Request) (s : State) :
  isConfigured env = false -> live_call r s = (Throw ClientIsNull, s).
Proof. intros H. unfold live_call. rewrite H. reflexivity. Qed.

Lemma live_call_fail (r : Request) (s : State) :
  isConfigured env = true -> liveFails env (liveCalls s) = true ->
  live_call r s = (Throw SupabaseError, sent r (liveDb s) s).
Proof. intros H1 H2. unfold live_call. rewrite H1, H2. reflexivity. Qed.

Lemma live_call_ok (r : Request) (s : State) :
  isConfigured env = true -> liveFails env (liveCalls s) = false ->
  live_call r s
  = (Ok (fst (serve r (liveDb s))), sent r (snd (serve r (liveDb s))) s).
Proof.
  intros H1 H2. unfold live_call. rewrite H1, H2. cbn [negb].
  destruct (serve r (liveDb s)). reflexivity.
Qed.

Lemma withFallback_down {A} (sop mop : M A) (name : string) (s : State) :
  supabaseAvailable s && isConfigured env = false ->
  withFallback sop mop name s
  = if enableMockFallback env then mop s else (Throw (FallbackDisabled name), s).
Proof.
  intros H. unfold withFallback, bind, get.
  replace (negb (supabaseAvailable s) || negb (isConfigured env)) with true.
  - destruct (enableMockFallback env); reflexivity.
  - destruct (supabaseAvailable s), (isConfigured env);
      simpl in *; congruence.
Qed.

Lemma withFallback_up {A} (sop mop : M A) (name : string) (s : State) :
  supabaseAvailable s = true -> isConfigured env = true ->
  withFallback sop mop name s
  = match sop s with
    | (Ok a, s') => (Ok a, s')
    | (Throw e, s') =>
        if enableMockFallback env
        then mop (set_supabaseAvailable false s')
        else (Throw e, s')
    end.
Proof.
  intros H1 H2. unfold withFallback, bind, get, try_catch, modify, throw.
  rewrite H1, H2. cbn [negb orb].
  destruct (sop s) as [[a|e] s']; [reflexivity|].
  destruct (enableMockFallback env); reflexivity.
Qed.

End Equations.

(* ================================================================== *)
(** * Listing tickets                                                 *)
(* ================================================================== *)

Section Listing.

Context {env : Env}.

Lemma mock_list_eq (userId role : option string) (s : State) :
  mockDbHelpers.getTicketsWithRelations userId role s
  = (Ok (scoped userId role (currentMockTickets s)), s).
Proof.
  unfold mockDbHelpers.getTicketsWithRelations, scoped, bind, get, ret.
  destruct userId as [u|]; destruct (filter_applies _ role); reflexivity.
Qed.

Lemma scoped_no_filter (userId role : option string) (l : list Ticket) :
  filter_applies userId role = false -> scoped userId role l = l.
Proof.
  unfold scoped. intros H. destruct userId; [rewrite H|]; reflexivity.
Qed.

Lemma scoped_filter (u : string) (l : list Ticket) :
  u <> "" ->
  scoped (Some u) (Some "field_engineer") l = filter (created_or_assigned u) l.
Proof.
  intros Hu. unfold scoped.
  replace (filter_applies (Some u) (Some "field_engineer")) with true;
    [reflexivity|].
  symmetry. apply filter_applies_true. split; [reflexivity | eauto].
Qed.

Lemma serve_select (userId role : option string) (db : Db) :
  exists l,
    serve (SelectTickets (if filter_applies userId role then userId else None)) db
    = (TicketRows l, db)
    /\ Permutation l (scoped userId role (db_tickets db)).
Proof.
  unfold scoped. destruct (filter_applies userId role) eqn:Hf.
  - destruct userId as [u|].
    + eexists. split; [reflexivity | apply order_desc_perm].
    + apply filter_applies_true in Hf. destruct Hf as [_ (u & Hu & _)].
      discriminate.
  - destruct userId as [u|];
      (eexists; split; [reflexivity | apply order_desc_perm]).
Qed.

(** the three ways a listing through [dbHelpers] can go *)
Lemma db_list_cases (userId role : option string) (s : State) :
  (live_answers s = true /\
   exists l, Permutation l (scoped userId role (db_tickets (liveDb s))) /\
     dbHelpers.getTicketsWithRelations userId role s
     = (Ok l, sent (SelectTickets (if filter_applies userId role
                                   then userId else None)) (liveDb s) s))
  \/ (live_answers s = false /\ enableMockFallback env = true /\
      exists s', dbHelpers.getTicketsWithRelations userId role s
                 = (Ok (scoped userId role (currentMockTickets s)), s'))
  \/ (live_answers s = false /\ enableMockFallback env = false /\
      exists e s', dbHelpers.getTicketsWithRelations userId role s = (Throw e, s')
                   /\ currentMockTickets s' = currentMockTickets s).
Proof.
  unfold dbHelpers.getTicketsWithRelations, live_answers.
  destruct (supabaseAvailable s) eqn:Ha; destruct (isConfigured env) eqn:Hc;
    cbn [andb];
    try (right; rewrite withFallback_down by (rewrite Ha, Hc; reflexivity);
         destruct (enableMockFallback env);
         [ left; rewrite mock_list_eq; eauto
         | right; repeat split; eauto ]).
  rewrite withFallback_up by assumption. unfold bind.
  destruct (liveFails env (liveCalls s)) eqn:Hl; cbn [negb].
  - right. rewrite live_call_fail by assumption.
    destruct (enableMockFallback env).
    + left. rewrite mock_list_eq. cbn. eauto.
    + right. repeat split; eauto.
  - left. split; [reflexivity|].
    rewrite live_call_ok by assumption.
    destruct (serve_select userId role (liveDb s)) as (l0 & -> & Hp).
    cbn. eauto.
Qed.

(** what [dbHelpers.getTicketsWithRelations] returns when it returns *)
Lemma db_list_perm (userId role : option string) (s s' : State) (l : list Ticket) :
  dbHelpers.getTicketsWithRelations userId role s = (Ok l, s') ->
  Permutation l (scoped userId role (answering_store s)).
Proof.
  unfold answering_store.
  destruct (db_list_cases userId role s)
    as [(-> & l0 & Hp & ->) | [(-> & _ & s1 & ->) | (_ & _ & e & s1 & -> & _)]];
    intros H; inversion H; subst; auto.
Qed.

(** with the fallback enabled it always returns *)
Lemma db_list_total (userId role : option string) (s : State) :
  enableMockFallback env = true ->
  exists l s', dbHelpers.getTicketsWithRelations userId role s = (Ok l, s').
Proof.
  intros Hf.
  destruct (db_list_cases userId role s)
    as [(_ & l0 & _ & ->) | [(_ & _ & s1 & ->) | (_ & Hf' & _)]];
    eauto; congruence.
Qed.

(** the hook's listing always ends with the scoped tickets of the provider
    that answered in its [tickets] state *)
Lemma load_perm (u : string) (p : UserProfile) (s : State) :
  user env = Some u -> profile env = Some p ->
  Permutation (tickets (snd (useTickets.loadTickets s)))
              (scoped (Some u) (Some (role p)) (answering_store s)).
Proof.
  intros Hu Hp. unfold useTickets.loadTickets. rewrite Hu, Hp.
  unfold try_catch at 1. unfold bind at 1. unfold try_catch at 1.
  unfold answering_store.
  destruct (db_list_cases (Some u) (Some (role p)) s)
    as [(-> & l0 & Hl & ->) | [(-> & _ & s1 & ->) | (-> & _ & e & s1 & -> & Hs)]].
  - cbn. rewrite (map_ext _ (fun t => t) transformTicket_id), map_id. exact Hl.
  - cbn. rewrite (map_ext _ (fun t => t) transformTicket_id), map_id.
    apply Permutation_refl.
  - rewrite mock_list_eq. cbn.
    rewrite (map_ext _ (fun t => t) transformTicket_id), map_id, Hs.
    apply Permutation_refl.
Qed.

End Listing.

Section ListingClaims.

Context {env : Env}.

(** C3.  For an actor with role field_engineer (and a proper, non-empty id),
    listing returns exactly the tickets of the answering provider whose
    [created_by] or [assigned_to] is the actor's id; for an admin or a
    supervisor it returns the full ticket set.  This holds for the mock
    provider, for [dbHelpers.getTicketsWithRelations] whenever it returns
    (the live rows come ordered, hence "the same tickets" is a permutation),
    and for the [tickets] state that the hook's [loadTickets] leaves. *)
Theorem C3_list_is_role_scoped (u r : string) (s : State) :
  u <> "" ->
  (r = "field_engineer" ->
     mockDbHelpers.getTicketsWithRelations (Some u) (Some r) s
     = (Ok (filter (created_or_assigned u) (currentMockTickets s)), s)
     /\ (forall l s',
           dbHelpers.getTicketsWithRelations (Some u) (Some r) s = (Ok l, s') ->
           Permutation l (filter (created_or_assigned u) (answering_store s)))
     /\ (forall p, user env = Some u -> profile env = Some p -> role p = r ->
           Permutation (tickets (snd (useTickets.loadTickets s)))
                       (filter (created_or_assigned u) (answering_store s))))
  /\ (r = "admin" \/ r = "supervisor" ->
     mockDbHelpers.getTicketsWithRelations (Some u) (Some r) s
     = (Ok (currentMockTickets s), s)
     /\ (forall l s',
           dbHelpers.getTicketsWithRelations (Some u) (Some r) s = (Ok l, s') ->
           Permutation l (answering_store s))
     /\ (forall p, user env = Some u -> profile env = Some p -> role p = r ->
           Permutation (tickets (snd (useTickets.loadTickets s)))
                       (answering_store s)))
  /\ (forall (store : list Ticket) (t : Ticket),
        In t (filter (created_or_assigned u) store) <->
        In t store /\ (created_by t = u \/ assigned_to t = Some u)).
Proof.
  intros Hu. split; [|split].
  - intros ->. split; [|split].
    + rewrite mock_list_eq, scoped_filter by assumption. reflexivity.
    + intros l s' H. apply db_list_perm in H.
      rewrite scoped_filter in H by assumption. exact H.
    + intros p H1 H2 Hr.
      rewrite <- (scoped_filter u (answering_store s) Hu), <- Hr. apply load_perm; assumption.
  - intros Hr.
    assert (Hf : filter_applies (Some u) (Some r) = false)
      by (destruct Hr as [-> | ->]; reflexivity).
    split; [|split].
    + rewrite mock_list_eq, scoped_no_filter by assumption. reflexivity.
    + intros l s' H. apply db_list_perm in H.
      rewrite scoped_no_filter in H by assumption. exact H.
    + intros p H1 H2 Hp.
      rewrite <- (scoped_no_filter (Some u) (Some r) (answering_store s) Hf), <- Hp.
      apply load_perm; assumption.
  - intros store t. rewrite filter_In, created_or_assigned_true. reflexivity.
Qed.

(** C10.  With role field_engineer but no [userId], listing applies no
    visibility filter: the mock provider returns its whole ticket set, the
    request that [dbHelpers] sends carries no filter and whatever it returns
    is the whole set of the answering provider.  The filter is applied
    exactly when the role is field_engineer and a (truthy) userId is
    supplied. *)
Theorem C10_no_userId_no_filter (s : State) :
  mockDbHelpers.getTicketsWithRelations None (Some "field_engineer") s
  = (Ok (currentMockTickets s), s)
  /\ match dbHelpers.getTicketsWithRelations None (Some "field_engineer") s with
     | (Ok l, s') =>
         Permutation l (answering_store s) /\
         (live_answers s = true ->
          l = order_desc created_at (db_tickets (liveDb s)) /\
          s' = sent (SelectTickets None) (liveDb s) s)
     | (Throw _, _) => live_answers s = false /\ enableMockFallback env = false
     end
  /\ (forall userId role : option string,
        filter_applies userId role = true <->
        role = Some "field_engineer" /\ exists u, userId = Some u /\ u <> "").
Proof.
  split; [|split].
  - rewrite mock_list_eq. reflexivity.
  - destruct (dbHelpers.getTicketsWithRelations None (Some "field_engineer") s)
      as [[l|e] s'] eqn:H.
    + split; [exact (db_list_perm _ _ _ _ _ H)|].
      intros Hl.
      destruct (db_list_cases None (Some "field_engineer") s)
        as [(_ & l0 & Hp & E) | [(E & _) | (E & _)]]; try congruence.
      rewrite E in H. inversion H; subst. clear H. revert E.
      unfold dbHelpers.getTicketsWithRelations. unfold live_answers in Hl.
      apply andb_true_iff in Hl. destruct Hl as [Hl Hn].
      apply andb_true_iff in Hl. destruct Hl as [Ha Hc].
      apply negb_true_iff in Hn.
      rewrite withFallback_up by assumption. unfold bind.
      rewrite live_call_ok by assumption. cbn.
      intros E. inversion E. split; reflexivity.
    + destruct (db_list_cases None (Some "field_engineer") s)
        as [(_ & l0 & _ & E) | [(_ & _ & s1 & E) | (Hl & Hf & _)]];
        try congruence. auto.
  - apply filter_applies_true.
Qed.

End ListingClaims.

Lemma C3_witness :
  mockDbHelpers.getTicketsWithRelations
    (Some "3") (Some "field_engineer") (Fixtures.initial false Fixtures.emptyDb)
  = (Ok (filter (created_or_assigned "3") Fixtures.mockTickets),
     Fixtures.initial false Fixtures.emptyDb).
Proof.
  refine (proj1 (proj1 (C3_list_is_role_scoped (env := Fixtures.engineerDemo)
                          "3" "field_engineer"
                          (Fixtures.initial false Fixtures.emptyDb) _) eq_refl)).
  discriminate.
Defined.

Lemma C10_witness :
  mockDbHelpers.getTicketsWithRelations
    None (Some "field_engineer") (Fixtures.initial false Fixtures.emptyDb)
  = (Ok Fixtures.mockTickets, Fixtures.initial false Fixtures.emptyDb).
Proof.
  exact (proj1 (C10_no_userId_no_filter (env := Fixtures.engineerDemo)
                  (Fixtures.initial false Fixtures.emptyDb))).
Defined.

(* ================================================================== *)
(** * The fallback circuit breaker                                    *)
(* ================================================================== *)

Lemma set_supabaseAvailable_same (s : State) :
  set_supabaseAvailable (supabaseAvailable s) s = s.
Proof. destruct s; reflexivity. Qed.

Lemma flag_blind_flag {A} (m : M A) (s : State) :
  flag_blind m -> supabaseAvailable (snd (m s)) = supabaseAvailable s.
Proof.
  intros H. pose proof (H (supabaseAvailable s) s) as E.
  rewrite set_supabaseAvailable_same in E.
  exact (f_equal (fun p => supabaseAvailable (snd p)) E).
Qed.

Lemma flag_blind_keeps_flag_down {A} (m : M A) :
  flag_blind m -> keeps_flag_down m.
Proof. intros H s Hs. rewrite flag_blind_flag; assumption. Qed.

Lemma blind_ret {A} (a : A) : flag_blind (ret a).
Proof. intros b s. reflexivity. Qed.

Lemma blind_throw {A} (e : Error) : flag_blind (throw (A := A) e).
Proof. intros b s. reflexivity. Qed.

Lemma blind_bind {A B} (m : M A) (k : A -> M B) :
  flag_blind m -> (forall a, flag_blind (k a)) -> flag_blind (bind m k).
Proof.
  intros Hm Hk b s. unfold bind. rewrite Hm.
  destruct (m s) as [[a|e] s1]; cbn [fst snd]; [apply Hk | reflexivity].
Qed.

Lemma blind_try_catch {A} (m : M A) (h : Error -> M A) :
  flag_blind m -> (forall e, flag_blind (h e)) -> flag_blind (try_catch m h).
Proof.
  intros Hm Hh b s. unfold try_catch. rewrite Hm.
  destruct (m s) as [[a|e] s1]; cbn [fst snd]; [reflexivity | apply Hh].
Qed.

(** a write to another field of the session *)
Lemma blind_modify (f : State -> State) :
  (forall b s, f (set_supabaseAvailable b s) = set_supabaseAvailable b (f s)) ->
  flag_blind (modify f).
Proof. intros H b s. unfold modify. rewrite H. reflexivity. Qed.

(** a read of another field of the session *)
Lemma blind_get {A} (f : State -> A) :
  (forall b s, f (set_supabaseAvailable b s) = f s) -> flag_blind (get f).
Proof. intros H b s. unfold get. rewrite H. reflexivity. Qed.

Lemma blind_when (c : bool) (m : M unit) : flag_blind m -> flag_blind (when c m).
Proof. intros H. destruct c; [exact H | apply blind_ret]. Qed.

Ltac blind_step :=
  first
    [ apply blind_ret | apply blind_throw
    | apply blind_bind; [|intros ?]
    | apply blind_try_catch; [|intros ?]
    | apply blind_when
    | apply blind_modify; intros ? ?; reflexivity
    | apply blind_get; intros ? ?; reflexivity
    | assumption
    | match goal with
      | |- flag_blind (match ?x with _ => _ end) => destruct x
      | |- flag_blind (let _ := _ in _) => cbv zeta
      end ].

Section Blind.

Context {env : Env}.

Lemma blind_now : flag_blind now.
Proof. intros b s. reflexivity. Qed.

Lemma blind_live_call (r : Request) : flag_blind (live_call r).
Proof.
  intros b s. unfold live_call.
  destruct (negb (isConfigured env)); [reflexivity|].
  cbn [liveCalls liveDb set_supabaseAvailable].
  destruct (liveFails env (liveCalls s)); [reflexivity|].
  destruct (serve r (liveDb s)). reflexivity.
Qed.

Lemma blind_toast (t : Toast) : flag_blind (useTickets.toast t).
Proof. unfold useTickets.toast. blind_step. Qed.

Lemma blind_notify (c : NotifyCall) : flag_blind (useTickets.notify c).
Proof. unfold useTickets.notify. repeat blind_step. Qed.

Lemma blind_mock_list (userId role : option string) :
  flag_blind (mockDbHelpers.getTicketsWithRelations userId role).
Proof. unfold mockDbHelpers.getTicketsWithRelations. repeat blind_step. Qed.

Lemma blind_mock_getUsers (roleArg : option string) :
  flag_blind (mockDbHelpers.getUsers roleArg).
Proof. unfold mockDbHelpers.getUsers. repeat blind_step. Qed.

Lemma blind_mock_getUserProfile (userId : string) :
  flag_blind (mockDbHelpers.getUserProfile userId).
Proof. unfold mockDbHelpers.getUserProfile. blind_step. Qed.

Lemma blind_mock_getUserStats (userId : string) :
  flag_blind (mockDbHelpers.getUserStats userId).
Proof.
  unfold mockDbHelpers.getUserStats.
  repeat first [apply blind_now | blind_step].
Qed.

Lemma blind_mock_create (ticketData : TicketData) (userId : string) :
  flag_blind (mockDbHelpers.createTicket ticketData userId).
Proof.
  unfold mockDbHelpers.createTicket.
  repeat first [apply blind_now | blind_step].
Qed.

Lemma blind_mock_update (ticketId : string) (updates : TicketPatch) :
  flag_blind (mockDbHelpers.updateTicket ticketId updates).
Proof.
  unfold mockDbHelpers.updateTicket.
  repeat first [apply blind_now | blind_step].
Qed.

Lemma blind_mock_activities (ticketId : string) :
  flag_blind (mockDbHelpers.getTicketActivities ticketId).
Proof.
  unfold mockDbHelpers.getTicketActivities.
  repeat first [apply blind_now | blind_step].
Qed.

Lemma blind_hook_create (ticketData : TicketData) :
  flag_blind (useTickets.createTicket ticketData).
Proof.
  unfold useTickets.createTicket, useTickets.persist_create,
    useTickets.notify_create, single.
  repeat first [apply blind_live_call | apply blind_mock_create
               | apply blind_toast | apply blind_notify | blind_step].
Qed.

Lemma blind_hook_update (ticketId : string) (updates : TicketPatch) :
  flag_blind (useTickets.updateTicket ticketId updates).
Proof.
  unfold useTickets.updateTicket, useTickets.build_dbUpdates, useTickets.stamp,
    useTickets.persist_update, useTickets.notify_update, single.
  repeat first [apply blind_now | apply blind_live_call | apply blind_mock_update
               | apply blind_toast | apply blind_notify | blind_step].
Qed.

Lemma blind_hook_activities (ticketId : string) :
  flag_blind (useTickets.getTicketActivities ticketId).
Proof.
  unfold useTickets.getTicketActivities, dbHelpers.getTicketActivities,
    activity_rows.
  repeat first [apply blind_live_call | apply blind_mock_activities
               | apply blind_toast | blind_step].
Qed.

End Blind.

Section Breaker.

Context {env : Env}.

Lemma run_ops_down (ops : list FallbackOp) (s : State) :
  enableMockFallback env = true ->
  Forall (fun o => keeps_flag_down (fo_mock o)) ops ->
  supabaseAvailable s = false ->
  run_ops ops s = run_mocks ops s
  /\ supabaseAvailable (snd (run_ops ops s)) = false.
Proof.
  intros Hf Hops. revert s.
  induction Hops as [|o rest Ho _ IH]; intros s Hs; [auto|].
  cbn [run_ops run_mocks].
  rewrite withFallback_down by (rewrite Hs; reflexivity). rewrite Hf.
  specialize (Ho s Hs).
  destruct (fo_mock o s) as [r s1]. cbn [snd] in Ho.
  destruct (IH s1 Ho) as [E Hd]. rewrite E.
  destruct (run_mocks rest s1) as [rs s2] eqn:Em.
  rewrite E in Hd. auto.
Qed.

Lemma listing_keeps_flag_down (userId role : option string) :
  keeps_flag_down (mockDbHelpers.getTicketsWithRelations userId role).
Proof. intros s Hs. rewrite mock_list_eq. exact Hs. Qed.

(** C4, as the code has it.  For an operation that goes through
    [withFallback], with the mock fallback enabled: while the flag is up
    (and Supabase is configured) the live operation is tried first and its
    result returned when it succeeds; when it fails the flag goes down and
    the mock implementation answers; from a state where the flag is down
    every sequence of such operations whose mock implementations leave the
    flag down is answered by the mock implementations alone, whatever the
    live operations are (they are not run), and the flag stays down.  The
    mock implementations of [getTicketsWithRelations], [getUsers],
    [getUserProfile] and [getUserStats] leave the flag down.  With the
    fallback disabled the error of the live operation propagates and the
    flag is left as it is.  The hook's [createTicket], [updateTicket] and
    [getTicketActivities], which have a [try]/[catch] of their own around
    the live call, neither read nor write the flag. *)
Theorem C4_withFallback_circuit_breaker {A} (sop mop : M A) (name : string)
    (s : State) :
  (supabaseAvailable s = true -> isConfigured env = true ->
   forall a s1, sop s = (Ok a, s1) ->
     withFallback sop mop name s = (Ok a, s1))
  /\ (enableMockFallback env = true ->
      supabaseAvailable s = true -> isConfigured env = true ->
      forall e s1, sop s = (Throw e, s1) ->
        withFallback sop mop name s = mop (set_supabaseAvailable false s1)
        /\ (keeps_flag_down mop ->
            supabaseAvailable (snd (withFallback sop mop name s)) = false))
  /\ (enableMockFallback env = true ->
      supabaseAvailable s = false ->
      withFallback sop mop name s = mop s
      /\ forall ops : list FallbackOp,
           Forall (fun o => keeps_flag_down (fo_mock o)) ops ->
           run_ops ops s = run_mocks ops s
           /\ supabaseAvailable (snd (run_ops ops s)) = false)
  /\ (enableMockFallback env = false ->
      supabaseAvailable s = true -> isConfigured env = true ->
      forall e s1, sop s = (Throw e, s1) ->
        withFallback sop mop name s = (Throw e, s1))
  /\ ((forall userId role,
         keeps_flag_down (mockDbHelpers.getTicketsWithRelations userId role))
      /\ (forall roleArg, keeps_flag_down (mockDbHelpers.getUsers roleArg))
      /\ (forall userId, keeps_flag_down (mockDbHelpers.getUserProfile userId))
      /\ (forall userId, keeps_flag_down (mockDbHelpers.getUserStats userId)))
  /\ ((forall ticketData, flag_blind (useTickets.createTicket ticketData))
      /\ (forall ticketId updates,
            flag_blind (useTickets.updateTicket ticketId updates))
      /\ (forall ticketId, flag_blind (useTickets.getTicketActivities ticketId))).
Proof.
  split; [|split; [|split; [|split; [|split]]]].
  - intros Ha Hc a s1 E. rewrite withFallback_up, E by assumption. reflexivity.
  - intros Hf Ha Hc e s1 E. rewrite withFallback_up, E, Hf by assumption.
    split; [reflexivity|]. intros Hk. apply Hk. reflexivity.
  - intros Hf Ha. split.
    + rewrite withFallback_down by (rewrite Ha; reflexivity).
      rewrite Hf. reflexivity.
    + intros ops Hops. apply run_ops_down; assumption.
  - intros Hf Ha Hc e s1 E. rewrite withFallback_up, E, Hf by assumption.
    reflexivity.
  - repeat split; intros; apply flag_blind_keeps_flag_down.
    + apply blind_mock_list.
    + apply blind_mock_getUsers.
    + apply blind_mock_getUserProfile.
    + apply blind_mock_getUserStats.
  - repeat split; intros.
    + apply blind_hook_create.
    + apply blind_hook_update.
    + apply blind_hook_activities.
Qed.

End Breaker.

(** A transient failure: the first listing trips the flag and is answered
    by the mock provider. *)
Lemma C4_witness :
  let s := Fixtures.initial true Fixtures.emptyDb in
  let o := listingOp (env := Fixtures.engineerTransient)
             (Some "3") (Some "field_engineer") in
  withFallback (env := Fixtures.engineerTransient)
    (fo_supabase o) (fo_mock o) (fo_name o) s
  = fo_mock o (set_supabaseAvailable false
                 (sent (SelectTickets (Some "3")) Fixtures.emptyDb s)).
Proof.
  intros s o.
  exact (proj1 (proj1 (proj2 (C4_withFallback_circuit_breaker
                         (env := Fixtures.engineerTransient)
                         (fo_supabase o) (fo_mock o) (fo_name o) s))
                  eq_refl eq_refl eq_refl SupabaseError _ eq_refl)).
Defined.

(** The same transient failure met by the hook's [createTicket]: the ticket
    is created by the mock provider, the flag stays up, and the listing that
    follows calls the live backend again. *)
Lemma C4_counterexample :
  ~ circuit_breaker_as_stated (env := Fixtures.engineerTransient)
      (useTickets.createTicket (env := Fixtures.engineerTransient)
         Fixtures.acRepair)
      (dbHelpers.getTicketsWithRelations (env := Fixtures.engineerTransient)
         (Some "3") (Some "field_engineer"))
      (mockDbHelpers.getTicketsWithRelations (Some "3") (Some "field_engineer"))
      (Fixtures.initial true Fixtures.emptyDb).
Proof.
  intros H. destruct (H eq_refl eq_refl eq_refl) as [Hflag _].
  vm_compute in Hflag. discriminate Hflag.
Qed.

(* ================================================================== *)
(** * Frames: what each block of the hook may change                  *)
(* ================================================================== *)

Lemma set_ticks_same (s : State) : set_ticks (ticks s) s = s.
Proof. destruct s; reflexivity. Qed.

Lemma later_refl (s : State) : later s s.
Proof. split; [symmetry; apply set_ticks_same | apply le_n]. Qed.

Lemma later_tick (s : State) : later s (set_ticks (S (ticks s)) s).
Proof. split; [reflexivity | cbn; lia]. Qed.

Lemma later_trans (a b c : State) : later a b -> later b c -> later a c.
Proof.
  intros [E1 L1] [E2 L2]. split; [|lia].
  rewrite E2 at 1. rewrite E1. reflexivity.
Qed.

Section Frames.

Context {env : Env}.

Lemma stamp_later (updates : TicketPatch) (st : Status) (given : Patch Date)
    (s : State) :
  exists p s', useTickets.stamp updates st given s = (Ok p, s') /\ later s s'.
Proof.
  unfold useTickets.stamp, bind, now, ret.
  destruct (useTickets.status_is updates st && negb (truthy_date given)).
  - eexists _, _. split; [reflexivity | apply later_tick].
  - eexists _, _. split; [reflexivity | apply later_refl].
Qed.

Lemma build_dbUpdates_later (uid : string) (updates : TicketPatch) (s : State) :
  exists dbu s', useTickets.build_dbUpdates uid updates s = (Ok dbu, s')
                 /\ later s s'
                 /\ upd_status dbu = upd_status updates
                 /\ upd_assigned_to dbu = upd_assigned_to updates.
Proof.
  unfold useTickets.build_dbUpdates. unfold bind at 1.
  destruct (stamp_later updates assigned (upd_assigned_at updates) s)
    as (p1 & s1 & -> & L1).
  unfold bind at 1.
  destruct (stamp_later updates resolved (upd_resolved_at updates) s1)
    as (p2 & s2 & -> & L2).
  unfold bind at 1.
  destruct (stamp_later updates verified (upd_verified_at updates) s2)
    as (p3 & s3 & -> & L3).
  unfold ret. eexists _, _. split; [reflexivity|].
  split; [eauto using later_trans | split; reflexivity].
Qed.

Lemma live_down_later (s s' : State) : later s s' -> live_down s -> live_down s'.
Proof.
  intros [E _] H. rewrite E. exact H.
Qed.

(** a notification block never throws and touches the notification log only *)
Lemma notify_create_frame (t : Ticket) (s : State) :
  exists nl, useTickets.notify_create t s = (Ok tt, set_notified nl s).
Proof.
  unfold useTickets.notify_create, useTickets.notify, try_catch, throw, modify, ret.
  destruct (notifyFails env (notifyTicketCreated t)).
  - exists (notified s). destruct s; reflexivity.
  - eexists. reflexivity.
Qed.

Lemma notify_update_frame (uid : string) (updates : TicketPatch) (t : Ticket)
    (s : State) :
  exists nl, useTickets.notify_update uid updates t s = (Ok tt, set_notified nl s).
Proof.
  assert (Hid : forall x, set_notified (notified x) x = x)
    by (intros x; destruct x; reflexivity).
  assert (Hn : forall c x,
             (exists nl, useTickets.notify c x = (Ok tt, set_notified nl x))
             \/ useTickets.notify c x = (Throw NotificationError, x)).
  { intros c x. unfold useTickets.notify, throw, modify.
    destruct (notifyFails env c); [right; reflexivity | left; eauto]. }
  unfold useTickets.notify_update, try_catch, bind, when, ret.
  destruct (useTickets.status_is updates resolved).
  - destruct (Hn (notifyTicketResolved t uid) s) as [(nl & ->) | ->].
    + destruct (upd_assigned_to updates) as [| | |a];
        try (exists nl; reflexivity).
      destruct (truthy a && negb (a =? created_by t)).
      * destruct (Hn (notifyTicketAssigned t a uid) (set_notified nl s))
          as [(nl' & ->) | ->]; eexists; reflexivity.
      * exists nl; reflexivity.
    + exists (notified s). rewrite Hid. reflexivity.
  - destruct (upd_assigned_to updates) as [| | |a];
      try (exists (notified s); rewrite Hid; reflexivity).
    destruct (truthy a && negb (a =? created_by t)).
    + destruct (Hn (notifyTicketAssigned t a uid) s) as [(nl' & ->) | ->].
      * eexists; reflexivity.
      * exists (notified s). rewrite Hid. reflexivity.
    + exists (notified s). rewrite Hid. reflexivity.
Qed.

End Frames.

(* ================================================================== *)
(** * Updating a ticket                                               *)
(* ================================================================== *)

Section Updating.

Context {env : Env}.

Lemma mock_update_found (ticketId : string) (updates : TicketPatch) (s : State)
    (i : nat) (t : Ticket) :
  findIndex (fun t => id t =? ticketId) (currentMockTickets s) = Some i ->
  nth_error (currentMockTickets s) i = Some t ->
  let t' := mockDbHelpers.attach_assigned_profile updates
              (apply_updates t updates (clock env (ticks s))) in
  mockDbHelpers.updateTicket ticketId updates s
  = (Ok t', set_currentMockTickets (array_set i t' (currentMockTickets s))
              (set_ticks (S (ticks s)) s)).
Proof.
  intros Hi Hn. unfold mockDbHelpers.updateTicket, bind, get, now, modify, ret.
  rewrite Hi, Hn. reflexivity.
Qed.

Lemma mock_update_missing (ticketId : string) (updates : TicketPatch) (s : State) :
  findIndex (fun t => id t =? ticketId) (currentMockTickets s) = None ->
  mockDbHelpers.updateTicket ticketId updates s = (Throw TicketNotFound, s).
Proof.
  intros Hi. unfold mockDbHelpers.updateTicket, bind, get, throw.
  rewrite Hi. reflexivity.
Qed.

(** when the live call throws, the update is the mock provider's, run from
    a state that differs from [s] by the request sent at most *)
Lemma persist_update_down (ticketId : string) (updates dbu : TicketPatch)
    (s : State) :
  live_down s ->
  exists s2,
    useTickets.persist_update ticketId updates dbu s
    = mockDbHelpers.updateTicket ticketId updates s2
    /\ (s2 = s \/ s2 = sent (UpdateTicket ticketId dbu) (liveDb s) s).
Proof.
  intros Hd. unfold useTickets.persist_update, try_catch, bind.
  destruct (isConfigured env) eqn:Hc.
  - destruct Hd as [Hd|Hd]; [congruence|].
    rewrite live_call_fail by assumption. eauto.
  - rewrite live_call_null by assumption. eauto.
Qed.

Lemma attach_fields (updates : TicketPatch) (t : Ticket) :
  let t' := mockDbHelpers.attach_assigned_profile updates t in
  id t' = id t /\ status t' = status t /\ assigned_to t' = assigned_to t
  /\ verified_by t' = verified_by t /\ assigned_at t' = assigned_at t
  /\ resolved_at t' = resolved_at t /\ verified_at t' = verified_at t
  /\ created_by t' = created_by t /\ created_at t' = created_at t
  /\ updated_at t' = updated_at t /\ title t' = title t.
Proof.
  unfold mockDbHelpers.attach_assigned_profile.
  destruct (upd_assigned_to updates) as [| | |a]; cbn; try tauto.
  destruct (truthy a); cbn; try tauto.
  destruct (find _ (mockUsers env)); cbn; tauto.
Qed.

(** the hook's update, when the mock provider serves it and knows the ticket *)
Lemma update_on_mock (uid ticketId : string) (updates : TicketPatch) (s : State)
    (i : nat) (t : Ticket) :
  user env = Some uid ->
  live_down s ->
  findIndex (fun t => id t =? ticketId) (currentMockTickets s) = Some i ->
  nth_error (currentMockTickets s) i = Some t ->
  exists k s',
    let t' := mockDbHelpers.attach_assigned_profile updates
                (apply_updates t updates (clock env k)) in
    ticks s <= k
    /\ useTickets.updateTicket ticketId updates s = (Ok t', s')
    /\ currentMockTickets s' = array_set i t' (currentMockTickets s)
    /\ toasts s' = ToastTicketUpdated :: toasts s.
Proof.
  intros Hu Hd Hi Hn. unfold useTickets.updateTicket. rewrite Hu.
  unfold try_catch at 1. unfold bind at 1.
  destruct (build_dbUpdates_later uid updates s) as (dbu & s1 & -> & L1 & _).
  unfold bind at 1.
  destruct (persist_update_down ticketId updates dbu s1
              (live_down_later _ _ L1 Hd)) as (s2 & -> & Hs2).
  assert (Hm : currentMockTickets s2 = currentMockTickets s
               /\ ticks s2 = ticks s1 /\ toasts s2 = toasts s).
  { destruct L1 as [E1 _]. destruct Hs2 as [-> | ->]; rewrite E1; cbn; auto. }
  destruct Hm as (Hm & Ht & Hto).
  rewrite <- Hm in Hi, Hn.
  rewrite (mock_update_found ticketId updates s2 i t Hi Hn).
  rewrite transformTicket_id. unfold bind at 1. unfold modify at 1.
  unfold bind at 1.
  match goal with
  | |- context [useTickets.notify_update uid updates ?t ?st] =>
      destruct (notify_update_frame uid updates t st) as (nl & ->)
  end.
  unfold bind, useTickets.toast, modify, ret.
  exists (ticks s2). eexists. cbn zeta.
  split; [destruct L1; lia|].
  split; [reflexivity|].
  cbn. rewrite Hm, Hto. split; reflexivity.
Qed.

(** the same when the mock provider does not know the ticket *)
Lemma update_on_mock_missing (uid ticketId : string) (updates : TicketPatch)
    (s : State) :
  user env = Some uid ->
  live_down s ->
  findIndex (fun t => id t =? ticketId) (currentMockTickets s) = None ->
  exists s',
    useTickets.updateTicket ticketId updates s = (Throw TicketNotFound, s')
    /\ currentMockTickets s' = currentMockTickets s
    /\ toasts s' = ToastUpdateFailed TicketNotFound :: toasts s.
Proof.
  intros Hu Hd Hi. unfold useTickets.updateTicket. rewrite Hu.
  unfold try_catch at 1. unfold bind at 1.
  destruct (build_dbUpdates_later uid updates s) as (dbu & s1 & -> & L1 & _).
  unfold bind at 1.
  destruct (persist_update_down ticketId updates dbu s1
              (live_down_later _ _ L1 Hd)) as (s2 & -> & Hs2).
  assert (Hm : currentMockTickets s2 = currentMockTickets s
               /\ toasts s2 = toasts s).
  { destruct L1 as [E1 _]. destruct Hs2 as [-> | ->]; rewrite E1; cbn; auto. }
  destruct Hm as (Hm & Hto).
  rewrite <- Hm in Hi.
  rewrite (mock_update_missing ticketId updates s2 Hi).
  unfold bind, useTickets.toast, modify, throw. eexists. split; [reflexivity|].
  cbn. rewrite Hm, Hto. split; reflexivity.
Qed.

End Updating.

(* ================================================================== *)
(** * What an update sends to the live backend                        *)
(* ================================================================== *)

Section Sending.

Context {env : Env}.

Lemma mock_update_requests (ticketId : string) (updates : TicketPatch) (s : State) :
  requests (snd (mockDbHelpers.updateTicket ticketId updates s)) = requests s.
Proof.
  unfold mockDbHelpers.updateTicket, bind, get, now, modify, ret, throw.
  destruct (findIndex _ (currentMockTickets s)) as [i|]; [|reflexivity].
  destruct (nth_error (currentMockTickets s) i); reflexivity.
Qed.

Lemma persist_update_requests (ticketId : string) (updates dbu : TicketPatch)
    (s : State) :
  isConfigured env = true ->
  requests (snd (useTickets.persist_update ticketId updates dbu s))
  = (requests s ++ [UpdateTicket ticketId dbu])%list.
Proof.
  intros Hc. unfold useTickets.persist_update, try_catch, bind.
  destruct (liveFails env (liveCalls s)) eqn:Hl.
  - rewrite live_call_fail by assumption. rewrite mock_update_requests.
    reflexivity.
  - rewrite live_call_ok by assumption.
    set (db' := snd (serve (UpdateTicket ticketId dbu) (liveDb s))).
    destruct (fst (serve (UpdateTicket ticketId dbu) (liveDb s)))
      as [[|t [|t2 r]]|l]; unfold single, ret, throw; cbv beta iota;
      rewrite ?mock_update_requests; reflexivity.
Qed.

(** every update of a signed in user reaches a configured backend first,
    carrying the [dbUpdates] that the hook has built *)
Lemma update_sends (uid ticketId : string) (updates : TicketPatch) (s : State) :
  user env = Some uid ->
  isConfigured env = true ->
  exists dbu s1,
    useTickets.build_dbUpdates uid updates s = (Ok dbu, s1)
    /\ upd_status dbu = upd_status updates
    /\ requests (snd (useTickets.updateTicket ticketId updates s))
       = (requests s ++ [UpdateTicket ticketId dbu])%list.
Proof.
  intros Hu Hc. unfold useTickets.updateTicket. rewrite Hu.
  destruct (build_dbUpdates_later uid updates s) as (dbu & s1 & E & L1 & Hst & _).
  exists dbu, s1. split; [exact E|]. split; [exact Hst|].
  unfold try_catch at 1. unfold bind at 1. rewrite E. unfold bind at 1.
  pose proof (persist_update_requests ticketId updates dbu s1 Hc) as Hr.
  assert (Hs1 : requests s1 = requests s)
    by (destruct L1 as [-> _]; reflexivity).
  rewrite Hs1 in Hr.
  destruct (useTickets.persist_update ticketId updates dbu s1) as [[t|e] s2].
  - unfold bind at 1. unfold modify at 1. unfold bind at 1.
    match goal with
    | |- context [useTickets.notify_update uid updates ?t ?st] =>
        destruct (notify_update_frame uid updates t st) as (nl & ->)
    end.
    unfold bind, useTickets.toast, modify, ret. cbn. exact Hr.
  - unfold bind, useTickets.toast, modify, throw. cbn. exact Hr.
Qed.

End Sending.

Section UpdateClaims.

Context {env : Env}.

(** C1, as the code has it.  The update checks no status edge.  Without
    a signed in user it throws "User not authenticated" and changes
    nothing.  For a signed in user and an update served by the mock
    provider: whatever the stored status and whatever the requested status
    [to] (all thirty-six pairs), the update succeeds and both the returned
    and the stored ticket have status [to]; and the update fails in one case
    only, with "Ticket not found", when no stored ticket has the id, and
    then the stored tickets are as before.  A configured live backend is
    sent the requested status as it is. *)
Theorem C1_update_applies_any_status (ticketId : string)
    (updates : TicketPatch) (s : State) :
  (user env = None ->
   useTickets.updateTicket ticketId updates s = (Throw UserNotAuthenticated, s))
  /\ (forall uid, user env = Some uid ->
      (live_down s ->
       (forall i t to,
          findIndex (fun t => id t =? ticketId) (currentMockTickets s) = Some i ->
          nth_error (currentMockTickets s) i = Some t ->
          upd_status updates = Some to ->
          exists t' s',
            useTickets.updateTicket ticketId updates s = (Ok t', s')
            /\ status t' = to
            /\ nth_error (currentMockTickets s') i = Some t')
       /\ (forall e s',
            useTickets.updateTicket ticketId updates s = (Throw e, s') ->
            e = TicketNotFound /\ stored ticketId s = None
            /\ currentMockTickets s' = currentMockTickets s))
      /\ (isConfigured env = true ->
          exists dbu,
            requests (snd (useTickets.updateTicket ticketId updates s))
            = (requests s ++ [UpdateTicket ticketId dbu])%list
            /\ upd_status dbu = upd_status updates)).
Proof.
  split.
  { intros Hu. unfold useTickets.updateTicket. rewrite Hu. reflexivity. }
  intros uid Hu. split.
  - intros Hd. split.
    + intros i t to Hi Hn Hs.
      destruct (update_on_mock uid ticketId updates s i t Hu Hd Hi Hn)
        as (k & s' & _ & E & Hm & _).
      eexists _, s'. split; [exact E|]. split.
      * destruct (attach_fields updates (apply_updates t updates (clock env k)))
          as (_ & -> & _).
        cbn. rewrite Hs. reflexivity.
      * rewrite Hm. eapply array_set_nth_error, Hn.
    + intros e s' E. unfold stored.
      pose proof (findIndex_find (fun t => id t =? ticketId)
                    (currentMockTickets s)) as Hf.
      destruct (findIndex (fun t => id t =? ticketId) (currentMockTickets s))
        as [i|] eqn:Hi.
      * destruct (findIndex_nth_error _ _ _ Hi) as (t & Hn & _).
        destruct (update_on_mock uid ticketId updates s i t Hu Hd Hi Hn)
          as (k & s1 & _ & E1 & _).
        congruence.
      * destruct (update_on_mock_missing uid ticketId updates s Hu Hd Hi)
          as (s1 & E1 & Hm & _).
        rewrite E1 in E. inversion E; subst. auto.
  - intros Hc.
    destruct (update_sends uid ticketId updates s Hu Hc)
      as (dbu & s1 & _ & Hst & R).
    exists dbu. split; assumption.
Qed.

End UpdateClaims.

(** Closing the first fixture ticket straight from [open] goes through. *)
Lemma C1_witness :
  exists t' s',
    useTickets.updateTicket (env := Fixtures.adminDemo) "1" (statusUpdate closed)
      (Fixtures.initial false Fixtures.emptyDb) = (Ok t', s')
    /\ status t' = closed
    /\ nth_error (currentMockTickets s') 0 = Some t'.
Proof.
  refine (proj1 (proj1 (proj2 (C1_update_applies_any_status
                                 (env := Fixtures.adminDemo)
                                 "1" (statusUpdate closed)
                                 (Fixtures.initial false Fixtures.emptyDb))
                          "1" eq_refl) _)
            0 Fixtures.ticket1 closed eq_refl eq_refl eq_refl).
  left. reflexivity.
Defined.

Lemma C1_counterexample :
  ~ transitions_guarded_as_stated (env := Fixtures.adminDemo)
      "1" (statusUpdate closed) (Fixtures.initial false Fixtures.emptyDb).
Proof.
  intros H.
  destruct (H Fixtures.ticket1 closed eq_refl eq_refl eq_refl) as [[e He] _].
  vm_compute in He. discriminate He.
Qed.


Section LifecycleClaims.

Context {env : Env}.

(** C2, as the code has it.  Nothing protects a lifecycle timestamp once it
    is set.  For a signed in user and an operation served by the mock
    provider on a stored ticket [t]:
    - an update leaves [assigned_at], [resolved_at] and [verified_at] as the
      patch says: untouched when the patch does not carry the property, set
      when it carries a date, cleared when it carries null or undefined;
    - unassigning (assign with null) clears [assigned_to] and clears
      [assigned_at] as well;
    - assigning to a user stamps [assigned_at] with the clock reading taken
      by this very call, whether or not the ticket was assigned before.
    And what such an assign sends to a configured live backend carries
    [assigned_at: undefined] when unassigning, the fresh date otherwise. *)
Theorem C2_timestamps_follow_the_patch (uid ticketId : string) (s : State)
    (i : nat) (t : Ticket) :
  user env = Some uid ->
  findIndex (fun t => id t =? ticketId) (currentMockTickets s) = Some i ->
  nth_error (currentMockTickets s) i = Some t ->
  (live_down s ->
   (forall updates, exists t' s',
       useTickets.updateTicket ticketId updates s = (Ok t', s')
       /\ nth_error (currentMockTickets s') i = Some t'
       /\ assigned_at t' = spread (assigned_at t) (upd_assigned_at updates)
       /\ resolved_at t' = spread (resolved_at t) (upd_resolved_at updates)
       /\ verified_at t' = spread (verified_at t) (upd_verified_at updates))
   /\ (exists t' s',
       useTickets.assignTicket ticketId None s = (Ok t', s')
       /\ nth_error (currentMockTickets s') i = Some t'
       /\ status t' = open /\ assigned_to t' = None /\ assigned_at t' = None)
   /\ (forall a, a <> "" -> exists t' s',
       useTickets.assignTicket ticketId (Some a) s = (Ok t', s')
       /\ nth_error (currentMockTickets s') i = Some t'
       /\ status t' = assigned /\ assigned_to t' = Some a
       /\ assigned_at t' = Some (clock env (ticks s))))
  /\ (isConfigured env = true ->
      (exists dbu,
          requests (snd (useTickets.assignTicket ticketId None s))
          = (requests s ++ [UpdateTicket ticketId dbu])%list
          /\ upd_assigned_to dbu = Null /\ upd_assigned_at dbu = Undefined)
      /\ (forall a, a <> "" -> exists dbu,
          requests (snd (useTickets.assignTicket ticketId (Some a) s))
          = (requests s ++ [UpdateTicket ticketId dbu])%list
          /\ upd_assigned_to dbu = Val a
          /\ upd_assigned_at dbu = Val (clock env (ticks s)))).
Proof.
  intros Hu Hi Hn. split.
  - intros Hd. split; [|split].
    + intros updates.
      destruct (update_on_mock uid ticketId updates s i t Hu Hd Hi Hn)
        as (k & s' & _ & E & Hm & _).
      eexists _, s'. split; [exact E|]. split.
      * rewrite Hm. eapply array_set_nth_error, Hn.
      * destruct (attach_fields updates (apply_updates t updates (clock env k)))
          as (_ & _ & _ & _ & -> & -> & -> & _).
        cbn. auto.
    + unfold useTickets.assignTicket. cbn [truthy_opt]. unfold bind at 1, ret at 1.
      match goal with
      | |- context [useTickets.updateTicket ticketId ?u s] =>
          destruct (update_on_mock uid ticketId u s i t Hu Hd Hi Hn)
            as (k & s' & _ & E & Hm & _);
          destruct (attach_fields u (apply_updates t u (clock env k)))
            as (_ & Hst & Hto & _ & Hat & _)
      end.
      eexists _, s'. split; [exact E|]. split.
      * rewrite Hm. eapply array_set_nth_error, Hn.
      * rewrite Hst, Hto, Hat. cbn. auto.
    + intros a Ha. apply truthy_true in Ha.
      unfold useTickets.assignTicket. cbn [truthy_opt]. rewrite Ha.
      unfold bind at 1. unfold bind at 1. unfold now at 1, ret at 1.
      assert (Hd' : live_down (set_ticks (S (ticks s)) s)) by exact Hd.
      match goal with
      | |- context [useTickets.updateTicket ticketId ?u ?st] =>
          destruct (update_on_mock uid ticketId u st i t Hu Hd' Hi Hn)
            as (k & s' & _ & E & Hm & _);
          destruct (attach_fields u (apply_updates t u (clock env k)))
            as (_ & Hst & Hto & _ & Hat & _)
      end.
      eexists _, s'. split; [exact E|]. split.
      * rewrite Hm. eapply array_set_nth_error, Hn.
      * rewrite Hst, Hto, Hat. cbn. auto.
  - intros Hc. split.
    + unfold useTickets.assignTicket. cbn [truthy_opt]. unfold bind at 1, ret at 1.
      match goal with
      | |- context [useTickets.updateTicket ticketId ?u s] =>
          destruct (update_sends uid ticketId u s Hu Hc) as (dbu & s1 & B & _ & R)
      end.
      exists dbu. split; [exact R|].
      cbv in B. inversion B. split; reflexivity.
    + intros a Ha. apply truthy_true in Ha.
      unfold useTickets.assignTicket. cbn [truthy_opt]. rewrite Ha.
      unfold bind at 1. unfold bind at 1. unfold now at 1, ret at 1.
      match goal with
      | |- context [useTickets.updateTicket ticketId ?u ?st] =>
          destruct (update_sends uid ticketId u st Hu Hc) as (dbu & s1 & B & _ & R)
      end.
      exists dbu. split; [exact R|].
      unfold useTickets.build_dbUpdates, useTickets.stamp, useTickets.status_is,
        bind, ret in B.
      cbn in B. inversion B. split; reflexivity.
Qed.

End LifecycleClaims.

(** Unassigning the second fixture ticket, which carries an [assigned_at]. *)
Lemma C2_witness :
  exists t' s',
    useTickets.assignTicket (env := Fixtures.adminDemo) "2" None
      (Fixtures.initial false Fixtures.emptyDb) = (Ok t', s')
    /\ nth_error (currentMockTickets s') 1 = Some t'
    /\ status t' = open /\ assigned_to t' = None /\ assigned_at t' = None.
Proof.
  refine (proj1 (proj2 (proj1 (C2_timestamps_follow_the_patch
                                 (env := Fixtures.adminDemo) "1" "2"
                                 (Fixtures.initial false Fixtures.emptyDb)
                                 1 Fixtures.ticket2 eq_refl eq_refl eq_refl) _))).
  left. reflexivity.
Defined.

Lemma C2_counterexample :
  ~ set_once_as_stated
      (useTickets.assignTicket (env := Fixtures.adminDemo) "2" None)
      "2" (Fixtures.initial false Fixtures.emptyDb).
Proof.
  intros H.
  assert (E : exists after,
             stored "2" (snd (useTickets.assignTicket (env := Fixtures.adminDemo)
                                "2" None (Fixtures.initial false Fixtures.emptyDb)))
             = Some after /\ assigned_at after = None)
    by (vm_compute; eauto).
  destruct E as (after & E & Hnone).
  destruct (H Fixtures.ticket2 after eq_refl E) as [Ha _].
  specialize (Ha _ eq_refl). rewrite Hnone in Ha. discriminate Ha.
Qed.

Section VerificationClaim.

Context {env : Env}.

(** C9, as the code has it.  A transition to verified is open to every
    signed in user: the update reads no role.  Served by the mock provider
    it succeeds on any stored ticket and the returned and stored ticket has
    status verified.  The patch that the hook sends to a configured live
    backend carries, when the caller's patch has no [verified_at] of its
    own, [verified_at] = the clock reading taken by this call and
    [verified_by] = the acting user's id. *)
Theorem C9_verification_reads_no_role (uid ticketId : string)
    (updates : TicketPatch) (s : State) :
  user env = Some uid ->
  upd_status updates = Some verified ->
  (forall i t,
     live_down s ->
     findIndex (fun t => id t =? ticketId) (currentMockTickets s) = Some i ->
     nth_error (currentMockTickets s) i = Some t ->
     exists t' s',
       useTickets.updateTicket ticketId updates s = (Ok t', s')
       /\ status t' = verified
       /\ nth_error (currentMockTickets s') i = Some t')
  /\ (isConfigured env = true ->
      truthy_date (upd_verified_at updates) = false ->
      exists dbu,
        requests (snd (useTickets.updateTicket ticketId updates s))
        = (requests s ++ [UpdateTicket ticketId dbu])%list
        /\ upd_status dbu = Some verified
        /\ upd_verified_at dbu = Val (clock env (ticks s))
        /\ upd_verified_by dbu = Val uid).
Proof.
  intros Hu Hs. split.
  - intros i t Hd Hi Hn.
    destruct (update_on_mock uid ticketId updates s i t Hu Hd Hi Hn)
      as (k & s' & _ & E & Hm & _).
    eexists _, s'. split; [exact E|]. split.
    + destruct (attach_fields updates (apply_updates t updates (clock env k)))
        as (_ & -> & _).
      cbn. rewrite Hs. reflexivity.
    + rewrite Hm. eapply array_set_nth_error, Hn.
  - intros Hc Hv.
    destruct (update_sends uid ticketId updates s Hu Hc) as (dbu & s1 & B & _ & R).
    exists dbu. split; [exact R|].
    unfold useTickets.build_dbUpdates, useTickets.stamp, useTickets.status_is,
      bind, ret, now in B.
    rewrite Hs, Hv in B. cbn in B. inversion B. repeat split; assumption.
Qed.

End VerificationClaim.

(** The field engineer verifies the third fixture ticket, which is resolved. *)
Lemma C9_witness :
  exists t' s',
    useTickets.updateTicket (env := Fixtures.engineerDemo) "3"
      (statusUpdate verified) (Fixtures.initial false Fixtures.emptyDb)
    = (Ok t', s')
    /\ status t' = verified
    /\ nth_error (currentMockTickets s') 2 = Some t'.
Proof.
  refine (proj1 (C9_verification_reads_no_role (env := Fixtures.engineerDemo)
                   "3" "3" (statusUpdate verified)
                   (Fixtures.initial false Fixtures.emptyDb) eq_refl eq_refl)
            2 Fixtures.ticket3 _ eq_refl eq_refl).
  left. reflexivity.
Defined.

Lemma C9_counterexample :
  ~ verification_as_stated (env := Fixtures.engineerDemo)
      "3" (Fixtures.initial false Fixtures.emptyDb).
Proof.
  intros H.
  assert (E : exists t' s',
             useTickets.updateTicket (env := Fixtures.engineerDemo) "3"
               (statusUpdate verified) (Fixtures.initial false Fixtures.emptyDb)
             = (Ok t', s'))
    by (vm_compute; eauto).
  destruct E as (t' & s' & E).
  destruct (H Fixtures.ticket3 t' s' eq_refl eq_refl E) as [(p & Hp & Hr) _].
  vm_compute in Hp. inversion Hp; subst p.
  destruct Hr as [Hr|Hr]; vm_compute in Hr; discriminate Hr.
Qed.

(* ================================================================== *)
(** * Creating a ticket                                               *)
(* ================================================================== *)

Section Creating.

Context {env : Env}.

Lemma mock_create_ok (ticketData : TicketData) (uid : string) (cu : UserProfile)
    (s : State) :
  find (fun u => profile_id u =? uid) (mockUsers env) = Some cu ->
  let t := mockDbHelpers.newTicket ticketData uid (nextTicketId s)
             (clock env (ticks s)) (clock env (S (ticks s))) in
  mockDbHelpers.createTicket ticketData uid s
  = (Ok t, set_currentMockTickets (t :: currentMockTickets s)
             (set_ticks (S (S (ticks s)))
                (set_nextTicketId (S (nextTicketId s)) s))).
Proof.
  intros Hf. unfold mockDbHelpers.createTicket. rewrite Hf. reflexivity.
Qed.

Lemma mock_create_unknown (ticketData : TicketData) (uid : string) (s : State) :
  find (fun u => profile_id u =? uid) (mockUsers env) = None ->
  mockDbHelpers.createTicket ticketData uid s = (Throw UserNotFound, s).
Proof.
  intros Hf. unfold mockDbHelpers.createTicket. rewrite Hf. reflexivity.
Qed.

Lemma persist_create_down (uid : string) (ticketData : TicketData) (s : State) :
  live_down s ->
  exists s2,
    useTickets.persist_create uid ticketData s
    = mockDbHelpers.createTicket ticketData uid s2
    /\ ((isConfigured env = false /\ s2 = s)
        \/ (isConfigured env = true
            /\ s2 = sent (InsertTicket ticketData uid) (liveDb s) s)).
Proof.
  intros Hd. unfold useTickets.persist_create, try_catch, bind.
  destruct (isConfigured env) eqn:Hc.
  - destruct Hd as [Hd|Hd]; [congruence|].
    rewrite live_call_fail by assumption. eauto.
  - rewrite live_call_null by assumption. eauto.
Qed.

(** everything after the persistence step of [createTicket]: it cannot
    fail, and it leaves the state of the persistence step but for the
    hook's own list, the toast and the notification log *)
Lemma create_after_persist (uid : string) (ticketData : TicketData)
    (s s1 : State) (t : Ticket) :
  user env = Some uid ->
  useTickets.persist_create uid ticketData s = (Ok t, s1) ->
  exists nl,
    useTickets.createTicket ticketData s
    = (Ok t, set_toasts (ToastTicketCreated :: toasts s1)
               (set_notified nl (set_tickets (t :: tickets s1) s1)))
    /\ (notifyFails env (notifyTicketCreated t) = true -> nl = notified s1).
Proof.
  intros Hu E. unfold useTickets.createTicket. rewrite Hu.
  unfold try_catch at 1. unfold bind at 1. rewrite E.
  unfold bind at 1. unfold modify at 1. unfold bind at 1.
  unfold useTickets.notify_create, useTickets.notify, try_catch, throw, modify.
  destruct (notifyFails env (notifyTicketCreated t)).
  - exists (notified s1). split; [|reflexivity].
    unfold bind, useTickets.toast, modify, ret. cbn.
    destruct s1; reflexivity.
  - eexists. split; [reflexivity | discriminate].
Qed.

(** the hook's create, when the mock provider serves it and knows the user *)
Lemma create_on_mock (uid : string) (cu : UserProfile) (ticketData : TicketData)
    (s : State) :
  user env = Some uid ->
  live_down s ->
  find (fun u => profile_id u =? uid) (mockUsers env) = Some cu ->
  let t := mockDbHelpers.newTicket ticketData uid (nextTicketId s)
             (clock env (ticks s)) (clock env (S (ticks s))) in
  exists s',
    useTickets.createTicket ticketData s = (Ok t, s')
    /\ currentMockTickets s' = t :: currentMockTickets s
    /\ tickets s' = t :: tickets s
    /\ nextTicketId s' = S (nextTicketId s)
    /\ supabaseAvailable s' = supabaseAvailable s
    /\ liveCalls s' = (if isConfigured env then S (liveCalls s) else liveCalls s).
Proof.
  intros Hu Hd Hf t.
  destruct (persist_create_down uid ticketData s Hd) as (s2 & E & Hs2).
  assert (E2 : exists s3,
             useTickets.persist_create uid ticketData s = (Ok t, s3)
             /\ currentMockTickets s3 = t :: currentMockTickets s
             /\ tickets s3 = tickets s
             /\ nextTicketId s3 = S (nextTicketId s)
             /\ supabaseAvailable s3 = supabaseAvailable s
             /\ liveCalls s3
                = (if isConfigured env then S (liveCalls s) else liveCalls s)).
  { rewrite E, (mock_create_ok ticketData uid cu s2 Hf).
    destruct Hs2 as [[-> ->] | [-> ->]]; eexists;
      (split; [reflexivity|]); cbn; auto 6. }
  destruct E2 as (s3 & E3 & H1 & H2 & H3 & H4 & H5).
  destruct (create_after_persist uid ticketData s s3 t Hu E3) as (nl & -> & _).
  eexists. split; [reflexivity|]. cbn. rewrite H1, H2, H3, H4, H5. auto 6.
Qed.

Lemma create_requests (uid : string) (ticketData : TicketData) (s : State) :
  user env = Some uid ->
  requests (snd (useTickets.createTicket ticketData s))
  = if isConfigured env
    then (requests s ++ [InsertTicket ticketData uid])%list
    else requests s.
Proof.
  intros Hu.
  assert (Hmock : forall x, requests (snd (mockDbHelpers.createTicket ticketData uid x))
                            = requests x).
  { intros x. unfold mockDbHelpers.createTicket.
    destruct (find _ (mockUsers env)); reflexivity. }
  assert (Hp : requests (snd (useTickets.persist_create uid ticketData s))
               = if isConfigured env
                 then (requests s ++ [InsertTicket ticketData uid])%list
                 else requests s).
  { unfold useTickets.persist_create, try_catch, bind.
    destruct (isConfigured env) eqn:Hc.
    - destruct (liveFails env (liveCalls s)) eqn:Hl.
      + rewrite live_call_fail by assumption. rewrite Hmock. reflexivity.
      + rewrite live_call_ok by assumption.
        set (db' := snd (serve (InsertTicket ticketData uid) (liveDb s))).
        destruct (fst (serve (InsertTicket ticketData uid) (liveDb s)))
          as [[|t [|t2 r]]|l]; unfold single, ret, throw; cbv beta iota;
          rewrite ?Hmock; reflexivity.
    - rewrite live_call_null by assumption. rewrite Hmock. reflexivity. }
  destruct (useTickets.persist_create uid ticketData s) as [[t|e] s1] eqn:E.
  - destruct (create_after_persist uid ticketData s s1 t Hu E) as (nl & -> & _).
    exact Hp.
  - unfold useTickets.createTicket. rewrite Hu.
    unfold try_catch at 1. unfold bind at 1. rewrite E.
    unfold bind, useTickets.toast, modify, throw. exact Hp.
Qed.

End Creating.

Section CreateClaims.

Context {env : Env}.

(** C5, as the code has it.  Create checks that somebody is signed in and
    nothing else.  Without a user it throws "User not authenticated" and the
    state is untouched.  With a user it validates no field: served by the
    mock provider (which knows the user) it succeeds for every draft, also
    one whose title, description or location is empty, and stores these
    fields as given. *)
Theorem C5_create_checks_authentication_only (ticketData : TicketData)
    (s : State) :
  (user env = None ->
   useTickets.createTicket ticketData s = (Throw UserNotAuthenticated, s))
  /\ (forall uid cu,
        user env = Some uid ->
        live_down s ->
        find (fun u => profile_id u =? uid) (mockUsers env) = Some cu ->
        exists t s',
          useTickets.createTicket ticketData s = (Ok t, s')
          /\ title t = td_title ticketData
          /\ description t = td_description ticketData
          /\ location t = td_location ticketData
          /\ currentMockTickets s' = t :: currentMockTickets s).
Proof.
  split.
  - intros Hu. unfold useTickets.createTicket. rewrite Hu. reflexivity.
  - intros uid cu Hu Hd Hf.
    destruct (create_on_mock uid cu ticketData s Hu Hd Hf) as (s' & E & Hm & _).
    eexists _, s'. split; [exact E|]. cbn. auto.
Qed.

(** C6, as the code has it.  A create writes no activity.  The only request
    it sends to a configured live backend is the insert into the tickets
    table; and the mock provider keeps no activity log at all: its
    [getTicketActivities] fabricates the same three entries (a [created] one
    by user 1, an [assigned] one, a [comment]) for whatever ticket id and in
    whatever state, so that the log read for a ticket holds one [created]
    entry before the create as well as after it. *)
Theorem C6_create_writes_no_activity (uid : string) (ticketData : TicketData)
    (s : State) :
  user env = Some uid ->
  requests (snd (useTickets.createTicket ticketData s))
  = (if isConfigured env
     then (requests s ++ [InsertTicket ticketData uid])%list
     else requests s)
  /\ (forall tid x, exists l x',
        mockDbHelpers.getTicketActivities tid x = (Ok l, x')
        /\ map act_type l = [created; act_assigned; comment]
        /\ map user_id l = ["1"; "2"; "3"]
        /\ map ticket_id l = [tid; tid; tid]
        /\ count_created tid l = 1)
  /\ (isConfigured env = false ->
      forall tid x, exists l x',
        useTickets.getTicketActivities tid x = (Ok l, x')
        /\ count_created tid l = 1).
Proof.
  intros Hu. split; [apply create_requests; assumption|].
  assert (Hmock : forall tid x, exists l x',
             mockDbHelpers.getTicketActivities tid x = (Ok l, x')
             /\ map act_type l = [created; act_assigned; comment]
             /\ map user_id l = ["1"; "2"; "3"]
             /\ map ticket_id l = [tid; tid; tid]
             /\ count_created tid l = 1).
  { intros tid x. eexists _, _. split; [reflexivity|].
    repeat split. unfold count_created. cbn. rewrite String.eqb_refl.
    reflexivity. }
  split; [exact Hmock|].
  intros Hc tid x.
  destruct (Hmock tid x) as (l & x' & E & _ & _ & _ & Hcount).
  exists l, x'. split; [|exact Hcount].
  unfold useTickets.getTicketActivities, dbHelpers.getTicketActivities,
    try_catch, bind.
  rewrite live_call_null by assumption. rewrite E. reflexivity.
Qed.

Lemma notify_update_all_fail (uid : string) (updates : TicketPatch) (t : Ticket)
    (s : State) :
  (forall c, notifyFails env c = true) ->
  useTickets.notify_update uid updates t s = (Ok tt, s).
Proof.
  intros Hall.
  unfold useTickets.notify_update, useTickets.notify, try_catch, bind, when,
    ret, throw.
  destruct (useTickets.status_is updates resolved).
  - rewrite Hall. reflexivity.
  - destruct (upd_assigned_to updates) as [| | |a]; try reflexivity.
    destruct (truthy a && negb (a =? created_by t)); [|reflexivity].
    rewrite Hall. reflexivity.
Qed.

(** C7.  Once the persistence step of a create or of an update has
    succeeded, the operation returns the persisted ticket, whatever the
    notification system does: no notification failure reaches the caller,
    the success toast is shown, and the state is the one the persistence
    step left, plus the hook's own list and the toast; only the log of
    delivered notifications depends on the notification system, and it is
    unchanged when the notifications fail. *)
Theorem C7_notification_failure_is_swallowed (uid : string) (s : State) :
  user env = Some uid ->
  (forall ticketData t s1,
     useTickets.persist_create uid ticketData s = (Ok t, s1) ->
     exists nl,
       useTickets.createTicket ticketData s
       = (Ok t, set_toasts (ToastTicketCreated :: toasts s1)
                  (set_notified nl (set_tickets (t :: tickets s1) s1)))
       /\ (notifyFails env (notifyTicketCreated t) = true -> nl = notified s1))
  /\ (forall ticketId updates dbu s0 t s1,
        useTickets.build_dbUpdates uid updates s = (Ok dbu, s0) ->
        useTickets.persist_update ticketId updates dbu s0 = (Ok t, s1) ->
        exists nl,
          useTickets.updateTicket ticketId updates s
          = (Ok t, set_toasts (ToastTicketUpdated :: toasts s1)
                     (set_notified nl
                        (set_tickets
                           (map (fun x => if id x =? ticketId then t else x)
                                (tickets s1)) s1)))
          /\ ((forall c, notifyFails env c = true) -> nl = notified s1)).
Proof.
  intros Hu. split.
  - intros ticketData t s1 E.
    exact (create_after_persist uid ticketData s s1 t Hu E).
  - intros ticketId updates dbu s0 t s1 B P.
    unfold useTickets.updateTicket. rewrite Hu.
    unfold try_catch at 1. unfold bind at 1. rewrite B.
    unfold bind at 1. rewrite P. rewrite transformTicket_id.
    unfold bind at 1. unfold modify at 1. unfold bind at 1.
    match goal with
    | |- context [useTickets.notify_update uid updates t ?st] =>
        pose proof (notify_update_all_fail uid updates t st) as Hall;
        destruct (notify_update_frame uid updates t st) as (nl & Hn)
    end.
    rewrite Hn. exists nl. split.
    + unfold bind, useTickets.toast, modify, ret. reflexivity.
    + intros Hf. rewrite (Hall Hf) in Hn. inversion Hn. congruence.
Qed.

(** C8, as the code has it.  When the mock provider serves the create (and
    knows the actor), the new ticket has status open, the actor as
    [created_by], and as [created_at] and [updated_at] the two consecutive
    clock readings that the create takes; and when the listing that follows
    is not answered by the live backend either (the flag is down, Supabase
    is not configured, or the next live call fails too), the hook's list for
    the same actor includes the new ticket. *)
Theorem C8_round_trip_on_mock (uid : string) (cu p : UserProfile)
    (ticketData : TicketData) (s : State) :
  user env = Some uid ->
  profile env = Some p ->
  find (fun u => profile_id u =? uid) (mockUsers env) = Some cu ->
  live_down s ->
  supabaseAvailable s && isConfigured env
    && negb (liveFails env (S (liveCalls s))) = false ->
  exists t s1,
    useTickets.createTicket ticketData s = (Ok t, s1)
    /\ status t = open
    /\ created_by t = uid
    /\ created_at t = clock env (ticks s)
    /\ updated_at t = clock env (S (ticks s))
    /\ In t (tickets (snd (useTickets.loadTickets s1))).
Proof.
  intros Hu Hp Hf Hd Hnext.
  destruct (create_on_mock uid cu ticketData s Hu Hd Hf)
    as (s1 & E & Hm & _ & _ & Ha & Hc).
  eexists _, s1. split; [exact E|]. cbn. repeat split.
  assert (Hl : live_answers s1 = false).
  { unfold live_answers. rewrite Ha, Hc.
    destruct (isConfigured env); [exact Hnext|].
    destruct (supabaseAvailable s); reflexivity. }
  eapply Permutation_in;
    [apply Permutation_sym, (load_perm uid p s1 Hu Hp)|].
  unfold answering_store. rewrite Hl, Hm. unfold scoped.
  destruct (filter_applies (Some uid) (Some (role p))).
  - apply filter_In. split; [left; reflexivity|].
    apply created_or_assigned_true. left. reflexivity.
  - left. reflexivity.
Qed.

End CreateClaims.

(** The admin creates a ticket without a title in demo mode. *)
Lemma C5_witness :
  exists t s',
    useTickets.createTicket (env := Fixtures.adminDemo) Fixtures.untitled
      (Fixtures.initial false Fixtures.emptyDb) = (Ok t, s')
    /\ title t = ""
    /\ description t = "Unit does not cool"
    /\ location t = "Building A"
    /\ currentMockTickets s' = t :: Fixtures.mockTickets.
Proof.
  refine (proj2 (C5_create_checks_authentication_only (env := Fixtures.adminDemo)
                   Fixtures.untitled (Fixtures.initial false Fixtures.emptyDb))
            "1" Fixtures.adminUser eq_refl _ eq_refl).
  left. reflexivity.
Defined.

Lemma C5_counterexample :
  ~ create_validates_as_stated (env := Fixtures.adminDemo) Fixtures.untitled
      (Fixtures.initial false Fixtures.emptyDb).
Proof.
  intros [H _].
  destruct (H (or_introl eq_refl)) as [[e He] _].
  vm_compute in He. discriminate He.
Qed.

(** In demo mode a create sends nothing. *)
Lemma C6_witness :
  requests (snd (useTickets.createTicket (env := Fixtures.adminDemo)
                   Fixtures.acRepair (Fixtures.initial false Fixtures.emptyDb)))
  = [].
Proof.
  exact (proj1 (C6_create_writes_no_activity (env := Fixtures.adminDemo)
                  "1" Fixtures.acRepair
                  (Fixtures.initial false Fixtures.emptyDb) eq_refl)).
Defined.

(** The log read for ticket 4 holds one [created] entry before ticket 4
    exists, and one after its creation. *)
Lemma C6_counterexample :
  ~ create_logs_activity_as_stated (env := Fixtures.adminDemo) Fixtures.acRepair
      (Fixtures.initial false Fixtures.emptyDb).
Proof.
  intros H.
  assert (E : exists t s1 before after,
             useTickets.createTicket (env := Fixtures.adminDemo) Fixtures.acRepair
               (Fixtures.initial false Fixtures.emptyDb) = (Ok t, s1)
             /\ fst (useTickets.getTicketActivities (env := Fixtures.adminDemo)
                       (id t) (Fixtures.initial false Fixtures.emptyDb))
                = Ok before
             /\ fst (useTickets.getTicketActivities (env := Fixtures.adminDemo)
                       (id t) s1) = Ok after
             /\ count_created (id t) before = 1
             /\ count_created (id t) after = 1).
  { eexists _, _, _, _. split; [reflexivity|].
    split; [reflexivity|]. split; [reflexivity|]. split; reflexivity. }
  destruct E as (t & s1 & before & after & E & Hb & Ha & Cb & Ca).
  specialize (H t s1 before after E Hb Ha).
  rewrite Cb, Ca in H. discriminate H.
Qed.

(** Every notification call throws; the create still returns the ticket
    that the mock provider has stored. *)
Lemma C7_witness :
  exists t s',
    useTickets.createTicket (env := Fixtures.notificationsDown) Fixtures.acRepair
      (Fixtures.initial false Fixtures.emptyDb) = (Ok t, s')
    /\ currentMockTickets s' = t :: Fixtures.mockTickets
    /\ toasts s' = [ToastTicketCreated]
    /\ notified s' = [].
Proof.
  destruct (proj1 (C7_notification_failure_is_swallowed
                     (env := Fixtures.notificationsDown) "1"
                     (Fixtures.initial false Fixtures.emptyDb) eq_refl)
              Fixtures.acRepair _ _ eq_refl) as (nl & E & Hnl).
  eexists _, _. split; [exact E|].
  split; [reflexivity|]. split; [reflexivity|].
  exact (Hnl eq_refl).
Defined.

(** Demo mode: the engineer creates a ticket and lists. *)
Lemma C8_witness :
  exists t s1,
    useTickets.createTicket (env := Fixtures.engineerDemo) Fixtures.acRepair
      (Fixtures.initial false Fixtures.emptyDb) = (Ok t, s1)
    /\ status t = open
    /\ created_by t = "3"
    /\ created_at t = 1705400000000%Z
    /\ updated_at t = 1705400000001%Z
    /\ In t (tickets (snd (useTickets.loadTickets (env := Fixtures.engineerDemo) s1))).
Proof.
  refine (C8_round_trip_on_mock (env := Fixtures.engineerDemo)
            "3" Fixtures.engineerUser Fixtures.engineerUser Fixtures.acRepair
            (Fixtures.initial false Fixtures.emptyDb)
            eq_refl eq_refl eq_refl _ eq_refl).
  left. reflexivity.
Defined.

(** A transient failure: the create is served by the mock provider, the
    listing that follows by the live backend, which has never seen the new
    ticket. *)
Lemma C8_counterexample :
  ~ round_trip_as_stated (env := Fixtures.engineerTransient) Fixtures.acRepair
      (Fixtures.initial true Fixtures.emptyDb).
Proof.
  intros H.
  assert (E : exists t s1,
             useTickets.createTicket (env := Fixtures.engineerTransient)
               Fixtures.acRepair (Fixtures.initial true Fixtures.emptyDb)
             = (Ok t, s1)
             /\ tickets (snd (useTickets.loadTickets
                                (env := Fixtures.engineerTransient) s1)) = []).
  { eexists _, _. split; reflexivity. }
  destruct E as (t & s1 & E & Hl).
  destruct (H "3" t s1 eq_refl E) as [Hin _].
  rewrite Hl in Hin. destruct Hin.
Qed.

(* ================================================================== *)
(** * The sessions of the fixtures, run                               *)
(* ================================================================== *)

(** the first ticket that the mock provider creates is number 4 *)
Example demo_create_id :
  option_map id
    (match useTickets.createTicket (env := Fixtures.adminDemo) Fixtures.acRepair
             (Fixtures.initial false Fixtures.emptyDb) with
     | (Ok t, _) => Some t
     | (Throw _, _) => None
     end) = Some "4".
Proof. reflexivity. Qed.

(** every fixture ticket is assigned to the engineer, who sees all three;
    a user who created and was assigned nothing sees none *)
Example demo_engineer_sees_all :
  fst (mockDbHelpers.getTicketsWithRelations (Some "3") (Some "field_engineer")
         (Fixtures.initial false Fixtures.emptyDb))
  = Ok Fixtures.mockTickets.
Proof. reflexivity. Qed.

Example demo_stranger_sees_none :
  fst (mockDbHelpers.getTicketsWithRelations (Some "9") (Some "field_engineer")
         (Fixtures.initial false Fixtures.emptyDb))
  = Ok [].
Proof. reflexivity. Qed.

(** the empty string is falsy: it is treated as no userId at all *)
Example empty_userId_is_no_userId :
  fst (mockDbHelpers.getTicketsWithRelations (Some "") (Some "field_engineer")
         (Fixtures.initial false Fixtures.emptyDb))
  = Ok Fixtures.mockTickets.
Proof. reflexivity. Qed.

(** a transient failure met by a listing: the first listing trips the flag;
    the second one makes no live call although that call would succeed *)
Example transient_listing_trips :
  let s1 := snd (dbHelpers.getTicketsWithRelations (env := Fixtures.engineerTransient)
                   (Some "3") (Some "field_engineer")
                   (Fixtures.initial true Fixtures.emptyDb)) in
  let s2 := snd (dbHelpers.getTicketsWithRelations (env := Fixtures.engineerTransient)
                   (Some "3") (Some "field_engineer") s1) in
  (supabaseAvailable s1, liveCalls s1, liveCalls s2,
   liveFails Fixtures.engineerTransient (liveCalls s1))
  = (false, 1, 1, false).
Proof. reflexivity. Qed.

(** the same failure met by the hook's create: the flag stays up and the
    listing that follows is a second live call *)
Example transient_create_does_not_trip :
  let s1 := snd (useTickets.createTicket (env := Fixtures.engineerTransient)
                   Fixtures.acRepair (Fixtures.initial true Fixtures.emptyDb)) in
  let s2 := snd (dbHelpers.getTicketsWithRelations (env := Fixtures.engineerTransient)
                   (Some "3") (Some "field_engineer") s1) in
  (supabaseAvailable s1, liveCalls s1, liveCalls s2) = (true, 1, 2).
Proof. reflexivity. Qed.

(** from a tripped flag two listings are two mock listings *)
Example tripped_sequence :
  let ops := [listingOp (env := Fixtures.engineerTransient)
                (Some "3") (Some "field_engineer");
              listingOp (env := Fixtures.engineerTransient) None (Some "admin")] in
  run_ops (env := Fixtures.engineerTransient) ops
    (Fixtures.initial false Fixtures.emptyDb)
  = run_mocks ops (Fixtures.initial false Fixtures.emptyDb).
Proof.
  intros ops.
  apply (run_ops_down (env := Fixtures.engineerTransient)); try reflexivity.
  repeat constructor; apply listing_keeps_flag_down.
Qed.

(** the wrapped listing does read the flag: with the flag down it makes no
    live call, with the flag up it makes one *)
Example wrapped_listing_reads_the_flag :
  ~ flag_blind (dbHelpers.getTicketsWithRelations
                  (env := Fixtures.engineerTransient)
                  (Some "3") (Some "field_engineer")).
Proof.
  intros H.
  specialize (H false (Fixtures.initial true Fixtures.emptyDb)).
  apply (f_equal (fun p => liveCalls (snd p))) in H.
  vm_compute in H. discriminate H.
Qed.

(** the mock provider's own assign writes [assigned_at: null] on unassign *)
Example mock_unassign_clears_assigned_at :
  option_map assigned_at
    (match mockDbHelpers.assignTicket (env := Fixtures.adminDemo) "2" None
             (Fixtures.initial false Fixtures.emptyDb) with
     | (Ok t, _) => Some t
     | (Throw _, _) => None
     end) = Some None.
Proof. reflexivity. Qed.

(** in demo mode an update that asks for [resolved] leaves [resolved_at]
    unset: the stamp is put on [dbUpdates], the mock provider is handed
    [updates] *)
Example demo_resolve_is_not_stamped :
  option_map (fun t => (status t, resolved_at t))
    (match useTickets.updateTicket (env := Fixtures.engineerDemo) "2"
             (statusUpdate resolved) (Fixtures.initial false Fixtures.emptyDb) with
     | (Ok t, _) => Some t
     | (Throw _, _) => None
     end) = Some (resolved, None).
Proof. reflexivity. Qed.

(** nobody is signed in: create and update throw before touching anything *)
Example signed_out_create :
  useTickets.createTicket (env := Fixtures.signedOut) Fixtures.acRepair
    (Fixtures.initial false Fixtures.emptyDb)
  = (Throw UserNotAuthenticated, Fixtures.initial false Fixtures.emptyDb).
Proof. reflexivity. Qed.

Example signed_out_update :
  useTickets.updateTicket (env := Fixtures.signedOut) "1" (statusUpdate closed)
    (Fixtures.initial false Fixtures.emptyDb)
  = (Throw UserNotAuthenticated, Fixtures.initial false Fixtures.emptyDb).
Proof. reflexivity. Qed.

(* ================================================================== *)
(** * The mock store: deleting, numbering, locality of updates        *)
(* ================================================================== *)

Lemma string_of_nat_inj (n m : nat) : string_of_nat n = string_of_nat m -> n = m.
Proof.
  unfold string_of_nat. intros H.
  apply (f_equal NilEmpty.uint_of_string) in H.
  rewrite !NilEmpty.usu in H. inversion H as [H1].
  apply (f_equal Nat.of_uint) in H1.
  rewrite !Unsigned.of_to in H1. exact H1.
Qed.

Lemma filter_same_length {A} (p : A -> bool) (l : list A) :
  length (filter p l) = length l <-> forall x, In x l -> p x = true.
Proof.
  split.
  - intros H. apply forallb_forall. apply filter_length_forallb. exact H.
  - intros H. rewrite forallb_filter_id; [reflexivity|].
    apply forallb_forall. exact H.
Qed.

Lemma find_none_filter (ticketId : string) (l : list Ticket) :
  find (fun t => id t =? ticketId) l = None <->
  forall x, In x l -> negb (id x =? ticketId) = true.
Proof.
  split.
  - intros H x Hx. rewrite (find_none _ _ H x Hx). reflexivity.
  - intros H. destruct (find _ l) as [t|] eqn:E; [|reflexivity].
    apply find_some in E. destruct E as [Hin Hid].
    specialize (H t Hin). rewrite Hid in H. discriminate.
Qed.

Lemma find_filter_other (ticketId other : string) (l : list Ticket) :
  other <> ticketId ->
  find (fun t => id t =? other) (filter (fun t => negb (id t =? ticketId)) l)
  = find (fun t => id t =? other) l.
Proof.
  intros Hne. induction l as [|x r IH]; [reflexivity|].
  cbn [filter find].
  destruct (id x =? ticketId) eqn:E1; cbn [negb].
  - apply String.eqb_eq in E1.
    destruct (id x =? other) eqn:E2.
    + apply String.eqb_eq in E2. congruence.
    + exact IH.
  - cbn [find]. destruct (id x =? other); [reflexivity | exact IH].
Qed.

Section MockStore.

Context {env : Env}.

(** X1.  [mockDbHelpers.deleteTicket] removes the tickets that carry the id
    and nothing else.  When no stored ticket has the id it throws "Ticket
    not found" and leaves the state as it was; otherwise it succeeds, no
    ticket with the id is left, every other ticket is kept (in order), and
    the id counter is not taken back. *)
Theorem mock_delete_removes_by_id (ticketId : string) (s : State) :
  let r := mockDbHelpers.deleteTicket ticketId s in
  (stored ticketId s = None ->
   fst r = Throw TicketNotFound /\ snd r = s)
  /\ (stored ticketId s <> None ->
      fst r = Ok tt
      /\ currentMockTickets (snd r)
         = filter (fun t => negb (id t =? ticketId)) (currentMockTickets s)
      /\ stored ticketId (snd r) = None
      /\ (forall other, other <> ticketId ->
            stored other (snd r) = stored other s)
      /\ nextTicketId (snd r) = nextTicketId s).
Proof.
  unfold mockDbHelpers.deleteTicket, stored, bind, get, modify, throw, ret.
  cbn zeta. split.
  - intros Hn.
    pose proof (proj1 (find_none_filter ticketId _) Hn) as Hall.
    pose proof (proj2 (filter_same_length _ _) Hall) as Hlen.
    rewrite Hlen, Nat.eqb_refl. cbn [fst snd]. split; [reflexivity|].
    rewrite forallb_filter_id by (apply forallb_forall; exact Hall).
    destruct s; reflexivity.
  - intros Hs.
    destruct (Nat.eqb _ _) eqn:El.
    + exfalso. apply Hs. apply Nat.eqb_eq in El.
      apply find_none_filter. apply filter_same_length. exact El.
    + cbn [fst snd]. split; [reflexivity|]. cbn. split; [reflexivity|].
      split.
      * apply find_none_filter. intros x Hx.
        apply filter_In in Hx. apply Hx.
      * split; [|reflexivity]. intros other Hne.
        apply find_filter_other. exact Hne.
Qed.

Lemma map_id_array_set (l : list Ticket) (i : nat) (cur x : Ticket) :
  nth_error l i = Some cur -> id x = id cur ->
  map id (array_set i x l) = map id l.
Proof.
  revert i. induction l as [|y r IH]; intros [|i] Hn Hid; cbn in *;
    try discriminate.
  - inversion Hn; subst. rewrite Hid. reflexivity.
  - rewrite (IH i Hn Hid). reflexivity.
Qed.

Lemma ids_below_mono (n m : nat) (l : list Ticket) :
  n <= m -> ids_below n l -> ids_below m l.
Proof.
  intros Hle H. unfold ids_below in *. rewrite Forall_forall in *.
  intros t Ht. destruct (H t Ht) as (k & Hk & E). exists k. split; [lia|exact E].
Qed.

Lemma ids_below_by_ids (n : nat) (l l' : list Ticket) :
  (forall x, In x (map id l') -> In x (map id l)) ->
  ids_below n l -> ids_below n l'.
Proof.
  intros Hsub H. unfold ids_below in *. rewrite Forall_forall in *.
  intros t Ht.
  assert (Hin : In (id t) (map id l)) by (apply Hsub, in_map, Ht).
  apply in_map_iff in Hin. destruct Hin as (t0 & E0 & Ht0).
  destruct (H t0 Ht0) as (k & Hk & E). exists k. split; [exact Hk | congruence].
Qed.

Lemma ids_below_fresh (n : nat) (l : list Ticket) :
  ids_below n l -> ~ In (string_of_nat n) (map id l).
Proof.
  intros H Hin. apply in_map_iff in Hin. destruct Hin as (t & E & Ht).
  unfold ids_below in H. rewrite Forall_forall in H.
  destruct (H t Ht) as (k & Hk & Ek). rewrite Ek in E.
  apply string_of_nat_inj in E. lia.
Qed.

Lemma distinct_ids_filter (keep : Ticket -> bool) (store : list Ticket) :
  NoDup (map id store) -> NoDup (map id (filter keep store)).
Proof.
  induction store as [|x r IH]; cbn; intros H; [constructor|].
  inversion H as [|? ? Hnin Hnd]; subst.
  destruct (keep x); cbn; [|auto].
  constructor; [|auto]. intros Hin. apply Hnin.
  apply in_map_iff in Hin. destruct Hin as (y & E & Hy).
  apply filter_In in Hy. apply in_map_iff. exists y. tauto.
Qed.

Lemma mock_update_well_numbered (ticketId : string) (updates : TicketPatch)
    (s : State) :
  upd_id updates = None ->
  well_numbered s ->
  well_numbered (snd (mockDbHelpers.updateTicket ticketId updates s)).
Proof.
  intros Hid [Hnd Hb].
  destruct (findIndex (fun t => id t =? ticketId) (currentMockTickets s))
    as [i|] eqn:Hi.
  - destruct (findIndex_nth_error _ _ _ Hi) as (cur & Hn & _).
    rewrite (mock_update_found ticketId updates s i cur Hi Hn). cbn [snd].
    assert (E : map id (array_set i
                          (mockDbHelpers.attach_assigned_profile updates
                             (apply_updates cur updates (clock env (ticks s))))
                          (currentMockTickets s))
                = map id (currentMockTickets s)).
    { apply (map_id_array_set _ _ cur); [exact Hn|].
      destruct (attach_fields updates
                  (apply_updates cur updates (clock env (ticks s)))) as (-> & _).
      cbn. rewrite Hid. reflexivity. }
    split; cbn.
    + rewrite E. exact Hnd.
    + eapply ids_below_by_ids; [|exact Hb]. rewrite E. auto.
  - rewrite (mock_update_missing ticketId updates s Hi). split; assumption.
Qed.

(** X2.  The mock store stays well numbered: if its ids are pairwise
    distinct and all below the counter, they still are after a create, after
    an update or an assign (of a patch that does not overwrite the id), and
    after a delete, whether the operation succeeds or throws.  A create
    hands out an id that no stored ticket had, and the new ticket is the one
    found under that id afterwards. *)
Theorem mock_store_stays_well_numbered (s : State) :
  well_numbered s ->
  (forall ticketData uid,
     well_numbered (snd (mockDbHelpers.createTicket ticketData uid s)))
  /\ (forall ticketId updates,
        upd_id updates = None ->
        well_numbered (snd (mockDbHelpers.updateTicket ticketId updates s)))
  /\ (forall ticketId assignedTo,
        well_numbered (snd (mockDbHelpers.assignTicket ticketId assignedTo s)))
  /\ (forall ticketId,
        well_numbered (snd (mockDbHelpers.deleteTicket ticketId s)))
  /\ (forall ticketData uid t s',
        mockDbHelpers.createTicket ticketData uid s = (Ok t, s') ->
        stored (id t) s = None /\ stored (id t) s' = Some t).
Proof.
  intros Hw. pose proof Hw as [Hnd Hb]. repeat split.
  - destruct (find (fun u => profile_id u =? uid) (mockUsers env)) as [cu|] eqn:Hf.
    + rewrite (mock_create_ok ticketData uid cu s Hf). cbn.
      constructor; [apply ids_below_fresh; exact Hb | exact Hnd].
    + rewrite (mock_create_unknown ticketData uid s Hf). exact Hnd.
  - destruct (find (fun u => profile_id u =? uid) (mockUsers env)) as [cu|] eqn:Hf.
    + rewrite (mock_create_ok ticketData uid cu s Hf). cbn.
      constructor.
      * exists (nextTicketId s). split; [lia | reflexivity].
      * apply (ids_below_mono (nextTicketId s)); [lia | exact Hb].
    + rewrite (mock_create_unknown ticketData uid s Hf). exact Hb.
  - apply mock_update_well_numbered; [exact H | exact Hw].
  - apply mock_update_well_numbered; [exact H | exact Hw].
  - unfold mockDbHelpers.assignTicket. unfold bind at 1.
    destruct (truthy_opt assignedTo).
    + unfold bind at 1, now at 1, ret at 1.
      apply mock_update_well_numbered; [reflexivity | exact Hw].
    + unfold ret at 1.
      apply mock_update_well_numbered; [reflexivity | exact Hw].
  - unfold mockDbHelpers.assignTicket. unfold bind at 1.
    destruct (truthy_opt assignedTo).
    + unfold bind at 1, now at 1, ret at 1.
      apply mock_update_well_numbered; [reflexivity | exact Hw].
    + unfold ret at 1.
      apply mock_update_well_numbered; [reflexivity | exact Hw].
  - unfold mockDbHelpers.deleteTicket, bind, get, modify, throw, ret. cbn zeta.
    destruct (Nat.eqb _ _); cbn; apply distinct_ids_filter; exact Hnd.
  - unfold mockDbHelpers.deleteTicket, bind, get, modify, throw, ret. cbn zeta.
    assert (Hf : ids_below (nextTicketId s)
                   (filter (fun t => negb (id t =? ticketId))
                           (currentMockTickets s))).
    { unfold ids_below in *. rewrite Forall_forall in *.
      intros t Ht. apply filter_In in Ht. apply Hb, Ht. }
    destruct (Nat.eqb _ _); cbn; exact Hf.
  - destruct (find (fun u => profile_id u =? uid) (mockUsers env)) as [cu|] eqn:Hf.
    + rewrite (mock_create_ok ticketData uid cu s Hf) in H.
      inversion H; subst. cbn. unfold stored.
      apply find_none_filter. intros x Hx.
      apply negb_true_iff, String.eqb_neq. intros E.
      apply (ids_below_fresh _ _ Hb). rewrite <- E. apply in_map, Hx.
    + rewrite (mock_create_unknown ticketData uid s Hf) in H. discriminate.
  - destruct (find (fun u => profile_id u =? uid) (mockUsers env)) as [cu|] eqn:Hf.
    + rewrite (mock_create_ok ticketData uid cu s Hf) in H.
      inversion H; subst. unfold stored. cbn. rewrite String.eqb_refl.
      reflexivity.
    + rewrite (mock_create_unknown ticketData uid s Hf) in H. discriminate.
Qed.

End MockStore.

(* ================================================================== *)
(** * The hook's update and create, in full                           *)
(* ================================================================== *)

Lemma set_notified_same (s : State) : set_notified (notified s) s = s.
Proof. destruct s; reflexivity. Qed.

Lemma array_set_length {A} (i : nat) (x : A) (l : list A) :
  length (array_set i x l) = length l.
Proof.
  revert i. induction l as [|y r IH]; intros [|i]; cbn; auto.
Qed.

Lemma array_set_other {A} (i j : nat) (x : A) (l : list A) :
  j <> i -> nth_error (array_set i x l) j = nth_error l j.
Proof.
  revert i j. induction l as [|y r IH]; intros [|i] [|j] H; cbn;
    try reflexivity; try contradiction.
  apply IH. lia.
Qed.

Lemma findIndex_first {A} (p : A -> bool) (l : list A) (i : nat) :
  findIndex p l = Some i ->
  forall j x, j < i -> nth_error l j = Some x -> p x = false.
Proof.
  revert i. induction l as [|y r IH]; cbn; intros i H j x Hj Hn; [discriminate|].
  destruct (p y) eqn:Hp.
  - inversion H; subst. lia.
  - destruct (findIndex p r) as [k|]; [|discriminate].
    inversion H; subst. destruct j as [|j]; cbn in Hn.
    + inversion Hn; subst. exact Hp.
    + apply (IH k eq_refl j x); [lia | exact Hn].
Qed.

Section HookInFull.

Context {env : Env}.

Lemma notify_update_exact (uid : string) (updates : TicketPatch) (t : Ticket)
    (s : State) :
  useTickets.notify_update uid updates t s
  = (Ok tt, set_notified
              (notified s ++ delivered (update_notifications uid updates t)) s).
Proof.
  assert (Hnil : (Ok tt, s)
                 = (Ok tt, set_notified (notified s ++ []) s))
    by (rewrite app_nil_r, set_notified_same; reflexivity).
  unfold useTickets.notify_update, update_notifications, useTickets.notify,
    try_catch, bind, when, ret, throw, modify.
  destruct (useTickets.status_is updates resolved); cbn [app delivered].
  - destruct (notifyFails env (notifyTicketResolved t uid)); [exact Hnil|].
    destruct (upd_assigned_to updates) as [| | |a]; cbn [delivered];
      try reflexivity.
    destruct (truthy a && negb (a =? created_by t)); cbn [delivered];
      [|reflexivity].
    destruct (notifyFails env (notifyTicketAssigned t a uid)).
    + reflexivity.
    + cbn. rewrite <- app_assoc. reflexivity.
  - destruct (upd_assigned_to updates) as [| | |a]; cbn [delivered];
      try exact Hnil.
    destruct (truthy a && negb (a =? created_by t)); cbn [delivered];
      [|exact Hnil].
    destruct (notifyFails env (notifyTicketAssigned t a uid));
      [exact Hnil | reflexivity].
Qed.

Lemma update_on_mock_full (uid ticketId : string) (updates : TicketPatch)
    (s : State) (i : nat) (t : Ticket) :
  user env = Some uid ->
  live_down s ->
  findIndex (fun t => id t =? ticketId) (currentMockTickets s) = Some i ->
  nth_error (currentMockTickets s) i = Some t ->
  exists k s',
    let t' := mockDbHelpers.attach_assigned_profile updates
                (apply_updates t updates (clock env k)) in
    ticks s <= k
    /\ useTickets.updateTicket ticketId updates s = (Ok t', s')
    /\ currentMockTickets s' = array_set i t' (currentMockTickets s)
    /\ tickets s' = map (fun x => if id x =? ticketId then t' else x) (tickets s)
    /\ notified s'
       = (notified s ++ delivered (update_notifications uid updates t'))%list
    /\ toasts s' = ToastTicketUpdated :: toasts s
    /\ nextTicketId s' = nextTicketId s
    /\ supabaseAvailable s' = supabaseAvailable s.
Proof.
  intros Hu Hd Hi Hn. unfold useTickets.updateTicket. rewrite Hu.
  unfold try_catch at 1. unfold bind at 1.
  destruct (build_dbUpdates_later uid updates s) as (dbu & s1 & -> & L1 & _).
  unfold bind at 1.
  destruct (persist_update_down ticketId updates dbu s1
              (live_down_later _ _ L1 Hd)) as (s2 & -> & Hs2).
  assert (Hm : currentMockTickets s2 = currentMockTickets s
               /\ ticks s2 = ticks s1 /\ toasts s2 = toasts s
               /\ tickets s2 = tickets s /\ notified s2 = notified s
               /\ nextTicketId s2 = nextTicketId s
               /\ supabaseAvailable s2 = supabaseAvailable s).
  { destruct L1 as [E1 _]. destruct Hs2 as [-> | ->]; rewrite E1; cbn;
      repeat split. }
  destruct Hm as (Hm & Ht & Hto & Htk & Hno & Hnx & Hfl).
  rewrite <- Hm in Hi, Hn.
  rewrite (mock_update_found ticketId updates s2 i t Hi Hn).
  rewrite transformTicket_id. unfold bind at 1. unfold modify at 1.
  unfold bind at 1. rewrite notify_update_exact.
  unfold bind, useTickets.toast, modify, ret.
  exists (ticks s2). eexists. cbn zeta.
  split; [destruct L1; lia|].
  split; [reflexivity|].
  cbn. rewrite Hm, Hto, Htk, Hno, Hnx, Hfl. repeat split.
Qed.

End HookInFull.

Section UpdateInFull.

Context {env : Env}.

(** X3.  [mockDbHelpers.updateTicket] is local: it rewrites the first stored
    ticket that carries the id and no other.  The store keeps its length,
    every other position keeps its ticket (also a later ticket with the same
    id), no earlier ticket has the id, the id counter is untouched, and the
    rewritten ticket has the clock reading of the call as [updated_at],
    whatever the patch says about [updated_at]. *)
Theorem mock_update_is_local (ticketId : string) (updates : TicketPatch)
    (s : State) (i : nat) (cur : Ticket) :
  findIndex (fun t => id t =? ticketId) (currentMockTickets s) = Some i ->
  nth_error (currentMockTickets s) i = Some cur ->
  exists t' s',
    mockDbHelpers.updateTicket ticketId updates s = (Ok t', s')
    /\ nth_error (currentMockTickets s') i = Some t'
    /\ (forall j, j <> i ->
          nth_error (currentMockTickets s') j = nth_error (currentMockTickets s) j)
    /\ (forall j x, j < i -> nth_error (currentMockTickets s) j = Some x ->
          id x <> ticketId)
    /\ length (currentMockTickets s') = length (currentMockTickets s)
    /\ nextTicketId s' = nextTicketId s
    /\ updated_at t' = clock env (ticks s).
Proof.
  intros Hi Hn. rewrite (mock_update_found ticketId updates s i cur Hi Hn).
  eexists _, _. split; [reflexivity|]. cbn [currentMockTickets set_currentMockTickets].
  split; [eapply array_set_nth_error, Hn|].
  split; [intros j Hj; apply array_set_other, Hj|].
  split.
  { intros j x Hj Hx E.
    pose proof (findIndex_first _ _ _ Hi j x Hj Hx) as Hp. cbn in Hp.
    apply String.eqb_neq in Hp. contradiction. }
  split; [apply array_set_length|].
  split; [reflexivity|].
  destruct (attach_fields updates (apply_updates cur updates (clock env (ticks s))))
    as (_ & _ & _ & _ & _ & _ & _ & _ & _ & -> & _).
  reflexivity.
Qed.

(** X4.  After an update served by the mock provider, the hook's own list
    is the old list with every ticket of that id replaced by the ticket
    returned: the list keeps its length and its other tickets, and a ticket
    that was not in the list is not added to it. *)
Theorem hook_update_syncs_list (uid ticketId : string) (updates : TicketPatch)
    (s : State) (i : nat) (t : Ticket) :
  user env = Some uid ->
  live_down s ->
  findIndex (fun t => id t =? ticketId) (currentMockTickets s) = Some i ->
  nth_error (currentMockTickets s) i = Some t ->
  exists t' s',
    useTickets.updateTicket ticketId updates s = (Ok t', s')
    /\ tickets s'
       = map (fun x => if id x =? ticketId then t' else x) (tickets s)
    /\ length (tickets s') = length (tickets s)
    /\ (forall x, In x (tickets s') -> x = t' \/ (In x (tickets s) /\ id x <> ticketId))
    /\ ((forall x, In x (tickets s) -> id x <> ticketId) ->
        tickets s' = tickets s).
Proof.
  intros Hu Hd Hi Hn.
  destruct (update_on_mock_full uid ticketId updates s i t Hu Hd Hi Hn)
    as (k & s' & _ & E & _ & Htk & _).
  eexists _, s'. split; [exact E|]. split; [exact Htk|].
  rewrite Htk. split; [apply length_map|]. split.
  - intros x Hx. apply in_map_iff in Hx. destruct Hx as (y & Ey & Hy).
    destruct (id y =? ticketId) eqn:Eid.
    + left. symmetry. exact Ey.
    + right. subst x. split; [exact Hy | apply String.eqb_neq, Eid].
  - intros Hnone. rewrite <- (map_id (tickets s)) at 2.
    apply map_ext_in. intros y Hy.
    specialize (Hnone y Hy). apply String.eqb_neq in Hnone.
    rewrite Hnone. reflexivity.
Qed.

(** X5.  Who is notified of an update.  After an update served by the mock
    provider the log of delivered notifications has grown by the calls of
    the notification block that completed: first "resolved" when the patch
    asks for status resolved, then "assigned" when the patch names a
    (non-empty) assignee other than the creator of the ticket; a call that
    throws suppresses the calls after it.  In particular an assign to a user
    [a] notifies [a] unless [a] created the ticket, whoever the acting user
    is, and an unassign notifies nobody. *)
Theorem hook_update_notifications (uid ticketId : string) (s : State)
    (i : nat) (t : Ticket) :
  user env = Some uid ->
  live_down s ->
  findIndex (fun t => id t =? ticketId) (currentMockTickets s) = Some i ->
  nth_error (currentMockTickets s) i = Some t ->
  (forall updates, exists t' s',
      useTickets.updateTicket ticketId updates s = (Ok t', s')
      /\ notified s'
         = (notified s ++ delivered (update_notifications uid updates t'))%list)
  /\ (forall a, a <> "" -> exists t' s',
      useTickets.assignTicket ticketId (Some a) s = (Ok t', s')
      /\ notified s'
         = (notified s
            ++ delivered (if a =? created_by t then []
                          else [notifyTicketAssigned t' a uid]))%list)
  /\ (exists t' s',
      useTickets.assignTicket ticketId None s = (Ok t', s')
      /\ notified s' = notified s).
Proof.
  intros Hu Hd Hi Hn. split; [|split].
  - intros updates.
    destruct (update_on_mock_full uid ticketId updates s i t Hu Hd Hi Hn)
      as (k & s' & _ & E & _ & _ & Hno & _).
    eexists _, s'. split; [exact E | exact Hno].
  - intros a Ha. apply truthy_true in Ha.
    unfold useTickets.assignTicket. cbn [truthy_opt]. rewrite Ha.
    unfold bind at 1. unfold bind at 1. unfold now at 1, ret at 1.
    assert (Hd' : live_down (set_ticks (S (ticks s)) s)) by exact Hd.
    match goal with
    | |- context [useTickets.updateTicket ticketId ?u ?st] =>
        destruct (update_on_mock_full uid ticketId u st i t Hu Hd' Hi Hn)
          as (k & s' & _ & E & _ & _ & Hno & _);
        destruct (attach_fields u (apply_updates t u (clock env k)))
          as (_ & _ & _ & _ & _ & _ & _ & Hcb & _)
    end.
    eexists _, s'. split; [exact E|]. rewrite Hno. cbn [notified set_ticks].
    unfold update_notifications, useTickets.status_is.
    cbn [upd_status upd_assigned_to Status_eqb app].
    rewrite Hcb. cbn [apply_updates created_by upd_created_by spread_req].
    rewrite Ha. cbn [andb].
    destruct (a =? created_by t); reflexivity.
  - unfold useTickets.assignTicket. cbn [truthy_opt]. unfold bind at 1, ret at 1.
    match goal with
    | |- context [useTickets.updateTicket ticketId ?u s] =>
        destruct (update_on_mock_full uid ticketId u s i t Hu Hd Hi Hn)
          as (k & s' & _ & E & _ & _ & Hno & _)
    end.
    eexists _, s'. split; [exact E|]. rewrite Hno.
    cbn. apply app_nil_r.
Qed.

End UpdateInFull.

Section HelpersOfTheHook.

Context {env : Env}.

Lemma is_overdue_true (n : Date) (x : Ticket) :
  useTickets.is_overdue n x = true <->
  exists d, due_date x = Some d /\ (d < n)%Z
            /\ mockDbHelpers.is_completed (status x) = false.
Proof.
  unfold useTickets.is_overdue. destruct (due_date x) as [d|].
  - rewrite andb_true_iff, Z.ltb_lt, negb_true_iff. split.
    + intros [H1 H2]. exists d. auto.
    + intros (d' & E & H1 & H2). inversion E; subst. auto.
  - split; [discriminate | intros (d & E & _); discriminate].
Qed.

(** X6.  The overdue list.  [getOverdueTickets] reads the clock once and
    returns, in the order of the hook's list, exactly the tickets that have
    a due date before that reading and a status other than resolved,
    verified and closed.  Once an update served by the mock provider has
    given a ticket one of these three statuses, no ticket with its id is in
    the overdue list any more, and the due date is as the patch left it
    (unchanged when the patch carries none). *)
Theorem overdue_until_completed (s : State) :
  (exists l,
     useTickets.getOverdueTickets s = (Ok l, set_ticks (S (ticks s)) s)
     /\ forall x, In x l <->
          In x (tickets s)
          /\ exists d, due_date x = Some d /\ (d < clock env (ticks s))%Z
                       /\ status x <> resolved /\ status x <> verified
                       /\ status x <> closed)
  /\ (forall uid ticketId updates st i t,
        user env = Some uid ->
        live_down s ->
        findIndex (fun t => id t =? ticketId) (currentMockTickets s) = Some i ->
        nth_error (currentMockTickets s) i = Some t ->
        upd_status updates = Some st ->
        mockDbHelpers.is_completed st = true ->
        exists t' s',
          useTickets.updateTicket ticketId updates s = (Ok t', s')
          /\ due_date t' = spread (due_date t) (upd_due_date updates)
          /\ forall l s'', useTickets.getOverdueTickets s' = (Ok l, s'') ->
               forall x, In x l -> id x <> ticketId).
Proof.
  split.
  - eexists. split; [reflexivity|]. intros x.
    rewrite filter_In, is_overdue_true. cbn [tickets set_ticks].
    split; intros [Hin (d & E & Hlt & Hc)]; (split; [exact Hin|]);
      exists d; (split; [exact E|]); (split; [exact Hlt|]).
    + destruct (status x); cbn in Hc; try discriminate;
        repeat split; discriminate.
    + destruct Hc as (H1 & H2 & H3).
      destruct (status x); cbn; congruence.
  - intros uid ticketId updates st i t Hu Hd Hi Hn Hs Hc.
    destruct (update_on_mock_full uid ticketId updates s i t Hu Hd Hi Hn)
      as (k & s' & _ & E & _ & Htk & _).
    destruct (attach_fields updates (apply_updates t updates (clock env k)))
      as (_ & Hst & _).
    eexists _, s'. split; [exact E|]. split.
    + unfold mockDbHelpers.attach_assigned_profile.
      destruct (upd_assigned_to updates) as [| | |a]; try reflexivity.
      destruct (truthy a); [|reflexivity].
      destruct (find _ (mockUsers env)); reflexivity.
    + intros l s'' El x Hx Eid.
      unfold useTickets.getOverdueTickets, bind, now, get, ret in El.
      inversion El; subst l. clear El.
      apply filter_In in Hx. destruct Hx as [Hin Hov].
      cbn [tickets set_ticks] in Hin. rewrite Htk in Hin.
      apply in_map_iff in Hin. destruct Hin as (y & Ey & _).
      destruct (id y =? ticketId) eqn:Ey2.
      * subst x. apply is_overdue_true in Hov.
        destruct Hov as (d & _ & _ & Hnc).
        rewrite Hst in Hnc. cbn in Hnc. rewrite Hs in Hnc. cbn in Hnc.
        congruence.
      * subst x. apply String.eqb_neq in Ey2. contradiction.
Qed.

(** X8.  The status helpers partition the hook's list: the six lists
    [getTicketsByStatus] of the six status names have, together, the length
    of the list, a ticket is in the list of its own status and in no other,
    and a string that is no status name selects nothing. *)
Theorem tickets_by_status_partition (s : State) :
  length (useTickets.getTicketsByStatus "open" s)
  + length (useTickets.getTicketsByStatus "assigned" s)
  + length (useTickets.getTicketsByStatus "in_progress" s)
  + length (useTickets.getTicketsByStatus "resolved" s)
  + length (useTickets.getTicketsByStatus "verified" s)
  + length (useTickets.getTicketsByStatus "closed" s)
  = length (tickets s)
  /\ (forall st x, In x (useTickets.getTicketsByStatus st s) <->
        In x (tickets s) /\ useTickets.status_name (status x) = st)
  /\ (forall st, (forall k, useTickets.status_name k <> st) ->
        useTickets.getTicketsByStatus st s = []).
Proof.
  unfold useTickets.getTicketsByStatus. split; [|split].
  - induction (tickets s) as [|x r IH]; [reflexivity|].
    cbn [filter]. destruct (status x); cbn [useTickets.status_name];
      cbn [String.eqb Ascii.eqb Bool.eqb length]; cbn; lia.
  - intros st x. rewrite filter_In, String.eqb_eq. reflexivity.
  - intros st Hno. induction (tickets s) as [|x r IH]; [reflexivity|].
    cbn [filter]. specialize (Hno (status x)).
    apply String.eqb_neq in Hno. rewrite Hno. exact IH.
Qed.

(** X9.  What a field engineer has loaded is theirs: after [loadTickets]
    for a signed in field engineer (with a proper id), every ticket of the
    hook's list is in [getMyTickets] or in [getAssignedTickets], and both are
    sublists of the list.  With nobody signed in both are empty. *)
Theorem engineer_list_is_mine_or_assigned (s : State) :
  (forall u p,
     user env = Some u -> profile env = Some p ->
     u <> "" -> role p = "field_engineer" ->
     let s' := snd (useTickets.loadTickets s) in
     forall x, In x (tickets s') ->
       In x (useTickets.getMyTickets s') \/ In x (useTickets.getAssignedTickets s'))
  /\ (forall x, In x (useTickets.getMyTickets s) -> In x (tickets s))
  /\ (forall x, In x (useTickets.getAssignedTickets s) -> In x (tickets s))
  /\ (user env = None ->
      useTickets.getMyTickets s = [] /\ useTickets.getAssignedTickets s = []).
Proof.
  unfold useTickets.getMyTickets, useTickets.getAssignedTickets.
  split; [|split; [|split]].
  - intros u p Hu Hp Hne Hr. cbv zeta.
    set (s' := snd (useTickets.loadTickets s)). intros x Hx. rewrite Hu.
    pose proof (load_perm u p s Hu Hp) as Hperm. fold s' in Hperm.
    rewrite Hr, scoped_filter in Hperm by exact Hne.
    apply (Permutation_in _ Hperm) in Hx as Hf.
    apply filter_In in Hf. destruct Hf as [_ Hf].
    unfold created_or_assigned in Hf. apply orb_true_iff in Hf.
    destruct Hf as [Hf|Hf]; [left | right]; apply filter_In; auto.
  - intros x. destruct (user env); [|intros []].
    intros Hx. apply filter_In in Hx. apply Hx.
  - intros x. destruct (user env); [|intros []].
    intros Hx. apply filter_In in Hx. apply Hx.
  - intros ->. split; reflexivity.
Qed.

End HelpersOfTheHook.

Section CreateInFull.

Context {env : Env}.

Lemma notify_create_exact (t : Ticket) (s : State) :
  useTickets.notify_create t s
  = (Ok tt, set_notified (notified s ++ delivered [notifyTicketCreated t]) s).
Proof.
  unfold useTickets.notify_create, useTickets.notify, try_catch, throw,
    modify, ret. cbn [delivered].
  destruct (notifyFails env (notifyTicketCreated t)); [|reflexivity].
  rewrite app_nil_r, set_notified_same. reflexivity.
Qed.

(** X7.  A create served by the mock provider, for a user it knows: the
    ticket gets the next number as its id, type "maintenance" and priority
    "medium" when the draft names none, and is put at the head of the hook's
    list, so that it shows at once among the user's own tickets, among the
    unassigned tickets and among the open ones; the supervisors are notified
    by one call, whose failure leaves the log as it was. *)
Theorem hook_create_in_full (uid : string) (cu : UserProfile)
    (ticketData : TicketData) (s : State) :
  user env = Some uid ->
  live_down s ->
  find (fun u => profile_id u =? uid) (mockUsers env) = Some cu ->
  exists t s',
    useTickets.createTicket ticketData s = (Ok t, s')
    /\ id t = string_of_nat (nextTicketId s)
    /\ (td_type ticketData = None -> type t = "maintenance")
    /\ (td_priority ticketData = None -> priority t = "medium")
    /\ tickets s' = t :: tickets s
    /\ In t (useTickets.getMyTickets s')
    /\ In t (useTickets.getUnassignedTickets s')
    /\ In t (useTickets.getTicketsByStatus "open" s')
    /\ In t (useTickets.getTicketsByPriority (priority t) s')
    /\ notified s' = (notified s ++ delivered [notifyTicketCreated t])%list.
Proof.
  intros Hu Hd Hf.
  destruct (persist_create_down uid ticketData s Hd) as (s2 & E & Hs2).
  rewrite (mock_create_ok ticketData uid cu s2 Hf) in E.
  assert (Hm : nextTicketId s2 = nextTicketId s /\ ticks s2 = ticks s
               /\ tickets s2 = tickets s /\ notified s2 = notified s).
  { destruct Hs2 as [[_ ->] | [_ ->]]; cbn; auto. }
  destruct Hm as (Hnx & Htk & Hti & Hno).
  unfold useTickets.createTicket. rewrite Hu.
  unfold try_catch at 1. unfold bind at 1. rewrite E.
  unfold bind at 1. unfold modify at 1. unfold bind at 1.
  rewrite notify_create_exact.
  unfold bind, useTickets.toast, modify, ret.
  eexists _, _. split; [reflexivity|].
  unfold useTickets.getMyTickets, useTickets.getUnassignedTickets,
    useTickets.getTicketsByStatus, useTickets.getTicketsByPriority.
  rewrite Hu. cbn. rewrite Hnx, Hti, Hno, !String.eqb_refl.
  split; [reflexivity|].
  split; [intros ->; reflexivity|].
  split; [intros ->; reflexivity|].
  split; [reflexivity|].
  split; [left; reflexivity|].
  split; [left; reflexivity|].
  split; [left; reflexivity|].
  split; [left; reflexivity | reflexivity].
Qed.

(** X10.  A create that falls to the mock provider for a user the mock
    provider does not know (an account of the live backend, say) fails with
    "User not found": the failure toast is shown, and neither store, nor the
    id counter, nor the hook's list, nor the notification log changes.  The
    users the mock provider knows are those [getUserProfile] finds. *)
Theorem hook_create_unknown_user (uid : string) (ticketData : TicketData)
    (s : State) :
  user env = Some uid ->
  live_down s ->
  mockDbHelpers.getUserProfile uid s = (Ok None, s) ->
  exists s',
    useTickets.createTicket ticketData s = (Throw UserNotFound, s')
    /\ currentMockTickets s' = currentMockTickets s
    /\ nextTicketId s' = nextTicketId s
    /\ tickets s' = tickets s
    /\ notified s' = notified s
    /\ toasts s' = ToastCreateFailed UserNotFound :: toasts s
    /\ forall roleArg l u,
         mockDbHelpers.getUsers roleArg s = (Ok l, s) ->
         In u l -> profile_id u <> uid.
Proof.
  intros Hu Hd Hp.
  assert (Hf : find (fun u => profile_id u =? uid) (mockUsers env) = None).
  { unfold mockDbHelpers.getUserProfile, ret in Hp. injection Hp as H.
    exact H. }
  assert (Hall : forall u, In u (mockUsers env) -> profile_id u <> uid).
  { intros u Hin. apply String.eqb_neq. exact (find_none _ _ Hf u Hin). }
  destruct (persist_create_down uid ticketData s Hd) as (s2 & E & Hs2).
  rewrite (mock_create_unknown ticketData uid s2 Hf) in E.
  unfold useTickets.createTicket. rewrite Hu.
  unfold try_catch at 1. unfold bind at 1. rewrite E.
  unfold bind, useTickets.toast, modify, throw.
  eexists. split; [reflexivity|].
  assert (Husers : forall roleArg l u,
             mockDbHelpers.getUsers roleArg s = (Ok l, s) ->
             In u l -> profile_id u <> uid).
  { intros roleArg l u El Hin. apply Hall.
    unfold mockDbHelpers.getUsers, ret in El.
    destruct (truthy_opt roleArg); [destruct roleArg as [r|]|];
      injection El as <-; try exact Hin.
    apply filter_In in Hin. apply Hin. }
  destruct Hs2 as [[_ ->] | [_ ->]]; cbn; repeat split; exact Husers.
Qed.

End CreateInFull.

Section ListingInFull.

Context {env : Env}.

Lemma db_list_state (userId role : option string) (s : State) :
  let r := SelectTickets (if filter_applies userId role then userId else None) in
  let s' := snd (dbHelpers.getTicketsWithRelations userId role s) in
  (supabaseAvailable s && isConfigured env = false /\ s' = s)
  \/ (supabaseAvailable s && isConfigured env = true
      /\ (s' = sent r (liveDb s) s
          \/ (liveFails env (liveCalls s) = true
              /\ s' = set_supabaseAvailable false (sent r (liveDb s) s)))).
Proof.
  cbv zeta. unfold dbHelpers.getTicketsWithRelations.
  destruct (supabaseAvailable s) eqn:Ha; destruct (isConfigured env) eqn:Hc;
    cbn [andb];
    try (left; split; [reflexivity|];
         rewrite withFallback_down by (rewrite Ha, Hc; reflexivity);
         destruct (enableMockFallback env);
         [rewrite mock_list_eq|]; reflexivity).
  right. split; [reflexivity|].
  rewrite withFallback_up by assumption. unfold bind.
  destruct (liveFails env (liveCalls s)) eqn:Hl.
  - rewrite live_call_fail by assumption.
    destruct (enableMockFallback env).
    + right. rewrite mock_list_eq. split; reflexivity.
    + left. reflexivity.
  - left. rewrite live_call_ok by assumption.
    destruct (serve_select userId role (liveDb s)) as (l0 & -> & _).
    reflexivity.
Qed.

Lemma db_list_frame (userId role : option string) (s : State) :
  let s' := snd (dbHelpers.getTicketsWithRelations userId role s) in
  currentMockTickets s' = currentMockTickets s
  /\ nextTicketId s' = nextTicketId s
  /\ liveDb s' = liveDb s
  /\ tickets s' = tickets s
  /\ toasts s' = toasts s
  /\ liveCalls s'
     = (if supabaseAvailable s && isConfigured env
        then S (liveCalls s) else liveCalls s)
  /\ (supabaseAvailable s' = true -> supabaseAvailable s = true).
Proof.
  cbv zeta.
  destruct (db_list_state userId role s)
    as [[-> ->] | [-> [-> | [_ ->]]]]; cbn; repeat split; auto; discriminate.
Qed.

Lemma load_frame (s : State) :
  fst (useTickets.loadTickets s) = Ok tt
  /\ toasts (snd (useTickets.loadTickets s)) = toasts s
  /\ currentMockTickets (snd (useTickets.loadTickets s)) = currentMockTickets s
  /\ nextTicketId (snd (useTickets.loadTickets s)) = nextTicketId s
  /\ liveDb (snd (useTickets.loadTickets s)) = liveDb s.
Proof.
  destruct (useTickets.loadTickets s) as [r s2] eqn:E. cbn [fst snd].
  unfold useTickets.loadTickets in E.
  destruct (user env) as [u|];
    [|inversion E; subst; repeat split].
  destruct (profile env) as [p|];
    [|inversion E; subst; repeat split].
  unfold try_catch at 1 in E. unfold bind at 1 in E.
  unfold try_catch at 1 in E.
  pose proof (db_list_frame (Some u) (Some (role p)) s) as Hro.
  cbv zeta in Hro. destruct Hro as (H1 & H2 & H3 & _ & H5 & _).
  destruct (dbHelpers.getTicketsWithRelations (Some u) (Some (role p)) s)
    as [[l|e] s1]; cbn [snd] in *.
  - cbn in E. inversion E; subst. cbn. auto.
  - rewrite mock_list_eq in E. cbn in E. inversion E; subst. cbn. auto.
Qed.

(** X11.  Listing reads and never writes.  [dbHelpers.getTicketsWithRelations]
    leaves the mock store, the id counter, the rows of the live backend and
    the hook's list as they are, whatever it returns or throws; it makes one
    live call when the availability flag is up and Supabase is configured
    and none otherwise; and it never raises the availability flag. *)
Theorem listing_is_read_only (userId role : option string) (s : State) :
  let s' := snd (dbHelpers.getTicketsWithRelations userId role s) in
  currentMockTickets s' = currentMockTickets s
  /\ nextTicketId s' = nextTicketId s
  /\ liveDb s' = liveDb s
  /\ tickets s' = tickets s
  /\ toasts s' = toasts s
  /\ liveCalls s'
     = (if supabaseAvailable s && isConfigured env
        then S (liveCalls s) else liveCalls s)
  /\ (supabaseAvailable s' = true -> supabaseAvailable s = true).
Proof. exact (db_list_frame userId role s). Qed.

(** X12.  The hook's listing cannot fail and does not honour the mock
    fallback switch.  [loadTickets] does nothing when no user or no profile
    is at hand; otherwise it always completes, shows no toast and writes to
    no store.  With the mock fallback disabled and a live backend that does
    not answer, [dbHelpers.getTicketsWithRelations] throws, yet the hook
    catches that and lists the tickets of the mock provider all the same. *)
Theorem load_never_fails (s : State) :
  ((user env = None \/ profile env = None) ->
   useTickets.loadTickets s = (Ok tt, s))
  /\ (fst (useTickets.loadTickets s) = Ok tt
      /\ toasts (snd (useTickets.loadTickets s)) = toasts s
      /\ currentMockTickets (snd (useTickets.loadTickets s)) = currentMockTickets s
      /\ liveDb (snd (useTickets.loadTickets s)) = liveDb s)
  /\ (forall u p,
        user env = Some u -> profile env = Some p ->
        enableMockFallback env = false ->
        live_answers s = false ->
        (exists e, fst (dbHelpers.getTicketsWithRelations
                          (Some u) (Some (role p)) s) = Throw e)
        /\ tickets (snd (useTickets.loadTickets s))
           = scoped (Some u) (Some (role p)) (currentMockTickets s)).
Proof.
  split; [|split].
  - unfold useTickets.loadTickets.
    intros [-> | ->]; [reflexivity|]. destruct (user env); reflexivity.
  - destruct (load_frame s) as (H1 & H2 & H3 & _ & H5). auto.
  - intros u p Hu Hp Hf Hl.
    destruct (db_list_cases (Some u) (Some (role p)) s)
      as [(Hl' & _) | [(_ & Hf' & _) | (_ & _ & e & s1 & E & Hs)]];
      try congruence.
    split; [exists e; rewrite E; reflexivity|].
    unfold useTickets.loadTickets. rewrite Hu, Hp.
    unfold try_catch at 1. unfold bind at 1. unfold try_catch at 1.
    rewrite E, mock_list_eq. cbn.
    rewrite (map_ext _ (fun t => t) transformTicket_id), map_id, Hs.
    reflexivity.
Qed.

(** X13.  Reading the activities of a ticket through the hook cannot fail
    either, and shows no toast.  When the live call throws (Supabase not
    configured, or the backend failing), [dbHelpers.getTicketActivities]
    throws, having no fallback of its own, and the hook answers with the
    three fabricated entries of the mock provider; in every case each entry
    returned carries the id that was asked for. *)
Theorem activities_never_fail (ticketId : string) (s : State) :
  (exists l s',
     useTickets.getTicketActivities ticketId s = (Ok l, s')
     /\ toasts s' = toasts s
     /\ currentMockTickets s' = currentMockTickets s
     /\ forall a, In a l -> ticket_id a = ticketId)
  /\ (live_down s ->
      (exists e, fst (dbHelpers.getTicketActivities ticketId s) = Throw e)
      /\ exists l, fst (useTickets.getTicketActivities ticketId s) = Ok l
                   /\ map act_type l = [created; act_assigned; comment]).
Proof.
  assert (Hmock : forall x, exists l,
             mockDbHelpers.getTicketActivities ticketId x
             = (Ok l, set_ticks (S (S (S (ticks x)))) x)
             /\ map act_type l = [created; act_assigned; comment]
             /\ forall a, In a l -> ticket_id a = ticketId).
  { intros x. eexists. split; [reflexivity|]. split; [reflexivity|].
    intros a [<- | [<- | [<- | []]]]; reflexivity. }
  split.
  - unfold useTickets.getTicketActivities, dbHelpers.getTicketActivities,
      try_catch, bind.
    destruct (isConfigured env) eqn:Hc.
    + destruct (liveFails env (liveCalls s)) eqn:Hl.
      * rewrite live_call_fail by assumption.
        destruct (Hmock (sent (SelectActivities ticketId) (liveDb s) s))
          as (l & -> & _ & Hall).
        exists l. eexists. split; [reflexivity|]. cbn. auto.
      * rewrite live_call_ok by assumption. cbn [serve fst snd activity_rows ret].
        eexists _, _. split; [reflexivity|]. cbn. repeat split.
        intros a Ha. apply order_desc_In in Ha. apply filter_In in Ha.
        apply String.eqb_eq, Ha.
    + rewrite live_call_null by assumption.
      destruct (Hmock s) as (l & -> & _ & Hall).
      exists l. eexists. split; [reflexivity|]. cbn. auto.
  - intros Hd.
    unfold useTickets.getTicketActivities, dbHelpers.getTicketActivities,
      try_catch, bind.
    destruct (isConfigured env) eqn:Hc.
    + destruct Hd as [Hd|Hd]; [congruence|].
      rewrite live_call_fail by assumption.
      destruct (Hmock (sent (SelectActivities ticketId) (liveDb s) s))
        as (l & -> & Ht & _).
      split; [exists SupabaseError; reflexivity|]. exists l. auto.
    + rewrite live_call_null by assumption.
      destruct (Hmock s) as (l & -> & Ht & _).
      split; [exists ClientIsNull; reflexivity|]. exists l. auto.
Qed.

End ListingInFull.

Section StatsAndProfiles.

Context {env : Env}.

(** X14.  The statistics of the mock provider count what a field engineer
    is shown.  [getUserStats] leaves the store alone (it reads the clock
    once, for [lastActivity]); its [completedTickets] never exceeds its
    [totalTickets]; for a proper user id [totalTickets] is the number of
    tickets that the mock listing returns to a field engineer of that id;
    and a ticket created by a known user raises that user's [totalTickets]
    by one and leaves [completedTickets] as it was. *)
Theorem mock_user_stats_count_the_listing (userId : string) (s : State) :
  exists st,
    mockDbHelpers.getUserStats userId s = (Ok st, set_ticks (S (ticks s)) s)
    /\ mockDbHelpers.completedTickets st <= mockDbHelpers.totalTickets st
    /\ mockDbHelpers.lastActivity st = clock env (ticks s)
    /\ (userId <> "" ->
        exists l, mockDbHelpers.getTicketsWithRelations
                    (Some userId) (Some "field_engineer") s = (Ok l, s)
                  /\ mockDbHelpers.totalTickets st = length l)
    /\ (forall ticketData cu,
          find (fun u => profile_id u =? userId) (mockUsers env) = Some cu ->
          exists st',
            fst (mockDbHelpers.getUserStats userId
                   (snd (mockDbHelpers.createTicket ticketData userId s)))
            = Ok st'
            /\ mockDbHelpers.totalTickets st' = S (mockDbHelpers.totalTickets st)
            /\ mockDbHelpers.completedTickets st' = mockDbHelpers.completedTickets st).
Proof.
  assert (E : forall x,
             mockDbHelpers.getUserStats userId x
             = (Ok {| mockDbHelpers.totalTickets :=
                        length (filter (created_or_assigned userId)
                                  (currentMockTickets x));
                      mockDbHelpers.completedTickets :=
                        length (filter (fun t => mockDbHelpers.is_completed (status t))
                                  (filter (created_or_assigned userId)
                                     (currentMockTickets x)));
                      mockDbHelpers.lastActivity := clock env (ticks x) |},
                set_ticks (S (ticks x)) x))
    by reflexivity.
  eexists. split; [apply E|].
  cbn [mockDbHelpers.totalTickets mockDbHelpers.completedTickets
       mockDbHelpers.lastActivity].
  split; [apply filter_length_le|]. split; [reflexivity|]. split.
  - intros Hne. rewrite mock_list_eq, scoped_filter by exact Hne.
    eexists. split; reflexivity.
  - intros ticketData cu Hf.
    rewrite (mock_create_ok ticketData userId cu s Hf). cbn [snd].
    rewrite E. eexists. split; [reflexivity|].
    assert (Hc : created_or_assigned userId
                   (mockDbHelpers.newTicket ticketData userId (nextTicketId s)
                      (clock env (ticks s)) (clock env (S (ticks s)))) = true).
    { unfold created_or_assigned. cbn [created_by mockDbHelpers.newTicket].
      rewrite String.eqb_refl. reflexivity. }
    cbn [mockDbHelpers.totalTickets mockDbHelpers.completedTickets
         currentMockTickets set_currentMockTickets filter].
    rewrite Hc. cbn. split; reflexivity.
Qed.

(** X15.  The hydrated assignee profile follows the assignee only when the
    mock provider knows the new assignee.  After an assign served by the
    mock provider: to a user it knows, the ticket carries that user's
    profile; to a user it does not know, and likewise after an unassign, the
    ticket keeps the profile it had, so that an unassigned ticket still
    shows the profile of its former assignee. *)
Theorem assign_profile_follows_known_users (uid ticketId : string) (s : State)
    (i : nat) (t : Ticket) :
  user env = Some uid ->
  live_down s ->
  findIndex (fun t => id t =? ticketId) (currentMockTickets s) = Some i ->
  nth_error (currentMockTickets s) i = Some t ->
  (exists t' s',
     useTickets.assignTicket ticketId None s = (Ok t', s')
     /\ assigned_to t' = None
     /\ assigned_to_profile t' = assigned_to_profile t)
  /\ (forall a, a <> "" -> exists t' s',
        useTickets.assignTicket ticketId (Some a) s = (Ok t', s')
        /\ assigned_to t' = Some a
        /\ assigned_to_profile t'
           = match find (fun u => profile_id u =? a) (mockUsers env) with
             | Some assignedProfile => Some assignedProfile
             | None => assigned_to_profile t
             end).
Proof.
  intros Hu Hd Hi Hn. split.
  - unfold useTickets.assignTicket. cbn [truthy_opt]. unfold bind at 1, ret at 1.
    match goal with
    | |- context [useTickets.updateTicket ticketId ?u s] =>
        destruct (update_on_mock_full uid ticketId u s i t Hu Hd Hi Hn)
          as (k & s' & _ & E & _)
    end.
    eexists _, s'. split; [exact E|]. split; reflexivity.
  - intros a Ha. apply truthy_true in Ha.
    unfold useTickets.assignTicket. cbn [truthy_opt]. rewrite Ha.
    unfold bind at 1. unfold bind at 1. unfold now at 1, ret at 1.
    assert (Hd' : live_down (set_ticks (S (ticks s)) s)) by exact Hd.
    match goal with
    | |- context [useTickets.updateTicket ticketId ?u ?st] =>
        destruct (update_on_mock_full uid ticketId u st i t Hu Hd' Hi Hn)
          as (k & s' & _ & E & _)
    end.
    eexists _, s'. split; [exact E|].
    unfold mockDbHelpers.attach_assigned_profile. cbn [upd_assigned_to].
    rewrite Ha.
    destruct (find (fun u => profile_id u =? a) (mockUsers env));
      split; reflexivity.
Qed.

End StatsAndProfiles.

Section LivePath.

Context {env : Env}.


End LivePath.

(* ================================================================== *)
(** * The mock authentication system                                  *)
(* ================================================================== *)

Example ascii_normalisation :
  mockAuth.trim mockAuth.asciiStrings
    (mockAuth.toLowerCase mockAuth.asciiStrings "  Admin@Test.COM ")
  = "admin@test.com".
Proof. reflexivity. Qed.

Lemma find_by_key {A} (l : list (string * A)) (k : string) (a : A) :
  NoDup (map fst l) -> In (k, a) l ->
  find (fun entry => fst entry =? k) l = Some (k, a).
Proof.
  induction l as [|[k0 a0] r IH]; cbn; intros Hnd Hin; [contradiction|].
  inversion Hnd as [|? ? Hnin Hnd']; subst.
  destruct Hin as [E|Hin].
  - inversion E; subst. rewrite String.eqb_refl. reflexivity.
  - destruct (k0 =? k) eqn:Ek.
    + apply String.eqb_eq in Ek. subst k0. exfalso. apply Hnin.
      apply (in_map fst) in Hin. exact Hin.
    + apply IH; assumption.
Qed.

Section Authentication.

Context {env : Env} {auth : mockAuth.AuthEnv}.

(** X17.  A successful mock sign-in establishes the session everywhere.
    When [signInWithPassword] succeeds, the account it found has the given
    password and an active profile, and its key equals the given email once
    both are lowercased (the email also trimmed); the session is the current
    one and is also in local storage, with a token made of the clock
    reading; [getSession] and [getUser] then return that session and that
    user without changing anything; and, the accounts being filed under
    their own emails, the [useAuth] hook initialises with that user and the
    profile of the account. *)
Theorem sign_in_establishes_session (email password : string)
    (st st' : State * mockAuth.AuthState) (u : mockAuth.MockUser)
    (ses : mockAuth.Session) :
  mockAuth.signInWithPassword email password st = (mockAuth.Done (u, ses), st') ->
  (exists key acc,
     In (key, acc) (mockAuth.accounts auth)
     /\ mockAuth.toLowerCase auth key
        = mockAuth.trim auth (mockAuth.toLowerCase auth email)
     /\ mockAuth.acc_password acc = password
     /\ is_active (mockAuth.acc_profile acc) = true
     /\ u = mockAuth.acc_user acc
     /\ (mockAuth.well_keyed (mockAuth.accounts auth) ->
         mockAuth.getInitialSession st'
         = (mockAuth.Done (Some u, Some (mockAuth.acc_profile acc)), st')))
  /\ mockAuth.ses_user ses = u
  /\ mockAuth.access_token ses
     = "mock_token_" ++ mockAuth.string_of_Z (clock env (ticks (fst st)))
  /\ snd st' = {| mockAuth.currentSession := Some ses;
                  mockAuth.mock_session := Some ses |}
  /\ mockAuth.getSession st' = (mockAuth.Done (Some ses), st')
  /\ mockAuth.getUser st' = (mockAuth.Done (Some u), st').
Proof.
  unfold mockAuth.signInWithPassword, mockAuth.lookup_lowercase. cbv zeta.
  destruct (find _ (mockAuth.accounts auth)) as [[key acc]|] eqn:Ef;
    [|discriminate].
  cbn [snd].
  destruct (mockAuth.acc_password acc =? password) eqn:Ep; cbn [negb];
    [|discriminate].
  destruct (is_active (mockAuth.acc_profile acc)) eqn:Ea; cbn [negb];
    [|discriminate].
  intros H. inversion H; subst. clear H.
  apply find_some in Ef. destruct Ef as [Hin Hk]. cbn [fst] in Hk.
  apply String.eqb_eq in Hk. apply String.eqb_eq in Ep.
  split.
  { exists key, acc. repeat split; auto.
    intros [Hnd Hall].
    unfold mockAuth.getInitialSession, mockAuth.getSession,
      mockAuth.getCurrentUserProfileMock, mockAuth.lookup.
    cbn [snd fst mockAuth.currentSession mockAuth.ses_user].
    rewrite Forall_forall in Hall. pose proof (Hall _ Hin) as Hm.
    cbn [snd fst] in Hm. rewrite Hm.
    rewrite (find_by_key _ key acc Hnd Hin). reflexivity. }
  repeat split.
Qed.

(** X18.  A failed mock sign-in changes nothing, so that a session that was
    current stays current.  The failures come in a fixed order: no account
    under the (lowercased, trimmed) email gives "Invalid email"; a wrong
    password gives "Invalid password", also for a deactivated account;
    "Account is deactivated" is reported only with the right password. *)
Theorem failed_sign_in_changes_nothing (email password : string)
    (st st' : State * mockAuth.AuthState) (e : mockAuth.AuthError) :
  mockAuth.signInWithPassword email password st = (mockAuth.Failed e, st') ->
  st' = st
  /\ mockAuth.getSession st' = mockAuth.getSession st
  /\ match mockAuth.lookup_lowercase
             (mockAuth.trim auth (mockAuth.toLowerCase auth email)) with
     | None => e = mockAuth.InvalidEmail
     | Some acc =>
         (mockAuth.acc_password acc <> password /\ e = mockAuth.InvalidPassword)
         \/ (mockAuth.acc_password acc = password
             /\ is_active (mockAuth.acc_profile acc) = false
             /\ e = mockAuth.AccountDeactivated)
     end.
Proof.
  unfold mockAuth.signInWithPassword. cbv zeta.
  destruct (mockAuth.lookup_lowercase _) as [acc|].
  - destruct (mockAuth.acc_password acc =? password) eqn:Ep; cbn [negb].
    + destruct (is_active (mockAuth.acc_profile acc)) eqn:Ea; cbn [negb];
        [discriminate|].
      intros H. inversion H; subst. apply String.eqb_eq in Ep.
      repeat split. right. auto.
    + intros H. inversion H; subst. apply String.eqb_neq in Ep.
      repeat split. left. auto.
  - intros H. inversion H; subst. repeat split.
Qed.

(** X19.  Sign-out and reload.  After [signOut], whatever was current or
    stored, [getSession] and [getUser] return nothing and the [useAuth] hook
    initialises signed out.  After a page reload (no current session, a
    stored one) [getSession] returns the stored session and makes it
    current, and a second call returns the same and changes nothing; until
    then [getCurrentUserProfileMock] without an argument finds no profile,
    since it reads the current session only. *)
Theorem sign_out_and_reload (s : State) (a : mockAuth.AuthState) :
  (let st' := snd (mockAuth.signOut (s, a)) in
   mockAuth.getSession st' = (mockAuth.Done None, st')
   /\ mockAuth.getUser st' = (mockAuth.Done None, st')
   /\ mockAuth.getInitialSession st' = (mockAuth.Done (None, None), st')
   /\ fst st' = s)
  /\ (forall stored,
        mockAuth.currentSession a = None ->
        mockAuth.mock_session a = Some stored ->
        let st' := snd (mockAuth.getSession (s, a)) in
        fst (mockAuth.getSession (s, a)) = mockAuth.Done (Some stored)
        /\ mockAuth.currentSession (snd st') = Some stored
        /\ mockAuth.getSession st' = (mockAuth.Done (Some stored), st')
        /\ mockAuth.getCurrentUserProfileMock None (s, a)
           = (mockAuth.Done None, (s, a))
        /\ mockAuth.getCurrentUserProfileMock None st'
           = (mockAuth.Done
                (option_map mockAuth.acc_profile
                   (mockAuth.lookup (mockAuth.mu_email (mockAuth.ses_user stored)))),
              st')).
Proof.
  split.
  - cbv zeta. repeat split.
  - intros stored Hc Hm. cbv zeta.
    unfold mockAuth.getSession, mockAuth.getCurrentUserProfileMock.
    cbn [fst snd]. rewrite Hc, Hm. cbn. repeat split.
Qed.

End Authentication.

(* ================================================================== *)
(** * The numbering of the mock store under the operations of the hook *)
(* ================================================================== *)

Lemma same_mock_refl (s : State) : same_mock s s.
Proof. split; reflexivity. Qed.

Lemma same_mock_trans (a b c : State) :
  same_mock a b -> same_mock b c -> same_mock a c.
Proof. intros [H1 H2] [H3 H4]. split; congruence. Qed.

Lemma well_numbered_same (s s' : State) :
  same_mock s s' -> well_numbered s -> well_numbered s'.
Proof.
  intros [H1 H2] [Hnd Hb]. unfold well_numbered. rewrite H1, H2. auto.
Qed.

Section HookNumbering.

Context {env : Env}.

Lemma mock_create_well_numbered (ticketData : TicketData) (uid : string)
    (s : State) :
  well_numbered s ->
  well_numbered (snd (mockDbHelpers.createTicket ticketData uid s)).
Proof.
  intros [Hnd Hb].
  destruct (find (fun u => profile_id u =? uid) (mockUsers env)) as [cu|] eqn:Hf.
  - rewrite (mock_create_ok ticketData uid cu s Hf). split; cbn.
    + constructor; [apply ids_below_fresh; exact Hb | exact Hnd].
    + constructor.
      * exists (nextTicketId s). split; [lia | reflexivity].
      * apply (ids_below_mono (nextTicketId s)); [lia | exact Hb].
  - rewrite (mock_create_unknown ticketData uid s Hf). split; assumption.
Qed.

Lemma persist_create_store (uid : string) (ticketData : TicketData) (s : State) :
  exists s2,
    same_mock s s2
    /\ (useTickets.persist_create uid ticketData s
        = mockDbHelpers.createTicket ticketData uid s2
        \/ exists row, useTickets.persist_create uid ticketData s = (Ok row, s2)).
Proof.
  unfold useTickets.persist_create, try_catch, bind.
  destruct (isConfigured env) eqn:Hc.
  - destruct (liveFails env (liveCalls s)) eqn:Hl.
    + rewrite live_call_fail by assumption.
      eexists. split; [|left; reflexivity]. split; reflexivity.
    + rewrite live_call_ok by assumption.
      set (db' := snd (serve (InsertTicket ticketData uid) (liveDb s))).
      exists (sent (InsertTicket ticketData uid) db' s).
      split; [split; reflexivity|].
      destruct (fst (serve (InsertTicket ticketData uid) (liveDb s)))
        as [[|t [|t2 r]]|l]; unfold single, ret, throw; cbv beta iota;
        try (left; reflexivity).
      right. eexists. reflexivity.
  - rewrite live_call_null by assumption.
    exists s. split; [apply same_mock_refl | left; reflexivity].
Qed.

Lemma persist_update_store (ticketId : string) (updates dbu : TicketPatch)
    (s : State) :
  exists s2,
    same_mock s s2
    /\ (useTickets.persist_update ticketId updates dbu s
        = mockDbHelpers.updateTicket ticketId updates s2
        \/ exists row,
             useTickets.persist_update ticketId updates dbu s = (Ok row, s2)).
Proof.
  unfold useTickets.persist_update, try_catch, bind.
  destruct (isConfigured env) eqn:Hc.
  - destruct (liveFails env (liveCalls s)) eqn:Hl.
    + rewrite live_call_fail by assumption.
      eexists. split; [|left; reflexivity]. split; reflexivity.
    + rewrite live_call_ok by assumption.
      set (db' := snd (serve (UpdateTicket ticketId dbu) (liveDb s))).
      exists (sent (UpdateTicket ticketId dbu) db' s).
      split; [split; reflexivity|].
      destruct (fst (serve (UpdateTicket ticketId dbu) (liveDb s)))
        as [[|t [|t2 r]]|l]; unfold single, ret, throw; cbv beta iota;
        try (left; reflexivity).
      right. eexists. reflexivity.
  - rewrite live_call_null by assumption.
    exists s. split; [apply same_mock_refl | left; reflexivity].
Qed.

Lemma hook_create_well_numbered (ticketData : TicketData) (s : State) :
  well_numbered s ->
  well_numbered (snd (useTickets.createTicket ticketData s)).
Proof.
  intros Hw. unfold useTickets.createTicket.
  destruct (user env) as [uid|] eqn:Hu; [|exact Hw].
  destruct (persist_create_store uid ticketData s) as (s2 & Hs2 & Hp).
  pose proof (well_numbered_same _ _ Hs2 Hw) as Hw2.
  assert (Hres : exists r s3,
             useTickets.persist_create uid ticketData s = (r, s3)
             /\ well_numbered s3).
  { destruct Hp as [E | [row E]].
    - rewrite E.
      destruct (mockDbHelpers.createTicket ticketData uid s2) as [r s3] eqn:Em.
      exists r, s3. split; [reflexivity|].
      pose proof (mock_create_well_numbered ticketData uid s2 Hw2) as H.
      rewrite Em in H. exact H.
    - eexists _, _. split; [exact E | exact Hw2]. }
  destruct Hres as ([t|e] & s3 & E & Hw3).
  - assert (Hu' : user env = Some uid) by exact Hu.
    pose proof (create_after_persist uid ticketData s s3 t Hu' E) as (nl & Ec & _).
    unfold useTickets.createTicket in Ec. rewrite Hu in Ec. rewrite Ec.
    exact Hw3.
  - unfold try_catch at 1. unfold bind at 1. rewrite E.
    unfold bind, useTickets.toast, modify, throw. exact Hw3.
Qed.

Lemma hook_update_well_numbered (ticketId : string) (updates : TicketPatch)
    (s : State) :
  upd_id updates = None ->
  well_numbered s ->
  well_numbered (snd (useTickets.updateTicket ticketId updates s)).
Proof.
  intros Hid Hw. unfold useTickets.updateTicket.
  destruct (user env) as [uid|] eqn:Hu; [|exact Hw].
  unfold try_catch at 1. unfold bind at 1.
  destruct (build_dbUpdates_later uid updates s) as (dbu & s1 & -> & [E1 _] & _).
  assert (Hw1 : well_numbered s1) by (rewrite E1; exact Hw).
  unfold bind at 1.
  destruct (persist_update_store ticketId updates dbu s1) as (s2 & Hs2 & Hp).
  pose proof (well_numbered_same _ _ Hs2 Hw1) as Hw2.
  assert (Hres : exists r s3,
             useTickets.persist_update ticketId updates dbu s1 = (r, s3)
             /\ well_numbered s3).
  { destruct Hp as [E | [row E]].
    - rewrite E.
      destruct (mockDbHelpers.updateTicket ticketId updates s2) as [r s3] eqn:Em.
      exists r, s3. split; [reflexivity|].
      pose proof (mock_update_well_numbered ticketId updates s2 Hid Hw2) as H.
      rewrite Em in H. exact H.
    - eexists _, _. split; [exact E | exact Hw2]. }
  destruct Hres as ([t|e] & s3 & -> & Hw3).
  - unfold bind at 1. unfold modify at 1. unfold bind at 1.
    rewrite notify_update_exact.
    unfold bind, useTickets.toast, modify, ret. exact Hw3.
  - unfold bind, useTickets.toast, modify, throw. exact Hw3.
Qed.

(** X20.  Under the operations of the hook the ids of the mock store stay
    pairwise distinct and below the id counter, whichever provider serves
    the operation and whether it succeeds or throws: after a create, after
    an update whose patch does not overwrite the id, after an assign or an
    unassign, and after a listing. *)
Theorem hook_keeps_store_well_numbered (s : State) :
  well_numbered s ->
  (forall ticketData,
     well_numbered (snd (useTickets.createTicket ticketData s)))
  /\ (forall ticketId updates,
        upd_id updates = None ->
        well_numbered (snd (useTickets.updateTicket ticketId updates s)))
  /\ (forall ticketId assignedTo,
        well_numbered (snd (useTickets.assignTicket ticketId assignedTo s)))
  /\ well_numbered (snd (useTickets.loadTickets s)).
Proof.
  intros Hw. split; [|split; [|split]].
  - intros ticketData. apply hook_create_well_numbered, Hw.
  - intros ticketId updates Hid. apply hook_update_well_numbered; assumption.
  - intros ticketId assignedTo. unfold useTickets.assignTicket.
    unfold bind at 1. destruct (truthy_opt assignedTo).
    + unfold bind at 1, now at 1, ret at 1.
      apply hook_update_well_numbered; [reflexivity | exact Hw].
    + unfold ret at 1.
      apply hook_update_well_numbered; [reflexivity | exact Hw].
  - destruct (load_frame s) as (_ & _ & Hm & Hn & _).
    apply (well_numbered_same s); [split; assumption | exact Hw].
Qed.

End HookNumbering.

(* ================================================================== *)
(** * The further properties on the sessions of the fixtures          *)
(* ================================================================== *)

Lemma initial_well_numbered (configured : bool) (db : Db) :
  well_numbered (Fixtures.initial configured db).
Proof.
  split.
  - cbn. repeat constructor; cbn; intuition discriminate.
  - repeat constructor.
    + exists 1. split; [cbn; lia | reflexivity].
    + exists 2. split; [cbn; lia | reflexivity].
    + exists 3. split; [cbn; lia | reflexivity].
Qed.

(** deleting the second fixture ticket leaves the first and the third *)
Lemma mock_delete_witness :
  currentMockTickets
    (snd (mockDbHelpers.deleteTicket "2" (Fixtures.initial false Fixtures.emptyDb)))
  = [Fixtures.ticket1; Fixtures.ticket3].
Proof.
  refine (proj1 (proj2 (proj2 (mock_delete_removes_by_id "2"
                                 (Fixtures.initial false Fixtures.emptyDb)) _))).
  discriminate.
Defined.

Lemma mock_numbering_witness :
  well_numbered
    (snd (mockDbHelpers.createTicket (env := Fixtures.adminDemo)
            Fixtures.acRepair "1" (Fixtures.initial false Fixtures.emptyDb))).
Proof.
  exact (proj1 (mock_store_stays_well_numbered (env := Fixtures.adminDemo)
                  (Fixtures.initial false Fixtures.emptyDb)
                  (initial_well_numbered false Fixtures.emptyDb))
           Fixtures.acRepair "1").
Defined.

Lemma mock_update_local_witness :
  exists t' s',
    mockDbHelpers.updateTicket (env := Fixtures.adminDemo) "2"
      (statusUpdate resolved) (Fixtures.initial false Fixtures.emptyDb)
    = (Ok t', s')
    /\ nth_error (currentMockTickets s') 0 = Some Fixtures.ticket1
    /\ updated_at t' = 1705400000000%Z.
Proof.
  destruct (mock_update_is_local (env := Fixtures.adminDemo) "2"
              (statusUpdate resolved) (Fixtures.initial false Fixtures.emptyDb)
              1 Fixtures.ticket2 eq_refl eq_refl)
    as (t' & s' & E & _ & Ho & _ & _ & _ & U).
  exists t', s'. split; [exact E|]. split; [|exact U].
  rewrite (Ho 0) by discriminate. reflexivity.
Defined.

(** the hook has loaded nothing yet: an update leaves its list empty *)
Lemma hook_update_sync_witness :
  exists t' s',
    useTickets.updateTicket (env := Fixtures.adminDemo) "2"
      (statusUpdate resolved) (Fixtures.initial false Fixtures.emptyDb)
    = (Ok t', s')
    /\ tickets s' = [].
Proof.
  destruct (hook_update_syncs_list (env := Fixtures.adminDemo) "1" "2"
              (statusUpdate resolved) (Fixtures.initial false Fixtures.emptyDb)
              1 Fixtures.ticket2 eq_refl (or_introl eq_refl) eq_refl eq_refl)
    as (t' & s' & E & Hm & _).
  exists t', s'. split; [exact E | exact Hm].
Defined.

(** the admin assigns the second fixture ticket to its creator, user 2:
    nobody is notified *)
Lemma hook_notifications_witness :
  exists t' s',
    useTickets.assignTicket (env := Fixtures.adminDemo) "2" (Some "2")
      (Fixtures.initial false Fixtures.emptyDb) = (Ok t', s')
    /\ notified s' = [].
Proof.
  destruct (proj1 (proj2 (hook_update_notifications (env := Fixtures.adminDemo)
                            "1" "2" (Fixtures.initial false Fixtures.emptyDb)
                            1 Fixtures.ticket2 eq_refl (or_introl eq_refl)
                            eq_refl eq_refl)) "2")
    as (t' & s' & E & Hn).
  - discriminate.
  - exists t', s'. split; [exact E | exact Hn].
Defined.

Lemma overdue_witness :
  exists t' s',
    useTickets.updateTicket (env := Fixtures.engineerDemo) "2"
      (statusUpdate resolved) (Fixtures.initial false Fixtures.emptyDb)
    = (Ok t', s')
    /\ due_date t' = Some 1705417200000%Z.
Proof.
  destruct (proj2 (overdue_until_completed (env := Fixtures.engineerDemo)
                     (Fixtures.initial false Fixtures.emptyDb))
              "3" "2" (statusUpdate resolved) resolved 1 Fixtures.ticket2
              eq_refl (or_introl eq_refl) eq_refl eq_refl eq_refl eq_refl)
    as (t' & s' & E & Hd & _).
  exists t', s'. split; [exact E | exact Hd].
Defined.

Lemma hook_create_witness :
  exists t s',
    useTickets.createTicket (env := Fixtures.engineerDemo) Fixtures.acRepair
      (Fixtures.initial false Fixtures.emptyDb) = (Ok t, s')
    /\ id t = "4" /\ type t = "maintenance" /\ priority t = "medium"
    /\ notified s' = [notifyTicketCreated t].
Proof.
  destruct (hook_create_in_full (env := Fixtures.engineerDemo)
              "3" Fixtures.engineerUser Fixtures.acRepair
              (Fixtures.initial false Fixtures.emptyDb)
              eq_refl (or_introl eq_refl) eq_refl)
    as (t & s' & E & Hid & Hty & Hpr & _ & _ & _ & _ & _ & Hn).
  exists t, s'. split; [exact E|]. split; [exact Hid|].
  split; [exact (Hty eq_refl)|]. split; [exact (Hpr eq_refl) | exact Hn].
Defined.

Lemma status_partition_witness :
  useTickets.getTicketsByStatus "done" (Fixtures.initial false Fixtures.emptyDb)
  = [].
Proof.
  refine (proj2 (proj2 (tickets_by_status_partition
                          (Fixtures.initial false Fixtures.emptyDb))) "done" _).
  intros k. destruct k; discriminate.
Defined.

(** the engineer loads the fixtures; the second ticket is assigned to them *)
Lemma engineer_list_witness :
  In Fixtures.ticket2
     (useTickets.getMyTickets (env := Fixtures.engineerDemo)
        (snd (useTickets.loadTickets (env := Fixtures.engineerDemo)
                (Fixtures.initial false Fixtures.emptyDb))))
  \/ In Fixtures.ticket2
        (useTickets.getAssignedTickets (env := Fixtures.engineerDemo)
           (snd (useTickets.loadTickets (env := Fixtures.engineerDemo)
                   (Fixtures.initial false Fixtures.emptyDb)))).
Proof.
  refine (proj1 (engineer_list_is_mine_or_assigned (env := Fixtures.engineerDemo)
                   (Fixtures.initial false Fixtures.emptyDb))
            "3" Fixtures.engineerUser eq_refl eq_refl _ eq_refl
            Fixtures.ticket2 _).
  - discriminate.
  - right. left. reflexivity.
Defined.

Lemma unknown_user_witness :
  exists s',
    useTickets.createTicket (env := Fixtures.strangerDemo) Fixtures.acRepair
      (Fixtures.initial false Fixtures.emptyDb) = (Throw UserNotFound, s')
    /\ currentMockTickets s' = Fixtures.mockTickets
    /\ nextTicketId s' = 4.
Proof.
  destruct (hook_create_unknown_user (env := Fixtures.strangerDemo)
              "9" Fixtures.acRepair (Fixtures.initial false Fixtures.emptyDb)
              eq_refl (or_introl eq_refl) eq_refl)
    as (s' & E & Hm & Hn & _).
  exists s'. split; [exact E|]. split; [exact Hm | exact Hn].
Defined.

(** a listing that trips the flag: the flag was up before *)
Lemma listing_read_only_witness :
  currentMockTickets
    (snd (dbHelpers.getTicketsWithRelations (env := Fixtures.engineerTransient)
            (Some "3") (Some "field_engineer")
            (Fixtures.initial true Fixtures.emptyDb)))
  = Fixtures.mockTickets.
Proof.
  exact (proj1 (listing_is_read_only (env := Fixtures.engineerTransient)
                  (Some "3") (Some "field_engineer")
                  (Fixtures.initial true Fixtures.emptyDb))).
Defined.

(** the fallback is disabled and the backend is down: the hook still lists
    the three fixture tickets, all assigned to the engineer *)
Lemma load_witness :
  tickets (snd (useTickets.loadTickets (env := Fixtures.fallbackOff)
                  (Fixtures.initial true Fixtures.emptyDb)))
  = Fixtures.mockTickets.
Proof.
  exact (proj2 (proj2 (proj2 (load_never_fails (env := Fixtures.fallbackOff)
                                (Fixtures.initial true Fixtures.emptyDb)))
                  "3" Fixtures.engineerUser eq_refl eq_refl eq_refl eq_refl)).
Defined.

Lemma activities_witness :
  exists l,
    fst (useTickets.getTicketActivities (env := Fixtures.fallbackOff) "1"
           (Fixtures.initial true Fixtures.emptyDb)) = Ok l
    /\ map act_type l = [created; act_assigned; comment].
Proof.
  exact (proj2 (proj2 (activities_never_fail (env := Fixtures.fallbackOff) "1"
                         (Fixtures.initial true Fixtures.emptyDb))
                  (or_intror eq_refl))).
Defined.

(** the engineer is assigned all three fixture tickets; the third is resolved *)
Lemma user_stats_witness :
  exists st,
    mockDbHelpers.getUserStats (env := Fixtures.engineerDemo) "3"
      (Fixtures.initial false Fixtures.emptyDb)
    = (Ok st, set_ticks 1 (Fixtures.initial false Fixtures.emptyDb))
    /\ exists l,
         mockDbHelpers.getTicketsWithRelations (Some "3") (Some "field_engineer")
           (Fixtures.initial false Fixtures.emptyDb)
         = (Ok l, Fixtures.initial false Fixtures.emptyDb)
         /\ mockDbHelpers.totalTickets st = length l.
Proof.
  destruct (mock_user_stats_count_the_listing (env := Fixtures.engineerDemo) "3"
              (Fixtures.initial false Fixtures.emptyDb))
    as (st & E & _ & _ & Hl & _).
  exists st. split; [exact E|]. apply Hl. discriminate.
Defined.

(** unassigning the second fixture ticket: the engineer's profile stays *)
Lemma assign_profile_witness :
  exists t' s',
    useTickets.assignTicket (env := Fixtures.adminDemo) "2" None
      (Fixtures.initial false Fixtures.emptyDb) = (Ok t', s')
    /\ assigned_to t' = None
    /\ assigned_to_profile t' = Some Fixtures.engineerUser.
Proof.
  exact (proj1 (assign_profile_follows_known_users (env := Fixtures.adminDemo)
                  "1" "2" (Fixtures.initial false Fixtures.emptyDb)
                  1 Fixtures.ticket2 eq_refl (or_introl eq_refl)
                  eq_refl eq_refl)).
Defined.


Lemma hook_numbering_witness :
  well_numbered
    (snd (useTickets.createTicket (env := Fixtures.engineerTransient)
            Fixtures.acRepair (Fixtures.initial true Fixtures.emptyDb))).
Proof.
  exact (proj1 (hook_keeps_store_well_numbered (env := Fixtures.engineerTransient)
                  (Fixtures.initial true Fixtures.emptyDb)
                  (initial_well_numbered true Fixtures.emptyDb))
           Fixtures.acRepair).
Defined.

(** the admin signs in, with capitals and blanks in the email *)
Lemma sign_in_witness :
  exists u ses st',
    mockAuth.signInWithPassword (env := Fixtures.adminDemo)
      (auth := mockAuth.asciiStrings) "  Admin@Test.COM " "admin123"
      (Fixtures.initial false Fixtures.emptyDb, mockAuth.signedOutState)
    = (mockAuth.Done (u, ses), st')
    /\ mockAuth.mu_id u = "1"
    /\ mockAuth.access_token ses = "mock_token_1705400000000"
    /\ mockAuth.getSession st' = (mockAuth.Done (Some ses), st').
Proof.
  eexists _, _, _. split; [reflexivity|]. split; [reflexivity|].
  pose proof (sign_in_establishes_session (env := Fixtures.adminDemo)
                (auth := mockAuth.asciiStrings) "  Admin@Test.COM " "admin123"
                (Fixtures.initial false Fixtures.emptyDb, mockAuth.signedOutState)
                _ _ _ eq_refl) as (_ & _ & Ht & _ & Hs & _).
  split; [exact Ht | exact Hs].
Defined.

(** a wrong password for the admin *)
Lemma failed_sign_in_witness :
  mockAuth.getSession
    (snd (mockAuth.signInWithPassword (env := Fixtures.adminDemo)
            (auth := mockAuth.asciiStrings) "admin@test.com" "guess"
            (Fixtures.initial false Fixtures.emptyDb, mockAuth.signedOutState)))
  = mockAuth.getSession
      (Fixtures.initial false Fixtures.emptyDb, mockAuth.signedOutState).
Proof.
  exact (proj1 (proj2 (failed_sign_in_changes_nothing (env := Fixtures.adminDemo)
                         (auth := mockAuth.asciiStrings) "admin@test.com" "guess"
                         (Fixtures.initial false Fixtures.emptyDb,
                          mockAuth.signedOutState)
                         _ mockAuth.InvalidPassword eq_refl))).
Defined.

(** after a reload the stored session of the admin is found again *)
Lemma reload_witness :
  fst (mockAuth.getSession
         (Fixtures.initial false Fixtures.emptyDb, mockAuth.reloadedState))
  = mockAuth.Done (Some mockAuth.adminSession).
Proof.
  exact (proj1 (proj2 (sign_out_and_reload (auth := mockAuth.asciiStrings)
                         (Fixtures.initial false Fixtures.emptyDb)
                         mockAuth.reloadedState)
                  mockAuth.adminSession eq_refl eq_refl)).
Defined.
